(** * Vigilance-AI: drowsiness detection pipeline

    Shallow embedding of the temporal signal-analysis and alerting core of
    the repository:

    - [src/detection/eye_tracker.py]     (module [EyeTracker])
    - [src/detection/yawn_detector.py]   (module [YawnDetector])
    - [src/detection/head_pose.py]       (module [HeadPoseEstimator])
    - [src/core/alert_system.py]         (module [AlertSystem])
    - [src/core/drowsiness_detector.py]  (module [DrowsinessDetector])

    Numbers.  Python [int] is [Z].  Python and numpy floats are modelled by
    exact rationals [Q]: every arithmetic operation is the exact one, so the
    rounding of binary64 is abstracted away.  Float literals such as [0.0],
    [2.0], [50] and [100.0] are the corresponding rationals.  The one
    exception is [YawnDetector.get_yawn_frequency], whose two divisions
    round their quotient with a function that is a parameter.

    Failure.  Code that can raise returns a [result]; the two exceptions the
    modelled code can raise are [IndexError] (indexing past the end of an
    array) and [ZeroDivisionError].

    External collaborators.  [scipy.spatial.distance.euclidean], the
    perspective-n-point solver of OpenCV and the conversion of its rotation
    vector to Euler angles in degrees are parameters of the development;
    the wall clock and the outcome of a bounded thread join are inputs of
    the operations that consult them. *)

From Stdlib Require Import ZArith QArith Qabs Qround Qminmax List Bool Lia Lqa.
From Stdlib Require Import Sorted.
Import ListNotations.

Set Implicit Arguments.

(* ================================================================== *)
(** * Python runtime: exceptions, indexing, bounded deques *)
(* ================================================================== *)

Module Py.

Inductive PyError : Type :=
| IndexError
| ZeroDivisionError.

Inductive result (A : Type) : Type :=
| Ok (a : A)
| Raise (e : PyError).

Arguments Ok {A} a.
Arguments Raise {A} e.

Definition bind {A B : Type} (m : result A) (k : A -> result B) : result B :=
  match m with
  | Ok a => k a
  | Raise e => Raise e
  end.

Definition is_ok {A : Type} (m : result A) : bool :=
  match m with
  | Ok _ => true
  | Raise _ => false
  end.

(** [a[i]] for a non-negative index [i]. *)
Definition getitem {A : Type} (a : list A) (i : nat) : result A :=
  match nth_error a i with
  | Some x => Ok x
  | None => Raise IndexError
  end.

(** numpy integer-array indexing [a[idx]]: every index must be in range. *)
Fixpoint take {A : Type} (a : list A) (idx : list nat) : result (list A) :=
  match idx with
  | [] => Ok []
  | i :: rest =>
      bind (getitem a i) (fun x =>
      bind (take a rest) (fun xs => Ok (x :: xs)))
  end.

(** [range(lo, hi)] as a list of indices. *)
Definition range (lo hi : nat) : list nat := seq lo (hi - lo).

(** [x < y] and [x == y] on floats. *)
Definition Qlt_bool (x y : Q) : bool := negb (Qle_bool y x).

(** True division [a / b]; Python raises when the divisor is zero. *)
Definition truediv (a b : Q) : result Q :=
  if Qeq_bool b 0 then Raise ZeroDivisionError else Ok (a / b).

(** True division whose quotient is rounded by [fl]. *)
Definition truediv_fl (fl : Q -> Q) (a b : Q) : result Q :=
  if Qeq_bool b 0 then Raise ZeroDivisionError else Ok (fl (a / b)).

(** [collections.deque(maxlen=n).append(x)]: the oldest entries are
    discarded from the left once the bound is exceeded. *)
Definition deque_append {A : Type} (maxlen : nat) (d : list A) (x : A)
  : list A :=
  let d' := d ++ [x] in
  skipn (length d' - maxlen) d'.

(** [sum(1 for x in d if p x)]. *)
Definition count_if {A : Type} (p : A -> bool) (d : list A) : Z :=
  Z.of_nat (length (filter p d)).

End Py.

Import Py.

Declare Scope py_scope.
Delimit Scope py_scope with py.
Notation "x <- m ;; k" := (bind m (fun x => k))
  (at level 61, m at next level, right associativity) : py_scope.
Notation "' pat <- m ;; k" := (bind m (fun x => match x with pat => k end))
  (at level 61, pat pattern, m at next level, right associativity) : py_scope.
Open Scope py_scope.

(** A 2-D landmark point [(x, y)]. *)
Definition Point : Type := (Q * Q)%type.

(* ================================================================== *)
(** * src/detection/eye_tracker.py *)
(* ================================================================== *)

(** The [EyeMetrics] dataclass. *)
Module EyeMetrics.

Record t : Type := mk {
  left_ear : Q;
  right_ear : Q;
  avg_ear : Q;
  is_closed : bool;
  closure_duration_frames : Z
}.

End EyeMetrics.

Module EyeTracker.

Record t : Type := mk {
  ear_threshold : Q;
  history_size : nat;
  drowsy_frames_threshold : Z;
  ear_history : list Q;
  closed_frame_count : Z;
  blink_count : Z;
  is_blinking : bool
}.

(** [EyeTracker.__init__] *)
Definition init (ear_threshold : Q) (history_size : nat)
    (drowsy_frames_threshold : Z) : t :=
  {| ear_threshold := ear_threshold;
     history_size := history_size;
     drowsy_frames_threshold := drowsy_frames_threshold;
     ear_history := [];
     closed_frame_count := 0;
     blink_count := 0;
     is_blinking := false |}.

Section WithDistance.

(** [scipy.spatial.distance.euclidean] *)
Variable euclidean : Point -> Point -> Q.

(** [EyeTracker.calculate_ear] *)
Definition calculate_ear (eye_landmarks : list Point) : result Q :=
  p1 <- getitem eye_landmarks 1 ;;
  p5 <- getitem eye_landmarks 5 ;;
  let A := euclidean p1 p5 in
  p2 <- getitem eye_landmarks 2 ;;
  p4 <- getitem eye_landmarks 4 ;;
  let B := euclidean p2 p4 in
  p0 <- getitem eye_landmarks 0 ;;
  p3 <- getitem eye_landmarks 3 ;;
  let C := euclidean p0 p3 in
  if Qeq_bool C 0 then Ok 0
  else truediv (A + B) (2 * C).

(** [EyeTracker.process_eyes] *)
Definition process_eyes (self : t) (left_eye right_eye : list Point)
  : result (EyeMetrics.t * t) :=
  left_ear <- calculate_ear left_eye ;;
  right_ear <- calculate_ear right_eye ;;
  let avg_ear := (left_ear + right_ear) / 2 in
  let ear_history :=
    deque_append (history_size self) (ear_history self) avg_ear in
  let is_closed := Qlt_bool avg_ear (ear_threshold self) in
  let blink_count :=
    if is_closed then blink_count self
    else if is_blinking self && (0 <? closed_frame_count self)%Z
         then if (closed_frame_count self <? drowsy_frames_threshold self)%Z
              then (blink_count self + 1)%Z
              else blink_count self
         else blink_count self in
  let closed_frame_count :=
    if is_closed then (closed_frame_count self + 1)%Z else 0%Z in
  let self' :=
    {| ear_threshold := ear_threshold self;
       history_size := history_size self;
       drowsy_frames_threshold := drowsy_frames_threshold self;
       ear_history := ear_history;
       closed_frame_count := closed_frame_count;
       blink_count := blink_count;
       is_blinking := is_closed |} in
  Ok ({| EyeMetrics.left_ear := left_ear;
         EyeMetrics.right_ear := right_ear;
         EyeMetrics.avg_ear := avg_ear;
         EyeMetrics.is_closed := is_closed;
         EyeMetrics.closure_duration_frames := closed_frame_count |}, self').

End WithDistance.

(** [EyeTracker.is_drowsy] *)
Definition is_drowsy (self : t) : bool :=
  (drowsy_frames_threshold self <=? closed_frame_count self)%Z.

(** [EyeTracker.get_drowsiness_score] *)
Definition get_drowsiness_score (self : t) : result Q :=
  match ear_history self with
  | [] => Ok 0
  | _ :: _ =>
      let threshold_crossings :=
        count_if (fun ear => Qlt_bool ear (ear_threshold self))
                 (ear_history self) in
      ratio <- truediv (inject_Z (closed_frame_count self))
                       (inject_Z (drowsy_frames_threshold self)) ;;
      let closure_factor := Qmin ratio 1 in
      fraction <- truediv (inject_Z threshold_crossings)
                          (inject_Z (Z.of_nat (length (ear_history self)))) ;;
      let history_score := fraction * 50 in
      let closure_score := closure_factor * 50 in
      Ok (Qmin (history_score + closure_score) 100)
  end.

(** [EyeTracker.reset] *)
Definition reset (self : t) : t :=
  {| ear_threshold := ear_threshold self;
     history_size := history_size self;
     drowsy_frames_threshold := drowsy_frames_threshold self;
     ear_history := [];
     closed_frame_count := 0;
     blink_count := 0;
     is_blinking := false |}.

End EyeTracker.

(* ================================================================== *)
(** * src/detection/yawn_detector.py *)
(* ================================================================== *)

(** The [YawnMetrics] dataclass. *)
Module YawnMetrics.

Record t : Type := mk {
  mar : Q;
  is_yawning : bool;
  yawn_duration_frames : Z;
  total_yawns : Z
}.

End YawnMetrics.

Module YawnDetector.

Record t : Type := mk {
  mar_threshold : Q;
  min_yawn_frames : Z;
  history_size : nat;
  consecutive_yawns_alert : Z;
  mar_history : list Q;
  yawn_frame_count : Z;
  total_yawns : Z;
  is_yawning : bool;
  recent_yawns : list Z;
  frame_number : Z
}.

(** Capacity of the recent-event window, [deque(maxlen=100)]. *)
Definition recent_yawns_maxlen : nat := 100.

(** [YawnDetector.__init__] *)
Definition init (mar_threshold : Q) (min_yawn_frames : Z)
    (history_size : nat) (consecutive_yawns_alert : Z) : t :=
  {| mar_threshold := mar_threshold;
     min_yawn_frames := min_yawn_frames;
     history_size := history_size;
     consecutive_yawns_alert := consecutive_yawns_alert;
     mar_history := [];
     yawn_frame_count := 0;
     total_yawns := 0;
     is_yawning := false;
     recent_yawns := [];
     frame_number := 0 |}.

Section WithDistance.

(** [scipy.spatial.distance.euclidean] *)
Variable euclidean : Point -> Point -> Q.

(** [YawnDetector.calculate_mar] *)
Definition calculate_mar (mouth_landmarks : list Point) : result Q :=
  '(A, B, C) <-
    (if (20 <=? length mouth_landmarks)%nat then
       let inner_start := 12%nat in
       top_inner <- getitem mouth_landmarks (inner_start + 2) ;;
       bottom_inner <- getitem mouth_landmarks (inner_start + 6) ;;
       top_inner2 <- getitem mouth_landmarks (inner_start + 3) ;;
       bottom_inner2 <- getitem mouth_landmarks (inner_start + 5) ;;
       let A := euclidean top_inner bottom_inner in
       let B := euclidean top_inner2 bottom_inner2 in
       left_corner <- getitem mouth_landmarks inner_start ;;
       right_corner <- getitem mouth_landmarks (inner_start + 4) ;;
       let C := euclidean left_corner right_corner in
       Ok (A, B, C)
     else
       m2 <- getitem mouth_landmarks 2 ;;
       m10 <- getitem mouth_landmarks 10 ;;
       let A := euclidean m2 m10 in
       m4 <- getitem mouth_landmarks 4 ;;
       m8 <- getitem mouth_landmarks 8 ;;
       let B := euclidean m4 m8 in
       m0 <- getitem mouth_landmarks 0 ;;
       m6 <- getitem mouth_landmarks 6 ;;
       let C := euclidean m0 m6 in
       Ok (A, B, C)) ;;
  if Qeq_bool C 0 then Ok 0
  else truediv (A + B) (2 * C).

(** [YawnDetector.process_mouth] *)
Definition process_mouth (self : t) (mouth_landmarks : list Point)
  : result (YawnMetrics.t * t) :=
  let frame_number := (frame_number self + 1)%Z in
  mar <- calculate_mar mouth_landmarks ;;
  let mar_history :=
    deque_append (history_size self) (mar_history self) mar in
  let currently_open := Qlt_bool (mar_threshold self) mar in
  let finished :=
    negb currently_open && is_yawning self
    && (min_yawn_frames self <=? yawn_frame_count self)%Z in
  let total_yawns :=
    if finished then (total_yawns self + 1)%Z else total_yawns self in
  let recent_yawns :=
    if finished
    then deque_append recent_yawns_maxlen (recent_yawns self) frame_number
    else recent_yawns self in
  let yawn_frame_count :=
    if currently_open then (yawn_frame_count self + 1)%Z else 0%Z in
  let is_yawning :=
    currently_open && (min_yawn_frames self <=? yawn_frame_count)%Z in
  let self' :=
    {| mar_threshold := mar_threshold self;
       min_yawn_frames := min_yawn_frames self;
       history_size := history_size self;
       consecutive_yawns_alert := consecutive_yawns_alert self;
       mar_history := mar_history;
       yawn_frame_count := yawn_frame_count;
       total_yawns := total_yawns;
       is_yawning := is_yawning;
       recent_yawns := recent_yawns;
       frame_number := frame_number |} in
  Ok ({| YawnMetrics.mar := mar;
         YawnMetrics.is_yawning := is_yawning;
         YawnMetrics.yawn_duration_frames := yawn_frame_count;
         YawnMetrics.total_yawns := total_yawns |}, self').

End WithDistance.

(** Width of the trailing window of [is_fatigue_indicated], in frames. *)
Definition recent_window : Z := 90.

(** [YawnDetector.is_fatigue_indicated] *)
Definition is_fatigue_indicated (self : t) : bool :=
  let recent_count :=
    count_if (fun frame => (frame_number self - frame <? recent_window)%Z)
             (recent_yawns self) in
  (consecutive_yawns_alert self <=? recent_count)%Z.

(** [YawnDetector.reset] *)
Definition reset (self : t) : t :=
  {| mar_threshold := mar_threshold self;
     min_yawn_frames := min_yawn_frames self;
     history_size := history_size self;
     consecutive_yawns_alert := consecutive_yawns_alert self;
     mar_history := [];
     yawn_frame_count := 0;
     total_yawns := 0;
     is_yawning := false;
     recent_yawns := [];
     frame_number := 0 |}.

Section WithRounding.

(** [fl q] is the float that a division whose exact quotient is [q]
    returns. *)
Variable fl : Q -> Q.

(** [YawnDetector.get_yawn_frequency] *)
Definition get_yawn_frequency (self : t) : result Q :=
  if (frame_number self <? 30)%Z then Ok 0
  else
    minutes <- truediv_fl fl (inject_Z (frame_number self))
                             (inject_Z (30 * 60)) ;;
    if Qeq_bool minutes 0 then Ok 0
    else truediv_fl fl (inject_Z (total_yawns self)) minutes.

End WithRounding.

End YawnDetector.

(* ================================================================== *)
(** * src/detection/face_detector.py (landmark subsets only) *)
(* ================================================================== *)

Module FaceDetector.

(** Entries of the [LANDMARKS] table used by the pipeline. *)
Definition right_eye : list nat := range 36 42.
Definition left_eye : list nat := range 42 48.
Definition outer_mouth : list nat := range 48 60.
Definition inner_mouth : list nat := range 60 68.

(** [FaceDetector.get_eye_landmarks] *)
Definition get_eye_landmarks (landmarks : list Point)
  : result (list Point * list Point) :=
  l <- take landmarks left_eye ;;
  r <- take landmarks right_eye ;;
  Ok (l, r).

(** [FaceDetector.get_mouth_landmarks]; [np.vstack] concatenates rows. *)
Definition get_mouth_landmarks (landmarks : list Point)
  : result (list Point) :=
  outer <- take landmarks outer_mouth ;;
  inner <- take landmarks inner_mouth ;;
  Ok (outer ++ inner).

End FaceDetector.

(* ================================================================== *)
(** * src/detection/head_pose.py *)
(* ================================================================== *)

Definition Vec3 : Type := (Q * Q * Q)%type.

(** The [HeadPoseMetrics] dataclass. *)
Module HeadPoseMetrics.

Record t : Type := mk {
  pitch : Q;
  yaw : Q;
  roll : Q;
  is_head_down : bool;
  is_head_tilted : bool;
  rotation_vector : option Vec3;
  translation_vector : option Vec3
}.

End HeadPoseMetrics.

Module HeadPoseEstimator.

Record t : Type := mk {
  pitch_threshold : Q;
  roll_threshold : Q;
  frame_width : Z;
  frame_height : Z;
  camera_matrix : list (list Q)
}.

Definition MODEL_POINTS : list Vec3 :=
  [ (0, 0, 0);
    (0, -(330), -(65));
    (-(225), 170, -(135));
    (225, 170, -(135));
    (-(150), -(150), -(125));
    (150, -(150), -(125)) ].

(** Values of the [LANDMARK_INDICES] table, in the order used by
    [_extract_pose_points]. *)
Definition LANDMARK_INDICES : list nat := [30; 8; 36; 45; 48; 54]%nat.

(** The matrix built by [_update_camera_matrix]. *)
Definition make_camera_matrix (frame_width frame_height : Z)
  : list (list Q) :=
  let focal_length := inject_Z frame_width in
  let center := (inject_Z frame_width / 2, inject_Z frame_height / 2) in
  [ [focal_length; 0; fst center];
    [0; focal_length; snd center];
    [0; 0; 1] ].

(** [HeadPoseEstimator.__init__] *)
Definition init (pitch_threshold roll_threshold : Q)
    (frame_width frame_height : Z) : t :=
  {| pitch_threshold := pitch_threshold;
     roll_threshold := roll_threshold;
     frame_width := frame_width;
     frame_height := frame_height;
     camera_matrix := make_camera_matrix frame_width frame_height |}.

(** [HeadPoseEstimator.set_frame_size] *)
Definition set_frame_size (self : t) (width height : Z) : t :=
  if negb (width =? frame_width self)%Z || negb (height =? frame_height self)%Z
  then {| pitch_threshold := pitch_threshold self;
          roll_threshold := roll_threshold self;
          frame_width := width;
          frame_height := height;
          camera_matrix := make_camera_matrix width height |}
  else self.

(** [HeadPoseEstimator._extract_pose_points] *)
Definition _extract_pose_points (landmarks : list Point)
  : result (list Point) :=
  take landmarks LANDMARK_INDICES.

Section WithSolver.

(** [cv2.solvePnP] with [SOLVEPNP_ITERATIVE] and zero distortion: [None]
    when the solver reports failure, otherwise the rotation and the
    translation vector. *)
Variable solvePnP :
  list Vec3 -> list Point -> list (list Q) -> option (Vec3 * Vec3).

(** [cv2.Rodrigues], [_rotation_matrix_to_euler] and [np.degrees]
    composed: pitch, yaw and roll in degrees of a rotation vector. *)
Variable euler_degrees : Vec3 -> Q * Q * Q.

(** [HeadPoseEstimator.estimate_pose] *)
Definition estimate_pose (self : t) (landmarks : list Point)
    (frame_shape : option (Z * Z)) : result (HeadPoseMetrics.t * t) :=
  let self :=
    match frame_shape with
    | Some (h, w) => set_frame_size self w h
    | None => self
    end in
  image_points <- _extract_pose_points landmarks ;;
  match solvePnP MODEL_POINTS image_points (camera_matrix self) with
  | None =>
      Ok ({| HeadPoseMetrics.pitch := 0;
             HeadPoseMetrics.yaw := 0;
             HeadPoseMetrics.roll := 0;
             HeadPoseMetrics.is_head_down := false;
             HeadPoseMetrics.is_head_tilted := false;
             HeadPoseMetrics.rotation_vector := None;
             HeadPoseMetrics.translation_vector := None |}, self)
  | Some (rotation_vector, translation_vector) =>
      let '(pitch_deg, yaw_deg, roll_deg) := euler_degrees rotation_vector in
      let is_head_down := Qlt_bool pitch_deg (- pitch_threshold self) in
      let is_head_tilted := Qlt_bool (roll_threshold self) (Qabs roll_deg) in
      Ok ({| HeadPoseMetrics.pitch := pitch_deg;
             HeadPoseMetrics.yaw := yaw_deg;
             HeadPoseMetrics.roll := roll_deg;
             HeadPoseMetrics.is_head_down := is_head_down;
             HeadPoseMetrics.is_head_tilted := is_head_tilted;
             HeadPoseMetrics.rotation_vector := Some rotation_vector;
             HeadPoseMetrics.translation_vector := Some translation_vector |},
          self)
  end.

End WithSolver.

End HeadPoseEstimator.

(* ================================================================== *)
(** * src/core/alert_system.py *)
(* ================================================================== *)

Module AlertSystem.

(** Life cycle of the thread object stored in [_alert_thread]: started and
    still inside [_play_alert], or returned from it. *)
Inductive Thread : Type :=
| Playing
| Exited.

Record t : Type := mk {
  sound_enabled : bool;
  visual_enabled : bool;
  cooldown_seconds : Q;
  is_alerting : bool;
  last_alert_time : Q;
  alert_count : Z;
  _stop_event : bool;
  _alert_thread : option Thread
}.

(** [AlertSystem.__init__]; [sound_enabled] is the flag as [_init_audio]
    leaves it. *)
Definition init (sound_enabled visual_enabled : bool) (cooldown_seconds : Q)
  : t :=
  {| sound_enabled := sound_enabled;
     visual_enabled := visual_enabled;
     cooldown_seconds := cooldown_seconds;
     is_alerting := false;
     last_alert_time := 0;
     alert_count := 0;
     _stop_event := false;
     _alert_thread := None |}.

(** [AlertSystem.trigger_alert]; [current_time] is the reading of
    [time.time()] taken on entry. *)
Definition trigger_alert (current_time : Q) (self : t) : bool * t :=
  if Qlt_bool (current_time - last_alert_time self) (cooldown_seconds self)
  then (false, self)
  else if is_alerting self then (false, self)
  else
    (true,
     {| sound_enabled := sound_enabled self;
        visual_enabled := visual_enabled self;
        cooldown_seconds := cooldown_seconds self;
        is_alerting := true;
        last_alert_time := current_time;
        alert_count := (alert_count self + 1)%Z;
        _stop_event :=
          if sound_enabled self then false else _stop_event self;
        _alert_thread :=
          if sound_enabled self then Some Playing else _alert_thread self |}).

(** Return of the background task [_play_alert]: whatever ended its loop,
    the [finally] clause clears [is_alerting]. *)
Definition _play_alert_exit (self : t) : t :=
  match _alert_thread self with
  | Some Playing =>
      {| sound_enabled := sound_enabled self;
         visual_enabled := visual_enabled self;
         cooldown_seconds := cooldown_seconds self;
         is_alerting := false;
         last_alert_time := last_alert_time self;
         alert_count := alert_count self;
         _stop_event := _stop_event self;
         _alert_thread := Some Exited |}
  | _ => self
  end.

(** [AlertSystem.stop_alert]; [joined] tells whether the playback task
    returned within the one-second bound of [join]. *)
Definition stop_alert (joined : bool) (self : t) : t :=
  if negb (is_alerting self) then self
  else
    {| sound_enabled := sound_enabled self;
       visual_enabled := visual_enabled self;
       cooldown_seconds := cooldown_seconds self;
       is_alerting := false;
       last_alert_time := last_alert_time self;
       alert_count := alert_count self;
       _stop_event := true;
       _alert_thread :=
         match _alert_thread self with
         | Some Playing => if joined then Some Exited else Some Playing
         | other => other
         end |}.

(** [AlertSystem.should_show_visual_alert] *)
Definition should_show_visual_alert (self : t) : bool :=
  visual_enabled self && is_alerting self.

(** [AlertSystem.reset] *)
Definition reset (joined : bool) (self : t) : t :=
  let self := stop_alert joined self in
  {| sound_enabled := sound_enabled self;
     visual_enabled := visual_enabled self;
     cooldown_seconds := cooldown_seconds self;
     is_alerting := is_alerting self;
     last_alert_time := 0;
     alert_count := 0;
     _stop_event := _stop_event self;
     _alert_thread := _alert_thread self |}.

(** [AlertSystem.cleanup] *)
Definition cleanup (joined : bool) (self : t) : t := stop_alert joined self.

End AlertSystem.

(* ================================================================== *)
(** * src/core/drowsiness_detector.py *)
(* ================================================================== *)

(** The [DetectionResult] dataclass. *)
Module DetectionResult.

Record t : Type := mk {
  face_detected : bool;
  ear : Q;
  left_ear : Q;
  right_ear : Q;
  eyes_closed : bool;
  blink_count : Z;
  mar : Q;
  is_yawning : bool;
  yawn_count : Z;
  pitch : Q;
  yaw : Q;
  roll : Q;
  head_down : bool;
  head_tilted : bool;
  drowsiness_score : Q;
  is_drowsy : bool;
  is_fatigued : bool;
  landmarks : option (list Point);
  processing_time_ms : Q
}.

(** [DetectionResult()] with every field at its declared default. *)
Definition default : t :=
  {| face_detected := false;
     ear := 0; left_ear := 0; right_ear := 0;
     eyes_closed := false; blink_count := 0;
     mar := 0; is_yawning := false; yawn_count := 0;
     pitch := 0; yaw := 0; roll := 0;
     head_down := false; head_tilted := false;
     drowsiness_score := 0; is_drowsy := false; is_fatigued := false;
     landmarks := None;
     processing_time_ms := 0 |}.

Definition set_processing_time_ms (r : t) (ms : Q) : t :=
  {| face_detected := face_detected r;
     ear := ear r; left_ear := left_ear r; right_ear := right_ear r;
     eyes_closed := eyes_closed r; blink_count := blink_count r;
     mar := mar r; is_yawning := is_yawning r; yawn_count := yawn_count r;
     pitch := pitch r; yaw := yaw r; roll := roll r;
     head_down := head_down r; head_tilted := head_tilted r;
     drowsiness_score := drowsiness_score r; is_drowsy := is_drowsy r;
     is_fatigued := is_fatigued r;
     landmarks := landmarks r;
     processing_time_ms := ms |}.

End DetectionResult.

(** The fields of the [Config] dataclass that the pipeline reads. *)
Module Config.

Record t : Type := mk {
  ear_threshold : Q;
  mar_threshold : Q;
  drowsy_time_seconds : Q;
  blink_time_ms : Q;
  yawn_consecutive_threshold : Z;
  head_pose_threshold : Q;
  camera_width : Z;
  camera_height : Z;
  camera_fps : Z;
  sound_enabled : bool;
  visual_enabled : bool;
  alert_cooldown_seconds : Q
}.

(** [Config()] *)
Definition default : t :=
  {| ear_threshold := 25 # 100;
     mar_threshold := 75 # 100;
     drowsy_time_seconds := 2;
     blink_time_ms := 100;
     yawn_consecutive_threshold := 3;
     head_pose_threshold := 30;
     camera_width := 640;
     camera_height := 480;
     camera_fps := 30;
     sound_enabled := true;
     visual_enabled := true;
     alert_cooldown_seconds := 3 |}.

End Config.

Module DrowsinessDetector.

(** What one call of [process_frame] observes of the outside world. *)
Record FrameInput : Type := mkFrameInput {
  (** [face_detector.get_landmarks(frame)] *)
  detected_landmarks : option (list Point);
  (** [frame.shape[:2]], height first *)
  frame_shape : Z * Z;
  (** [time.time()] on entry *)
  time_start : Q;
  (** [time.time()] inside [trigger_alert] *)
  time_alert : Q;
  (** [time.time()] before returning *)
  time_end : Q;
  (** whether [stop_alert] sees the playback task return in time *)
  join_ok : bool
}.

Record t : Type := mk {
  config : Config.t;
  drowsy_frames_threshold : Z;
  blink_frames_threshold : Z;
  eye_tracker : EyeTracker.t;
  yawn_detector : YawnDetector.t;
  head_pose : HeadPoseEstimator.t;
  alert_system : AlertSystem.t;
  frame_count : Z;
  start_time : Q
}.

(** Python [int(x)] on a float: truncation toward zero. *)
Definition int (x : Q) : Z :=
  if Qle_bool 0 x then Qfloor x else Qceiling x.

(** [DrowsinessDetector.__init__]; [now] is the reading of [time.time()]
    and [audio_ok] tells whether [_init_audio] left sound enabled. *)
Definition init (config : Config.t) (audio_ok : bool) (now : Q) : t :=
  let fps := inject_Z (Config.camera_fps config) in
  let drowsy_frames_threshold :=
    int (Config.drowsy_time_seconds config * fps) in
  let blink_frames_threshold :=
    int ((Config.blink_time_ms config / 1000) * fps) in
  {| config := config;
     drowsy_frames_threshold := drowsy_frames_threshold;
     blink_frames_threshold := blink_frames_threshold;
     eye_tracker :=
       EyeTracker.init (Config.ear_threshold config) 30
                       drowsy_frames_threshold;
     yawn_detector :=
       YawnDetector.init (Config.mar_threshold config) 15 30
                         (Config.yawn_consecutive_threshold config);
     head_pose :=
       HeadPoseEstimator.init (Config.head_pose_threshold config) 20
                              (Config.camera_width config)
                              (Config.camera_height config);
     alert_system :=
       AlertSystem.init (Config.sound_enabled config && audio_ok)
                        (Config.visual_enabled config)
                        (Config.alert_cooldown_seconds config);
     frame_count := 0;
     start_time := now |}.

Section WithCollaborators.

Variable euclidean : Point -> Point -> Q.
Variable solvePnP :
  list Vec3 -> list Point -> list (list Q) -> option (Vec3 * Vec3).
Variable euler_degrees : Vec3 -> Q * Q * Q.

(** The alert policy at the end of [process_frame]. *)
Definition dispatch_alert (inp : FrameInput) (result : DetectionResult.t)
    (alerts : AlertSystem.t) : AlertSystem.t :=
  if DetectionResult.is_drowsy result then
    snd (AlertSystem.trigger_alert (time_alert inp) alerts)
  else if DetectionResult.is_fatigued result then
    snd (AlertSystem.trigger_alert (time_alert inp) alerts)
  else if negb (DetectionResult.eyes_closed result)
          && negb (DetectionResult.is_yawning result) then
    AlertSystem.stop_alert (join_ok inp) alerts
  else alerts.

(** [DrowsinessDetector.process_frame] *)
Definition process_frame (self : t) (inp : FrameInput)
  : result (DetectionResult.t * t) :=
  let start_time_ := time_start inp in
  let frame_count := (frame_count self + 1)%Z in
  let elapsed_ms := (time_end inp - start_time_) * 1000 in
  match detected_landmarks inp with
  | None =>
      Ok (DetectionResult.set_processing_time_ms
            DetectionResult.default elapsed_ms,
          {| config := config self;
             drowsy_frames_threshold := drowsy_frames_threshold self;
             blink_frames_threshold := blink_frames_threshold self;
             eye_tracker := eye_tracker self;
             yawn_detector := yawn_detector self;
             head_pose := head_pose self;
             alert_system := alert_system self;
             frame_count := frame_count;
             start_time := start_time self |})
  | Some landmarks =>
      (* Eye tracking *)
      '(left_eye, right_eye) <- FaceDetector.get_eye_landmarks landmarks ;;
      '(eye_metrics, eye_tracker) <-
        EyeTracker.process_eyes euclidean (eye_tracker self)
                                left_eye right_eye ;;
      (* Yawn detection *)
      mouth_landmarks <- FaceDetector.get_mouth_landmarks landmarks ;;
      '(yawn_metrics, yawn_detector) <-
        YawnDetector.process_mouth euclidean (yawn_detector self)
                                   mouth_landmarks ;;
      (* Head pose estimation *)
      '(head_metrics, head_pose) <-
        HeadPoseEstimator.estimate_pose solvePnP euler_degrees
          (head_pose self) landmarks (Some (frame_shape inp)) ;;
      (* Calculate overall drowsiness *)
      eye_drowsiness <- EyeTracker.get_drowsiness_score eye_tracker ;;
      let yawn_fatigue :=
        if YawnDetector.is_fatigue_indicated yawn_detector
        then 30 else 0 in
      let head_drowsiness :=
        if HeadPoseMetrics.is_head_down head_metrics then 20 else 0 in
      let result :=
        {| DetectionResult.face_detected := true;
           DetectionResult.ear := EyeMetrics.avg_ear eye_metrics;
           DetectionResult.left_ear := EyeMetrics.left_ear eye_metrics;
           DetectionResult.right_ear := EyeMetrics.right_ear eye_metrics;
           DetectionResult.eyes_closed := EyeMetrics.is_closed eye_metrics;
           DetectionResult.blink_count := EyeTracker.blink_count eye_tracker;
           DetectionResult.mar := YawnMetrics.mar yawn_metrics;
           DetectionResult.is_yawning := YawnMetrics.is_yawning yawn_metrics;
           DetectionResult.yawn_count := YawnMetrics.total_yawns yawn_metrics;
           DetectionResult.pitch := HeadPoseMetrics.pitch head_metrics;
           DetectionResult.yaw := HeadPoseMetrics.yaw head_metrics;
           DetectionResult.roll := HeadPoseMetrics.roll head_metrics;
           DetectionResult.head_down :=
             HeadPoseMetrics.is_head_down head_metrics;
           DetectionResult.head_tilted :=
             HeadPoseMetrics.is_head_tilted head_metrics;
           DetectionResult.drowsiness_score :=
             Qmin (eye_drowsiness + yawn_fatigue + head_drowsiness) 100;
           DetectionResult.is_drowsy :=
             EyeTracker.is_drowsy eye_tracker
             || HeadPoseMetrics.is_head_down head_metrics;
           DetectionResult.is_fatigued :=
             YawnDetector.is_fatigue_indicated yawn_detector;
           DetectionResult.landmarks := Some landmarks;
           DetectionResult.processing_time_ms := elapsed_ms |} in
      (* Trigger alerts if needed *)
      let alert_system := dispatch_alert inp result (alert_system self) in
      Ok (result,
          {| config := config self;
             drowsy_frames_threshold := drowsy_frames_threshold self;
             blink_frames_threshold := blink_frames_threshold self;
             eye_tracker := eye_tracker;
             yawn_detector := yawn_detector;
             head_pose := head_pose;
             alert_system := alert_system;
             frame_count := frame_count;
             start_time := start_time self |})
  end.

End WithCollaborators.

(** [DrowsinessDetector.reset]; [now] is the reading of [time.time()]. *)
Definition reset (joined : bool) (now : Q) (self : t) : t :=
  {| config := config self;
     drowsy_frames_threshold := drowsy_frames_threshold self;
     blink_frames_threshold := blink_frames_threshold self;
     eye_tracker := EyeTracker.reset (eye_tracker self);
     yawn_detector := YawnDetector.reset (yawn_detector self);
     head_pose := head_pose self;
     alert_system := AlertSystem.reset joined (alert_system self);
     frame_count := 0;
     start_time := now |}.

End DrowsinessDetector.

(* ================================================================== *)
(** * Test vectors

    The landmark arrays of [tests/test_detection.py] and a distance that is
    exact on them. *)
(* ================================================================== *)

Module Fixtures.

(** Square root of a rational whose reduced numerator and denominator
    multiply to a perfect square; rounded down otherwise. *)
Definition Qsqrt_floor (q : Q) : Q :=
  let r := Qred q in
  Z.sqrt (Qnum r * Zpos (Qden r)) # Qden r.

(** Euclidean distance, exact whenever the distance is rational (in
    particular for axis-aligned pairs of points). *)
Definition euclidean (p q : Point) : Q :=
  let dx := fst p - fst q in
  let dy := snd p - snd q in
  Qsqrt_floor (dx * dx + dy * dy).

Definition pt (x y : Z) : Point := (inject_Z x, inject_Z y).

Definition open_eye : list Point :=
  [pt 0 10; pt 5 0; pt 15 0; pt 20 10; pt 15 20; pt 5 20].

Definition closed_eye : list Point :=
  [pt 0 10; pt 5 9; pt 15 9; pt 20 10; pt 15 11; pt 5 11].

Definition zero_width_eye : list Point :=
  [pt 10 10; pt 10 5; pt 10 5; pt 10 10; pt 10 15; pt 10 15].

(** [np.zeros((20, 2))] with the rows the tests assign. *)
Definition mouth (top bottom : Z) : list Point :=
  repeat (pt 0 0) 12
  ++ [pt 20 50; pt 0 0; pt 50 top; pt 60 top;
      pt 80 50; pt 60 bottom; pt 50 bottom; pt 0 0].

Definition closed_mouth : list Point := mouth 48 52.
Definition open_mouth : list Point := mouth 20 80.

(** A 20-point mouth whose inner corners coincide. *)
Definition zero_width_mouth : list Point :=
  repeat (pt 0 0) 12
  ++ [pt 50 50; pt 0 0; pt 50 20; pt 60 20;
      pt 50 50; pt 60 80; pt 50 80; pt 0 0].

(** Frames as the eye tracker receives them: both eyes closed, both open. *)
Definition closed_eyes : list Point * list Point := (closed_eye, closed_eye).
Definition open_eyes : list Point * list Point := (open_eye, open_eye).

(** [EyeTracker(ear_threshold=0.25, drowsy_frames_threshold=n)] *)
Definition eye_tracker (n : Z) : EyeTracker.t :=
  EyeTracker.init (25 # 100) 30 n.

(** [YawnDetector(mar_threshold=0.5, min_yawn_frames=3)] *)
Definition yawn_detector : YawnDetector.t :=
  YawnDetector.init (5 # 10) 3 30 3.

(** A detector that recorded yawns at frames 10, 20 and 30 and now
    stands at frame [now]. *)
Definition yawned_thrice (now : Z) : YawnDetector.t :=
  {| YawnDetector.mar_threshold := 5 # 10;
     YawnDetector.min_yawn_frames := 3;
     YawnDetector.history_size := 30;
     YawnDetector.consecutive_yawns_alert := 3;
     YawnDetector.mar_history := [];
     YawnDetector.yawn_frame_count := 0;
     YawnDetector.total_yawns := 3;
     YawnDetector.is_yawning := false;
     YawnDetector.recent_yawns := [10; 20; 30]%Z;
     YawnDetector.frame_number := now |}.

(** [AlertSystem(cooldown_seconds=3.0)] with and without sound. *)
Definition alerts : AlertSystem.t := AlertSystem.init true true 3.
Definition silent_alerts : AlertSystem.t := AlertSystem.init false true 3.

(** A 68-point face assembled from an eye shape and a mouth shape. *)
Definition face (eye mouth20 : list Point) : list Point :=
  repeat (pt 0 0) 36 ++ eye ++ eye ++ mouth20.

(** A pose solver that always reports the rotation [r], and one that
    always fails; Euler angles read off the rotation vector as they are. *)
Definition solvePnP_const (r : Vec3)
  : list Vec3 -> list Point -> list (list Q) -> option (Vec3 * Vec3) :=
  fun _ _ _ => Some (r, (0, 0, 0)).

Definition solvePnP_fails
  : list Vec3 -> list Point -> list (list Q) -> option (Vec3 * Vec3) :=
  fun _ _ _ => None.

Definition euler_degrees (r : Vec3) : Q * Q * Q := r.

(** [HeadPoseEstimator(pitch_threshold=30)] for 640x480 frames. *)
Definition head_pose : HeadPoseEstimator.t :=
  HeadPoseEstimator.init 30 20 640 480.


(** [DrowsinessDetector(Config())] constructed at time 1000. *)
Definition detector : DrowsinessDetector.t :=
  DrowsinessDetector.init Config.default true 1000.

(** A 640x480 frame seen at time [now] and processed in 10 ms. *)
Definition frame_at (now : Q) (landmarks : option (list Point))
  : DrowsinessDetector.FrameInput :=
  {| DrowsinessDetector.detected_landmarks := landmarks;
     DrowsinessDetector.frame_shape := (480, 640)%Z;
     DrowsinessDetector.time_start := now;
     DrowsinessDetector.time_alert := now;
     DrowsinessDetector.time_end := now + (1 # 100);
     DrowsinessDetector.join_ok := true |}.

End Fixtures.

(* ================================================================== *)
(** * Frame sequences and the formulas of the specification *)
(* ================================================================== *)

Module Trace.

(** One frame as the eye tracker sees it: left and right eye landmarks. *)
Definition EyeFrame : Type := (list Point * list Point)%type.

Section WithDistance.

Variable euclidean : Point -> Point -> Q.

(** The horizontal point-pair distance [C] of [calculate_ear]. *)
Definition eye_span (eye_landmarks : list Point) : result Q :=
  p0 <- getitem eye_landmarks 0 ;;
  p3 <- getitem eye_landmarks 3 ;;
  Ok (euclidean p0 p3).

(** The horizontal point-pair distance [C] of [calculate_mar]: between the
    inner corners when all 20 points are present, between the outer
    corners otherwise. *)
Definition mouth_span (mouth_landmarks : list Point) : result Q :=
  if (20 <=? length mouth_landmarks)%nat then
    left_corner <- getitem mouth_landmarks 12 ;;
    right_corner <- getitem mouth_landmarks 16 ;;
    Ok (euclidean left_corner right_corner)
  else
    m0 <- getitem mouth_landmarks 0 ;;
    m6 <- getitem mouth_landmarks 6 ;;
    Ok (euclidean m0 m6).

(** The average EAR that [process_eyes] computes for a frame. *)
Definition avg_ear_of (f : EyeFrame) : result Q :=
  l <- EyeTracker.calculate_ear euclidean (fst f) ;;
  r <- EyeTracker.calculate_ear euclidean (snd f) ;;
  Ok ((l + r) / 2).

(** The frame is well formed and its average EAR is below the threshold. *)
Definition eyes_closed (self : EyeTracker.t) (f : EyeFrame) : bool :=
  match avg_ear_of f with
  | Ok a => Qlt_bool a (EyeTracker.ear_threshold self)
  | Raise _ => false
  end.

(** The frame is well formed and its average EAR is not below the
    threshold. *)
Definition eyes_open (self : EyeTracker.t) (f : EyeFrame) : bool :=
  match avg_ear_of f with
  | Ok a => negb (Qlt_bool a (EyeTracker.ear_threshold self))
  | Raise _ => false
  end.

(** Feeding a sequence of frames to [process_eyes], one call per frame. *)
Fixpoint process_eyes_all (self : EyeTracker.t) (frames : list EyeFrame)
  : result EyeTracker.t :=
  match frames with
  | [] => Ok self
  | f :: rest =>
      '(_, self') <- EyeTracker.process_eyes euclidean self (fst f) (snd f) ;;
      process_eyes_all self' rest
  end.

(** The frame is well formed and its MAR is above the threshold. *)
Definition mouth_open (self : YawnDetector.t) (f : list Point) : bool :=
  match YawnDetector.calculate_mar euclidean f with
  | Ok m => Qlt_bool (YawnDetector.mar_threshold self) m
  | Raise _ => false
  end.

(** The frame is well formed and its MAR is not above the threshold. *)
Definition mouth_closed (self : YawnDetector.t) (f : list Point) : bool :=
  match YawnDetector.calculate_mar euclidean f with
  | Ok m => negb (Qlt_bool (YawnDetector.mar_threshold self) m)
  | Raise _ => false
  end.

(** Feeding a sequence of frames to [process_mouth], one call per frame. *)
Fixpoint process_mouth_all (self : YawnDetector.t) (frames : list (list Point))
  : result YawnDetector.t :=
  match frames with
  | [] => Ok self
  | f :: rest =>
      '(_, self') <- YawnDetector.process_mouth euclidean self f ;;
      process_mouth_all self' rest
  end.

End WithDistance.

(** A point moved by the vector [v]. *)
Definition translate (v p : Point) : Point :=
  (fst p + fst v, snd p + snd v).

(** Two outcomes agree: the same exception, or equal numbers. *)
Definition same_outcome (r1 r2 : result Q) : Prop :=
  match r1, r2 with
  | Ok a, Ok b => a == b
  | Raise e1, Raise e2 => e1 = e2
  | _, _ => False
  end.

(** The settings of an alert dispatcher, which no operation changes. *)
Definition alert_settings (a : AlertSystem.t) : bool * bool * Q :=
  (AlertSystem.sound_enabled a, AlertSystem.visual_enabled a,
   AlertSystem.cooldown_seconds a).

(** The last [n] entries of a list (all of it when it is shorter). *)
Definition most_recent {A : Type} (n : nat) (l : list A) : list A :=
  skipn (length l - n) l.

(** What a reachable eye tracker satisfies: the running count is not
    negative and [is_blinking] tells whether it is positive. *)
Definition eye_tracker_consistent (s : EyeTracker.t) : Prop :=
  (0 <= EyeTracker.closed_frame_count s)%Z
  /\ EyeTracker.is_blinking s = (0 <? EyeTracker.closed_frame_count s)%Z.

(** What a reachable yawn detector satisfies. *)
Definition yawn_detector_consistent (s : YawnDetector.t) : Prop :=
  (0 <= YawnDetector.yawn_frame_count s)%Z
  /\ YawnDetector.is_yawning s
     = ((0 <? YawnDetector.yawn_frame_count s)%Z
        && (YawnDetector.min_yawn_frames s
            <=? YawnDetector.yawn_frame_count s)%Z)
  /\ StronglySorted Z.lt (YawnDetector.recent_yawns s)
  /\ Forall (fun f => (f <= YawnDetector.frame_number s)%Z)
            (YawnDetector.recent_yawns s)
  /\ (length (YawnDetector.recent_yawns s)
      <= YawnDetector.recent_yawns_maxlen)%nat
  /\ (Z.of_nat (length (YawnDetector.recent_yawns s))
      <= YawnDetector.total_yawns s)%Z.

(** The camera matrix of a head-pose estimator is the one of its frame
    dimensions. *)
Definition camera_consistent (s : HeadPoseEstimator.t) : Prop :=
  HeadPoseEstimator.camera_matrix s
  = HeadPoseEstimator.make_camera_matrix
      (HeadPoseEstimator.frame_width s) (HeadPoseEstimator.frame_height s).

(** The configuration of a yawn detector, which no operation changes. *)
Definition same_config (s s' : YawnDetector.t) : Prop :=
  YawnDetector.mar_threshold s' = YawnDetector.mar_threshold s
  /\ YawnDetector.min_yawn_frames s' = YawnDetector.min_yawn_frames s
  /\ YawnDetector.consecutive_yawns_alert s'
     = YawnDetector.consecutive_yawns_alert s.

(** Feeding a sequence of frames to [process_frame], one call per
    frame. *)
Fixpoint process_frames
    (euclidean : Point -> Point -> Q)
    (solvePnP :
       list Vec3 -> list Point -> list (list Q) -> option (Vec3 * Vec3))
    (euler_degrees : Vec3 -> Q * Q * Q)
    (d : DrowsinessDetector.t) (inputs : list DrowsinessDetector.FrameInput)
  : result DrowsinessDetector.t :=
  match inputs with
  | [] => Ok d
  | inp :: rest =>
      '(_, d') <- DrowsinessDetector.process_frame euclidean solvePnP
                    euler_degrees d inp ;;
      process_frames euclidean solvePnP euler_degrees d' rest
  end.

(** What stays of a detector built from [config] however many frames it
    processes: the configuration, the frame thresholds, the parameters of
    both trackers and the settings of the dispatcher. *)
Definition built_from (config : Config.t) (audio_ok : bool)
    (d : DrowsinessDetector.t) : Prop :=
  let fresh := DrowsinessDetector.init config audio_ok 0 in
  DrowsinessDetector.config d = config
  /\ DrowsinessDetector.drowsy_frames_threshold d
     = DrowsinessDetector.drowsy_frames_threshold fresh
  /\ DrowsinessDetector.blink_frames_threshold d
     = DrowsinessDetector.blink_frames_threshold fresh
  /\ EyeTracker.reset (DrowsinessDetector.eye_tracker d)
     = DrowsinessDetector.eye_tracker fresh
  /\ YawnDetector.reset (DrowsinessDetector.yawn_detector d)
     = DrowsinessDetector.yawn_detector fresh
  /\ alert_settings (DrowsinessDetector.alert_system d)
     = alert_settings (DrowsinessDetector.alert_system fresh).

(** No recorded yawn lies in the future of the current frame. *)
Definition recent_yawns_bounded (s : YawnDetector.t) : Prop :=
  Forall (fun f => (f <= YawnDetector.frame_number s)%Z)
         (YawnDetector.recent_yawns s).

End Trace.

(** Histories of one alert dispatcher: the calls made by the processing
    loop and the return of the background playback task, each with the time
    at which it happens. *)
Module AlertTrace.

Inductive Event : Type :=
| Trigger (now : Q)
| Stop (now : Q) (joined : bool)
| PlaybackReturns (now : Q).

Definition time_of (e : Event) : Q :=
  match e with
  | Trigger now => now
  | Stop now _ => now
  | PlaybackReturns now => now
  end.

Definition step (a : AlertSystem.t) (e : Event) : AlertSystem.t :=
  match e with
  | Trigger now => snd (AlertSystem.trigger_alert now a)
  | Stop _ joined => AlertSystem.stop_alert joined a
  | PlaybackReturns _ => AlertSystem._play_alert_exit a
  end.

Definition run (a : AlertSystem.t) (es : list Event) : AlertSystem.t :=
  fold_left step es a.

(** The times of the calls of [trigger_alert] that returned true. *)
Fixpoint accepted (a : AlertSystem.t) (es : list Event) : list Q :=
  match es with
  | [] => []
  | e :: rest =>
      let later := accepted (step a e) rest in
      match e with
      | Trigger now =>
          if fst (AlertSystem.trigger_alert now a) then now :: later
          else later
      | _ => later
      end
  end.

(** Each time of [ts] is at least [cooldown] after the one before it, the
    first one at least [cooldown] after [previous]. *)
Fixpoint spaced (cooldown previous : Q) (ts : list Q) : Prop :=
  match ts with
  | [] => True
  | t :: rest => cooldown <= t - previous /\ spaced cooldown t rest
  end.

(** Events that are not a call of [stop_alert]. *)
Definition is_stop (e : Event) : bool :=
  match e with
  | Stop _ _ => true
  | _ => false
  end.

(** Events other than a call of [trigger_alert]. *)
Definition is_trigger (e : Event) : bool :=
  match e with
  | Trigger _ => true
  | _ => false
  end.

(** The time at which the last alert ended: the time of the latest event
    that took the dispatcher from ALERTING to IDLE, if there is one. *)
Fixpoint last_alert_end (a : AlertSystem.t) (es : list Event)
    (ended : option Q) : option Q :=
  match es with
  | [] => ended
  | e :: rest =>
      let a' := step a e in
      last_alert_end a' rest
        (if AlertSystem.is_alerting a && negb (AlertSystem.is_alerting a')
         then Some (time_of e) else ended)
  end.

End AlertTrace.

(** The formulas as the specification words them, to be compared with what
    the code computes. *)
Module Spec.

(** "fraction of history entries below ear_threshold" *)
Definition fraction_below (threshold : Q) (history : list Q) : Q :=
  inject_Z (count_if (fun e => Qlt_bool e threshold) history)
  / inject_Z (Z.of_nat (length history)).

(** "50 x (fraction of history below threshold) + 50 x
    min(closed_frame_count / drowsy_frames_threshold, 1)" *)
Definition drowsinessScore (self : EyeTracker.t) : Q :=
  50 * fraction_below (EyeTracker.ear_threshold self)
                      (EyeTracker.ear_history self)
  + 50 * Qmin (inject_Z (EyeTracker.closed_frame_count self)
               / inject_Z (EyeTracker.drowsy_frames_threshold self)) 1.

(** A frame index lies within the trailing 90-frame window that ends at
    the current frame. *)
Definition in_trailing_window (current frame : Z) : bool :=
  ((current - 90 <? frame) && (frame <=? current))%Z.

(** "count of recent-event entries within a trailing 90-frame window" *)
Fixpoint yawns_in_window (current : Z) (events : list Z) : Z :=
  match events with
  | [] => 0
  | f :: rest =>
      ((if in_trailing_window current f then 1 else 0)
       + yawns_in_window current rest)%Z
  end.

(** "min(eye score + (30 if fatigue else 0) + (20 if head down else 0),
    100)" *)
Definition fused_score (eye_score : Q) (fatigue head_down : bool) : Q :=
  Qmin (eye_score + (if fatigue then 30 else 0)
        + (if head_down then 20 else 0)) 100.

End Spec.

(** States reached in the scenarios used as witnesses. *)
Module Scenarios.

(** A tracker that keeps two history entries, and the same tracker after
    three frames with closed eyes. *)
Definition short_memory : EyeTracker.t := EyeTracker.init (25 # 100) 2 5.

Definition short_memory_after_three : EyeTracker.t :=
  Eval vm_compute in
    match Trace.process_eyes_all Fixtures.euclidean short_memory
            (repeat Fixtures.closed_eyes 3) with
    | Ok s => s
    | Raise _ => short_memory
    end.

(** [EyeTracker(drowsy_frames_threshold=5)] after six frames with closed
    eyes. *)
Definition drowsy_tracker : EyeTracker.t :=
  Eval vm_compute in
    match Trace.process_eyes_all Fixtures.euclidean (Fixtures.eye_tracker 5)
            (repeat Fixtures.closed_eyes 6) with
    | Ok s => s
    | Raise _ => Fixtures.eye_tracker 5
    end.

(** [YawnDetector(mar_threshold=0.5, min_yawn_frames=3)] after the yawn of
    [test_yawn_detection]. *)
Definition after_one_yawn : YawnDetector.t :=
  Eval vm_compute in
    match Trace.process_mouth_all Fixtures.euclidean Fixtures.yawn_detector
            (repeat Fixtures.open_mouth 4 ++ [Fixtures.closed_mouth]) with
    | Ok s => s
    | Raise _ => Fixtures.yawn_detector
    end.

(** Two frames seen by the default detector: a face with closed eyes and
    an open mouth, then no face. *)
Definition two_frames : list DrowsinessDetector.FrameInput :=
  [ Fixtures.frame_at 1001
      (Some (Fixtures.face Fixtures.closed_eye Fixtures.open_mouth));
    Fixtures.frame_at 1002 None ].

Definition detector_after_two_frames : DrowsinessDetector.t :=
  Eval vm_compute in
    match Trace.process_frames Fixtures.euclidean
            (Fixtures.solvePnP_const (- (40), 0, 0)) Fixtures.euler_degrees
            Fixtures.detector two_frames with
    | Ok d => d
    | Raise _ => Fixtures.detector
    end.

End Scenarios.

(* ================================================================== *)
(** * Basic facts about the runtime model *)
(* ================================================================== *)

Unset Implicit Arguments.

Lemma Qlt_bool_true (x y : Q) : Qlt_bool x y = true <-> x < y.
Proof.
  unfold Qlt_bool. rewrite negb_true_iff. split; intro H.
  - apply Qnot_le_lt. intro L. apply Qle_bool_iff in L. congruence.
  - destruct (Qle_bool y x) eqn:E; [|reflexivity].
    apply Qle_bool_iff in E. exfalso. exact (Qlt_not_le _ _ H E).
Qed.

Lemma Qlt_bool_false (x y : Q) : Qlt_bool x y = false <-> y <= x.
Proof.
  unfold Qlt_bool. rewrite negb_false_iff. apply Qle_bool_iff.
Qed.

Lemma truediv_ok (a b : Q) : ~ b == 0 -> truediv a b = Ok (a / b).
Proof.
  intro H. unfold truediv.
  destruct (Qeq_bool b 0) eqn:E; [|reflexivity].
  apply Qeq_bool_iff in E. contradiction.
Qed.

Lemma truediv_zero (a b : Q) : b == 0 -> truediv a b = Raise ZeroDivisionError.
Proof.
  intro H. unfold truediv. apply Qeq_bool_iff in H. now rewrite H.
Qed.

Lemma getitem_ok {A : Type} (a : list A) (i : nat) :
  (i < length a)%nat -> exists x, getitem a i = Ok x.
Proof.
  intro H. unfold getitem.
  destruct (nth_error a i) eqn:E; [eauto|].
  apply nth_error_None in E. lia.
Qed.

Lemma take_ok {A : Type} (a : list A) (idx : list nat) :
  Forall (fun i => (i < length a)%nat) idx ->
  exists xs, take a idx = Ok xs /\ length xs = length idx.
Proof.
  induction 1 as [|i rest Hi _ IH]; simpl; [eauto|].
  destruct (getitem_ok a i Hi) as [x ->]. destruct IH as [xs [-> L]].
  simpl. eexists; split; [reflexivity|simpl; congruence].
Qed.

Lemma count_if_bounds {A : Type} (p : A -> bool) (d : list A) :
  (0 <= count_if p d <= Z.of_nat (length d))%Z.
Proof.
  unfold count_if. pose proof (filter_length_le p d). lia.
Qed.

(** Resolve the next array access of the goal, given that the index is
    within the array. *)
Ltac step_getitem :=
  match goal with
  | |- context [getitem ?a ?i] =>
      let x := fresh "p" in
      let H := fresh "Hget" in
      destruct (@getitem_ok _ a i) as [x H];
      [ simpl in *; lia | rewrite H; cbn [bind] ]
  end.

(* ================================================================== *)
(** * RatioMath: [calculate_ear] and [calculate_mar] *)
(* ================================================================== *)

Section RatioMath.

Variable euclidean : Point -> Point -> Q.

Lemma ratio_guarded (A B C : Q) :
  exists v,
    (if Qeq_bool C 0 then Ok 0 else truediv (A + B) (2 * C)) = Ok v
    /\ (C == 0 -> v = 0).
Proof.
  destruct (Qeq_bool C 0) eqn:E.
  - exists 0. split; reflexivity.
  - apply Qeq_bool_neq in E.
    exists ((A + B) / (2 * C)). split.
    + apply truediv_ok. intro H. apply E. lra.
    + intro H. contradiction.
Qed.

Lemma calculate_ear_total (eye : list Point) :
  (6 <= length eye)%nat ->
  exists v c,
    EyeTracker.calculate_ear euclidean eye = Ok v
    /\ Trace.eye_span euclidean eye = Ok c
    /\ (c == 0 -> v = 0).
Proof.
  intro L. unfold EyeTracker.calculate_ear, Trace.eye_span.
  do 6 step_getitem.
  match goal with
  | |- context [truediv (?A + ?B) (2 * ?C)] =>
      destruct (ratio_guarded A B C) as [v [Hv Hz]]; exists v, C; auto
  end.
Qed.

Lemma calculate_mar_total (mouth : list Point) :
  (11 <= length mouth)%nat ->
  exists v c,
    YawnDetector.calculate_mar euclidean mouth = Ok v
    /\ Trace.mouth_span euclidean mouth = Ok c
    /\ (c == 0 -> v = 0).
Proof.
  intro L. unfold YawnDetector.calculate_mar, Trace.mouth_span.
  destruct (20 <=? length mouth)%nat eqn:E.
  - apply Nat.leb_le in E. cbn [Nat.add].
    do 6 step_getitem.
    match goal with
    | |- context [truediv (?A + ?B) (2 * ?C)] =>
        destruct (ratio_guarded A B C) as [v [Hv Hz]]; exists v, C; auto
    end.
  - do 6 step_getitem.
    match goal with
    | |- context [truediv (?A + ?B) (2 * ?C)] =>
        destruct (ratio_guarded A B C) as [v [Hv Hz]]; exists v, C; auto
    end.
Qed.

End RatioMath.

(** C7. For every six-point eye array and every mouth array holding the
    points the formula reads, [calculate_ear] and [calculate_mar] return a
    value and never raise (in particular no [ZeroDivisionError]), and the
    value is exactly [0.0] whenever the horizontal point-pair distance is
    zero: the guard returns before the division is evaluated. *)
Theorem ratio_zero_span_returns_zero
    (euclidean : Point -> Point -> Q) (eye mouth : list Point) :
  (6 <= length eye)%nat ->
  (11 <= length mouth)%nat ->
  (exists v c,
      EyeTracker.calculate_ear euclidean eye = Ok v
      /\ Trace.eye_span euclidean eye = Ok c
      /\ (c == 0 -> v = 0))
  /\ (exists v c,
      YawnDetector.calculate_mar euclidean mouth = Ok v
      /\ Trace.mouth_span euclidean mouth = Ok c
      /\ (c == 0 -> v = 0)).
Proof.
  intros He Hm. split.
  - now apply calculate_ear_total.
  - now apply calculate_mar_total.
Qed.

Lemma ratio_zero_span_returns_zero_witness :
  (exists v c,
      EyeTracker.calculate_ear Fixtures.euclidean Fixtures.zero_width_eye
      = Ok v
      /\ Trace.eye_span Fixtures.euclidean Fixtures.zero_width_eye = Ok c
      /\ (c == 0 -> v = 0))
  /\ (exists v c,
      YawnDetector.calculate_mar Fixtures.euclidean Fixtures.zero_width_mouth
      = Ok v
      /\ Trace.mouth_span Fixtures.euclidean Fixtures.zero_width_mouth = Ok c
      /\ (c == 0 -> v = 0)).
Proof.
  apply (ratio_zero_span_returns_zero Fixtures.euclidean
           Fixtures.zero_width_eye Fixtures.zero_width_mouth);
    simpl; lia.
Defined.

(* ================================================================== *)
(** * EyeSignalTracker *)
(* ================================================================== *)

Section EyeTrackerFacts.

Variable euclidean : Point -> Point -> Q.

Import EyeTracker.

Lemma eyes_closed_ext (s s' : EyeTracker.t) (f : Trace.EyeFrame) :
  ear_threshold s' = ear_threshold s ->
  Trace.eyes_closed euclidean s' f = Trace.eyes_closed euclidean s f.
Proof. intro H. unfold Trace.eyes_closed. now rewrite H. Qed.

Lemma eyes_open_ext (s s' : EyeTracker.t) (f : Trace.EyeFrame) :
  ear_threshold s' = ear_threshold s ->
  Trace.eyes_open euclidean s' f = Trace.eyes_open euclidean s f.
Proof. intro H. unfold Trace.eyes_open. now rewrite H. Qed.

(** Effect of one frame with closed eyes. *)
Lemma process_eyes_closed (s : EyeTracker.t) (f : Trace.EyeFrame) :
  Trace.eyes_closed euclidean s f = true ->
  exists m s',
    process_eyes euclidean s (fst f) (snd f) = Ok (m, s')
    /\ EyeMetrics.is_closed m = true
    /\ closed_frame_count s' = (closed_frame_count s + 1)%Z
    /\ blink_count s' = blink_count s
    /\ is_blinking s' = true
    /\ drowsy_frames_threshold s' = drowsy_frames_threshold s
    /\ ear_threshold s' = ear_threshold s.
Proof.
  unfold Trace.eyes_closed, Trace.avg_ear_of, process_eyes.
  destruct (calculate_ear euclidean (fst f)) as [l|]; [|discriminate].
  destruct (calculate_ear euclidean (snd f)) as [r|]; [|discriminate].
  cbn [bind]. intro H. rewrite H.
  do 2 eexists. split; [reflexivity|]. cbn. auto 10.
Qed.

(** Effect of one frame with open eyes. *)
Lemma process_eyes_open (s : EyeTracker.t) (f : Trace.EyeFrame) :
  Trace.eyes_open euclidean s f = true ->
  exists m s',
    process_eyes euclidean s (fst f) (snd f) = Ok (m, s')
    /\ EyeMetrics.is_closed m = false
    /\ closed_frame_count s' = 0%Z
    /\ blink_count s' =
         (if is_blinking s && (0 <? closed_frame_count s)%Z
             && (closed_frame_count s <? drowsy_frames_threshold s)%Z
          then blink_count s + 1 else blink_count s)%Z
    /\ is_blinking s' = false
    /\ drowsy_frames_threshold s' = drowsy_frames_threshold s
    /\ ear_threshold s' = ear_threshold s.
Proof.
  unfold Trace.eyes_open, Trace.avg_ear_of, process_eyes.
  destruct (calculate_ear euclidean (fst f)) as [l|]; [|discriminate].
  destruct (calculate_ear euclidean (snd f)) as [r|]; [|discriminate].
  cbn [bind]. rewrite negb_true_iff. intro H. rewrite H.
  do 2 eexists. split; [reflexivity|]. cbn.
  repeat split.
  destruct (is_blinking s && (0 <? closed_frame_count s)%Z);
    destruct (closed_frame_count s <? drowsy_frames_threshold s)%Z;
    reflexivity.
Qed.

(** Effect of a run of frames with closed eyes. *)
Lemma process_eyes_all_closed (fs : list Trace.EyeFrame) :
  forall s : EyeTracker.t,
  Forall (fun f => Trace.eyes_closed euclidean s f = true) fs ->
  exists s',
    Trace.process_eyes_all euclidean s fs = Ok s'
    /\ closed_frame_count s'
       = (closed_frame_count s + Z.of_nat (length fs))%Z
    /\ blink_count s' = blink_count s
    /\ drowsy_frames_threshold s' = drowsy_frames_threshold s
    /\ ear_threshold s' = ear_threshold s
    /\ (fs <> [] -> is_blinking s' = true).
Proof.
  induction fs as [|f rest IH]; intros s H.
  - exists s. cbn. repeat split; try lia. congruence.
  - inversion H as [|? ? Hf Hrest]; subst.
    destruct (process_eyes_closed s f Hf)
      as (m & s1 & E1 & _ & C1 & B1 & K1 & T1 & R1).
    destruct (IH s1) as (s' & E' & C' & B' & T' & R' & K').
    { eapply Forall_impl; [|exact Hrest].
      intros g Hg. cbv beta in *. now rewrite (eyes_closed_ext s s1 g R1). }
    exists s'. cbn [Trace.process_eyes_all]. rewrite E1. cbn [bind].
    split; [exact E'|].
    repeat split; try congruence.
    + rewrite C', C1. cbn [length]. lia.
    + intros _. destruct rest as [|g rest'].
      * cbn in E'. congruence.
      * apply K'. discriminate.
Qed.

Lemma Forall_prefix {A : Type} (P : A -> Prop) (k : nat) (l : list A) :
  Forall P l -> Forall P (firstn k l).
Proof.
  intro H. rewrite <- (firstn_skipn k l) in H.
  now apply Forall_app in H.
Qed.

Lemma is_drowsy_iff (s : EyeTracker.t) :
  is_drowsy s = true
  <-> (drowsy_frames_threshold s <= closed_frame_count s)%Z.
Proof. unfold is_drowsy. apply Z.leb_le. Qed.

Lemma is_drowsy_false_iff (s : EyeTracker.t) :
  is_drowsy s = false
  <-> (closed_frame_count s < drowsy_frames_threshold s)%Z.
Proof. unfold is_drowsy. apply Z.leb_gt. Qed.

(** Every prefix of a run of closed frames is itself processed without
    error, and leaves the running count at the start count plus the
    length of the prefix. *)
Lemma process_eyes_all_closed_prefix
    (s : EyeTracker.t) (fs : list Trace.EyeFrame) (k : nat) :
  Forall (fun f => Trace.eyes_closed euclidean s f = true) fs ->
  (k <= length fs)%nat ->
  exists sk,
    Trace.process_eyes_all euclidean s (firstn k fs) = Ok sk
    /\ closed_frame_count sk = (closed_frame_count s + Z.of_nat k)%Z
    /\ blink_count sk = blink_count s
    /\ drowsy_frames_threshold sk = drowsy_frames_threshold s.
Proof.
  intros H L.
  destruct (process_eyes_all_closed (firstn k fs) s (Forall_prefix _ k fs H))
    as (sk & E & C & B & T & _).
  exists sk. rewrite length_firstn, Nat.min_l in C by exact L. auto.
Qed.

End EyeTrackerFacts.

(** C3. [is_drowsy] holds exactly when [closed_frame_count] has reached
    [drowsy_frames_threshold].  Fed to a tracker with a positive threshold
    and a non-negative running count, a run of closed frames (average EAR
    below [ear_threshold]) is drowsy after every prefix of at least
    [drowsy_frames_threshold] frames, hence for as long as the closure
    continues, and the first open frame after the run makes [is_drowsy]
    false again. *)
Theorem sustained_closure_is_drowsy
    (euclidean : Point -> Point -> Q) (s : EyeTracker.t)
    (closure : list Trace.EyeFrame) (reopen : Trace.EyeFrame) :
  (0 < EyeTracker.drowsy_frames_threshold s)%Z ->
  (0 <= EyeTracker.closed_frame_count s)%Z ->
  Forall (fun f => Trace.eyes_closed euclidean s f = true) closure ->
  (EyeTracker.drowsy_frames_threshold s <= Z.of_nat (length closure))%Z ->
  Trace.eyes_open euclidean s reopen = true ->
  (forall s0 : EyeTracker.t,
      EyeTracker.is_drowsy s0 = true
      <-> (EyeTracker.drowsy_frames_threshold s0
           <= EyeTracker.closed_frame_count s0)%Z)
  /\ (forall k : nat,
      (k <= length closure)%nat ->
      (EyeTracker.drowsy_frames_threshold s <= Z.of_nat k)%Z ->
      exists sk,
        Trace.process_eyes_all euclidean s (firstn k closure) = Ok sk
        /\ EyeTracker.is_drowsy sk = true)
  /\ (exists s1 m s2,
      Trace.process_eyes_all euclidean s closure = Ok s1
      /\ EyeTracker.is_drowsy s1 = true
      /\ EyeTracker.process_eyes euclidean s1 (fst reopen) (snd reopen)
         = Ok (m, s2)
      /\ EyeTracker.is_drowsy s2 = false).
Proof.
  intros Hthr Hcnt Hclosed Hlen Hopen.
  split; [exact is_drowsy_iff|]. split.
  - intros k Hk Hkt.
    destruct (process_eyes_all_closed_prefix euclidean s closure k Hclosed Hk)
      as (sk & E & C & _ & T).
    exists sk. split; [exact E|]. apply is_drowsy_iff. lia.
  - destruct (process_eyes_all_closed euclidean closure s Hclosed)
      as (s1 & E1 & C1 & _ & T1 & R1 & _).
    assert (Hopen1 : Trace.eyes_open euclidean s1 reopen = true)
      by now rewrite (eyes_open_ext euclidean s s1 reopen R1).
    destruct (process_eyes_open euclidean s1 reopen Hopen1)
      as (m & s2 & E2 & _ & C2 & _ & _ & T2 & _).
    exists s1, m, s2. repeat split; trivial.
    + apply is_drowsy_iff. lia.
    + apply is_drowsy_false_iff. lia.
Qed.

(** C4. A closure of at least one frame whose duration, as counted by
    [closed_frame_count], stays strictly below [drowsy_frames_threshold],
    followed by an open frame, increments [blink_count] by exactly one
    (it is unchanged while the eyes are closed), never makes [is_drowsy]
    true, and the open frame resets [closed_frame_count] to 0. *)
Theorem short_closure_counts_one_blink
    (euclidean : Point -> Point -> Q) (s : EyeTracker.t)
    (closure : list Trace.EyeFrame) (reopen : Trace.EyeFrame) :
  (0 <= EyeTracker.closed_frame_count s)%Z ->
  closure <> [] ->
  Forall (fun f => Trace.eyes_closed euclidean s f = true) closure ->
  (EyeTracker.closed_frame_count s + Z.of_nat (length closure)
   < EyeTracker.drowsy_frames_threshold s)%Z ->
  Trace.eyes_open euclidean s reopen = true ->
  (forall k : nat,
      (k <= length closure)%nat ->
      exists sk,
        Trace.process_eyes_all euclidean s (firstn k closure) = Ok sk
        /\ EyeTracker.is_drowsy sk = false
        /\ EyeTracker.blink_count sk = EyeTracker.blink_count s)
  /\ (exists s1 m s2,
      Trace.process_eyes_all euclidean s closure = Ok s1
      /\ EyeTracker.process_eyes euclidean s1 (fst reopen) (snd reopen)
         = Ok (m, s2)
      /\ EyeTracker.blink_count s2 = (EyeTracker.blink_count s + 1)%Z
      /\ EyeTracker.closed_frame_count s2 = 0%Z
      /\ EyeTracker.is_drowsy s2 = false).
Proof.
  intros Hcnt Hne Hclosed Hshort Hopen. split.
  - intros k Hk.
    destruct (process_eyes_all_closed_prefix euclidean s closure k Hclosed Hk)
      as (sk & E & C & B & T).
    exists sk. repeat split; trivial.
    apply is_drowsy_false_iff. lia.
  - destruct (process_eyes_all_closed euclidean closure s Hclosed)
      as (s1 & E1 & C1 & B1 & T1 & R1 & K1).
    assert (Hopen1 : Trace.eyes_open euclidean s1 reopen = true)
      by now rewrite (eyes_open_ext euclidean s s1 reopen R1).
    destruct (process_eyes_open euclidean s1 reopen Hopen1)
      as (m & s2 & E2 & _ & C2 & B2 & _ & T2 & _).
    exists s1, m, s2. repeat split; trivial.
    + rewrite B2, (K1 Hne), B1, T1.
      assert (Hlen : (0 < length closure)%nat)
        by (destruct closure; [congruence | cbn; lia]).
      replace (0 <? EyeTracker.closed_frame_count s1)%Z with true
        by (symmetry; apply Z.ltb_lt; lia).
      replace (EyeTracker.closed_frame_count s1
               <? EyeTracker.drowsy_frames_threshold s)%Z with true
        by (symmetry; apply Z.ltb_lt; lia).
      reflexivity.
    + apply is_drowsy_false_iff. lia.
Qed.

Lemma sustained_closure_is_drowsy_witness :
  exists s1 m s2,
    Trace.process_eyes_all Fixtures.euclidean (Fixtures.eye_tracker 5)
      (repeat Fixtures.closed_eyes 6) = Ok s1
    /\ EyeTracker.is_drowsy s1 = true
    /\ EyeTracker.process_eyes Fixtures.euclidean s1
         Fixtures.open_eye Fixtures.open_eye = Ok (m, s2)
    /\ EyeTracker.is_drowsy s2 = false.
Proof.
  refine (proj2 (proj2 (sustained_closure_is_drowsy Fixtures.euclidean
            (Fixtures.eye_tracker 5) (repeat Fixtures.closed_eyes 6)
            Fixtures.open_eyes _ _ _ _ _))).
  - reflexivity.
  - simpl; lia.
  - repeat constructor.
  - simpl; lia.
  - reflexivity.
Defined.

(** C3 as worded, for every eye-tracker state, fails when
    [drowsy_frames_threshold] is zero, the value that
    [int(drowsy_time_seconds * fps)] takes for a drowsy time of 0.01 s at
    30 frames per second.  Three closed frames are then a closure of at
    least [drowsy_frames_threshold] frames, and the open frame that
    follows resets [closed_frame_count] to 0, yet [is_drowsy] is still
    true after it. *)
Lemma sustained_closure_is_drowsy_counterexample :
  DrowsinessDetector.int ((1 # 100) * 30) = 0%Z
  /\ forallb (Trace.eyes_closed Fixtures.euclidean (Fixtures.eye_tracker 0))
             (repeat Fixtures.closed_eyes 3) = true
  /\ (EyeTracker.drowsy_frames_threshold (Fixtures.eye_tracker 0)
      <= Z.of_nat (length (repeat Fixtures.closed_eyes 3)))%Z
  /\ Trace.eyes_open Fixtures.euclidean (Fixtures.eye_tracker 0)
        Fixtures.open_eyes = true
  /\ match Trace.process_eyes_all Fixtures.euclidean (Fixtures.eye_tracker 0)
             (repeat Fixtures.closed_eyes 3) with
     | Ok s1 =>
         match EyeTracker.process_eyes Fixtures.euclidean s1
                 Fixtures.open_eye Fixtures.open_eye with
         | Ok (_, s2) =>
             EyeTracker.closed_frame_count s2 = 0%Z
             /\ EyeTracker.is_drowsy s2 = true
         | Raise _ => False
         end
     | Raise _ => False
     end.
Proof.
  vm_compute. repeat split; discriminate.
Qed.

Lemma short_closure_counts_one_blink_witness :
  exists s1 m s2,
    Trace.process_eyes_all Fixtures.euclidean (Fixtures.eye_tracker 10)
      (repeat Fixtures.closed_eyes 2) = Ok s1
    /\ EyeTracker.process_eyes Fixtures.euclidean s1
         Fixtures.open_eye Fixtures.open_eye = Ok (m, s2)
    /\ EyeTracker.blink_count s2 = 1%Z
    /\ EyeTracker.closed_frame_count s2 = 0%Z
    /\ EyeTracker.is_drowsy s2 = false.
Proof.
  refine (proj2 (short_closure_counts_one_blink Fixtures.euclidean
            (Fixtures.eye_tracker 10) (repeat Fixtures.closed_eyes 2)
            Fixtures.open_eyes _ _ _ _ _)).
  - simpl; lia.
  - discriminate.
  - repeat constructor.
  - simpl; lia.
  - reflexivity.
Defined.

(* ================================================================== *)
(** * MouthSignalTracker *)
(* ================================================================== *)

Lemma Forall_suffix {A : Type} (P : A -> Prop) (k : nat) (l : list A) :
  Forall P l -> Forall P (skipn k l).
Proof.
  intro H. rewrite <- (firstn_skipn k l) in H.
  now apply Forall_app in H.
Qed.

(** A bounded deque keeps only entries of the old deque and the new one. *)
Lemma deque_append_Forall {A : Type} (P : A -> Prop) (n : nat)
    (d : list A) (x : A) :
  Forall P d -> P x -> Forall P (deque_append n d x).
Proof.
  intros Hd Hx. unfold deque_append. apply Forall_suffix.
  apply Forall_app. split; [exact Hd | now constructor].
Qed.

(** With a positive bound the entry just appended is the newest one. *)
Lemma deque_append_In {A : Type} (n : nat) (d : list A) (x : A) :
  In x (deque_append (S n) d x).
Proof.
  unfold deque_append. rewrite skipn_app, length_app. cbn [length].
  apply in_or_app. right.
  replace (length d + 1 - S n - length d)%nat with 0%nat by lia.
  now left.
Qed.

Section YawnDetectorFacts.

Variable euclidean : Point -> Point -> Q.

Import YawnDetector.

Lemma mouth_open_ext (s s' : YawnDetector.t) (f : list Point) :
  Trace.same_config s s' ->
  Trace.mouth_open euclidean s' f = Trace.mouth_open euclidean s f.
Proof. intros [H _]. unfold Trace.mouth_open. now rewrite H. Qed.

Lemma mouth_closed_ext (s s' : YawnDetector.t) (f : list Point) :
  Trace.same_config s s' ->
  Trace.mouth_closed euclidean s' f = Trace.mouth_closed euclidean s f.
Proof. intros [H _]. unfold Trace.mouth_closed. now rewrite H. Qed.

(** Effect of one frame with the mouth open. *)
Lemma process_mouth_open (s : YawnDetector.t) (f : list Point) :
  Trace.mouth_open euclidean s f = true ->
  exists m s',
    process_mouth euclidean s f = Ok (m, s')
    /\ yawn_frame_count s' = (yawn_frame_count s + 1)%Z
    /\ total_yawns s' = total_yawns s
    /\ recent_yawns s' = recent_yawns s
    /\ is_yawning s' = (min_yawn_frames s <=? yawn_frame_count s + 1)%Z
    /\ frame_number s' = (frame_number s + 1)%Z
    /\ Trace.same_config s s'.
Proof.
  unfold Trace.mouth_open, process_mouth.
  destruct (calculate_mar euclidean f) as [v|]; [|discriminate].
  cbn [bind]. intro H. rewrite H.
  do 2 eexists. split; [reflexivity|]. cbn. unfold Trace.same_config. cbn.
  auto 10.
Qed.

(** Effect of one frame with the mouth closed. *)
Lemma process_mouth_closed (s : YawnDetector.t) (f : list Point) :
  Trace.mouth_closed euclidean s f = true ->
  exists m s',
    process_mouth euclidean s f = Ok (m, s')
    /\ yawn_frame_count s' = 0%Z
    /\ is_yawning s' = false
    /\ frame_number s' = (frame_number s + 1)%Z
    /\ total_yawns s' =
         (if is_yawning s && (min_yawn_frames s <=? yawn_frame_count s)%Z
          then total_yawns s + 1 else total_yawns s)%Z
    /\ recent_yawns s' =
         (if is_yawning s && (min_yawn_frames s <=? yawn_frame_count s)%Z
          then deque_append recent_yawns_maxlen (recent_yawns s)
                            (frame_number s + 1)%Z
          else recent_yawns s)
    /\ Trace.same_config s s'.
Proof.
  unfold Trace.mouth_closed, process_mouth.
  destruct (calculate_mar euclidean f) as [v|]; [|discriminate].
  cbn [bind]. rewrite negb_true_iff. intro H. rewrite H.
  do 2 eexists. split; [reflexivity|]. cbn. unfold Trace.same_config. cbn.
  auto 10.
Qed.

(** Effect of a run of frames with the mouth open: no yawn is counted
    while the mouth stays open. *)
Lemma process_mouth_all_open (fs : list (list Point)) :
  forall s : YawnDetector.t,
  Forall (fun f => Trace.mouth_open euclidean s f = true) fs ->
  exists s',
    Trace.process_mouth_all euclidean s fs = Ok s'
    /\ yawn_frame_count s'
       = (yawn_frame_count s + Z.of_nat (length fs))%Z
    /\ total_yawns s' = total_yawns s
    /\ recent_yawns s' = recent_yawns s
    /\ frame_number s' = (frame_number s + Z.of_nat (length fs))%Z
    /\ Trace.same_config s s'
    /\ (fs <> [] ->
        is_yawning s' = (min_yawn_frames s <=? yawn_frame_count s')%Z).
Proof.
  induction fs as [|f rest IH]; intros s H.
  - exists s. cbn. unfold Trace.same_config.
    repeat split; try lia. congruence.
  - inversion H as [|? ? Hf Hrest]; subst.
    destruct (process_mouth_open s f Hf)
      as (m & s1 & E1 & C1 & T1 & R1 & Y1 & N1 & K1).
    destruct (IH s1) as (s' & E' & C' & T' & R' & N' & K' & Y').
    { eapply Forall_impl; [|exact Hrest].
      intros g Hg. cbv beta in *. now rewrite (mouth_open_ext s s1 g K1). }
    exists s'. cbn [Trace.process_mouth_all]. rewrite E1. cbn [bind].
    split; [exact E'|].
    destruct K1 as (K1a & K1b & K1c). destruct K' as (K'a & K'b & K'c).
    unfold Trace.same_config.
    repeat split; try congruence.
    + rewrite C', C1. cbn [length]. lia.
    + rewrite N', N1. cbn [length]. lia.
    + intros _. destruct rest as [|g rest'].
      * cbn in E'. injection E' as <-. rewrite Y1, C1. reflexivity.
      * rewrite <- K1b. apply Y'. discriminate.
Qed.

Lemma process_mouth_all_open_prefix
    (s : YawnDetector.t) (fs : list (list Point)) (k : nat) :
  Forall (fun f => Trace.mouth_open euclidean s f = true) fs ->
  (k <= length fs)%nat ->
  exists sk,
    Trace.process_mouth_all euclidean s (firstn k fs) = Ok sk
    /\ yawn_frame_count sk = (yawn_frame_count s + Z.of_nat k)%Z
    /\ total_yawns sk = total_yawns s.
Proof.
  intros H L.
  destruct (process_mouth_all_open (firstn k fs) s (Forall_prefix _ k fs H))
    as (sk & E & C & T & _).
  exists sk. rewrite length_firstn, Nat.min_l in C by exact L. auto.
Qed.

End YawnDetectorFacts.

(** C5. An open-mouth episode (frames with MAR above [mar_threshold]) of
    at least one frame, followed by a frame with the mouth closed: no yawn
    is counted while the mouth is open; the closing frame resets
    [yawn_frame_count] to 0; if the episode, as counted by
    [yawn_frame_count], is shorter than [min_yawn_frames], [total_yawns]
    and the recent-event window are unchanged, and if it lasted at least
    [min_yawn_frames], [total_yawns] grows by exactly one and the number of
    the closing frame is appended to the recent-event window. *)
Theorem yawn_debounced_by_min_frames
    (euclidean : Point -> Point -> Q) (s : YawnDetector.t)
    (episode : list (list Point)) (closing : list Point) :
  episode <> [] ->
  Forall (fun f => Trace.mouth_open euclidean s f = true) episode ->
  Trace.mouth_closed euclidean s closing = true ->
  let long_enough :=
    (YawnDetector.min_yawn_frames s
     <=? YawnDetector.yawn_frame_count s + Z.of_nat (length episode))%Z in
  (forall k : nat,
      (k <= length episode)%nat ->
      exists sk,
        Trace.process_mouth_all euclidean s (firstn k episode) = Ok sk
        /\ YawnDetector.total_yawns sk = YawnDetector.total_yawns s)
  /\ (exists s1 m s2,
      Trace.process_mouth_all euclidean s episode = Ok s1
      /\ YawnDetector.process_mouth euclidean s1 closing = Ok (m, s2)
      /\ YawnDetector.yawn_frame_count s2 = 0%Z
      /\ YawnDetector.frame_number s2
         = (YawnDetector.frame_number s
            + Z.of_nat (length episode) + 1)%Z
      /\ YawnDetector.total_yawns s2
         = (YawnDetector.total_yawns s
            + if long_enough then 1 else 0)%Z
      /\ YawnDetector.recent_yawns s2
         = (if long_enough
            then deque_append YawnDetector.recent_yawns_maxlen
                   (YawnDetector.recent_yawns s)
                   (YawnDetector.frame_number s2)
            else YawnDetector.recent_yawns s)
      /\ (long_enough = true ->
          In (YawnDetector.frame_number s2)
             (YawnDetector.recent_yawns s2))).
Proof.
  intros Hne Hopen Hclose long_enough. split.
  - intros k Hk.
    destruct (process_mouth_all_open_prefix euclidean s episode k Hopen Hk)
      as (sk & E & _ & T).
    exists sk. auto.
  - destruct (process_mouth_all_open euclidean episode s Hopen)
      as (s1 & E1 & C1 & T1 & R1 & N1 & K1 & Y1).
    assert (Hclose1 : Trace.mouth_closed euclidean s1 closing = true)
      by now rewrite (mouth_closed_ext euclidean s s1 closing K1).
    destruct (process_mouth_closed euclidean s1 closing Hclose1)
      as (m & s2 & E2 & C2 & _ & N2 & T2 & R2 & _).
    destruct K1 as (_ & K1 & _).
    rewrite (Y1 Hne), K1, Bool.andb_diag, C1 in T2, R2.
    fold long_enough in T2, R2.
    exists s1, m, s2. repeat split; trivial.
    + lia.
    + rewrite T2, T1. destruct long_enough; lia.
    + rewrite R2, R1, N2. reflexivity.
    + intro L. rewrite R2, L, N2. apply deque_append_In.
Qed.

Lemma yawn_debounced_by_min_frames_witness :
  exists s1 m s2,
    Trace.process_mouth_all Fixtures.euclidean Fixtures.yawn_detector
      (repeat Fixtures.open_mouth 4) = Ok s1
    /\ YawnDetector.process_mouth Fixtures.euclidean s1
         Fixtures.closed_mouth = Ok (m, s2)
    /\ YawnDetector.yawn_frame_count s2 = 0%Z
    /\ YawnDetector.frame_number s2 = 5%Z
    /\ YawnDetector.total_yawns s2 = 1%Z
    /\ YawnDetector.recent_yawns s2
       = deque_append 100 [] (YawnDetector.frame_number s2)
    /\ (true = true ->
        In (YawnDetector.frame_number s2) (YawnDetector.recent_yawns s2)).
Proof.
  refine (proj2 (yawn_debounced_by_min_frames Fixtures.euclidean
            Fixtures.yawn_detector (repeat Fixtures.open_mouth 4)
            Fixtures.closed_mouth _ _ _)).
  - discriminate.
  - repeat constructor.
  - reflexivity.
Defined.

(** The count of [is_fatigue_indicated] is the number of recorded yawns
    inside the trailing window, as long as no recorded yawn lies in the
    future. *)
Lemma recent_count_is_window_count (now : Z) (events : list Z) :
  Forall (fun f => (f <= now)%Z) events ->
  count_if (fun frame => (now - frame <? YawnDetector.recent_window)%Z)
           events
  = Spec.yawns_in_window now events.
Proof.
  unfold count_if, YawnDetector.recent_window.
  induction 1 as [|f rest Hf _ IH]; [reflexivity|].
  cbn [filter Spec.yawns_in_window]. rewrite <- IH.
  unfold Spec.in_trailing_window.
  replace (f <=? now)%Z with true by (symmetry; apply Z.leb_le; exact Hf).
  rewrite andb_true_r.
  destruct (now - f <? 90)%Z eqn:E1; destruct (now - 90 <? f)%Z eqn:E2;
    cbn [length]; lia.
Qed.

Lemma yawns_in_window_none (now : Z) (events : list Z) :
  Forall (fun f => Spec.in_trailing_window now f = false) events ->
  Spec.yawns_in_window now events = 0%Z.
Proof.
  induction 1 as [|f rest Hf _ IH]; [reflexivity|].
  cbn [Spec.yawns_in_window]. rewrite Hf, IH. reflexivity.
Qed.

(** C6. For a detector none of whose recorded yawns lies in the future,
    [is_fatigue_indicated] returns true exactly when the number of
    recorded yawns within the trailing 90-frame window of the current
    frame reaches [consecutive_yawns_alert]; with a positive
    [consecutive_yawns_alert], once every recorded yawn is outside the
    window it returns false. *)
Theorem fatigue_iff_yawns_in_window (s : YawnDetector.t) :
  Trace.recent_yawns_bounded s ->
  (YawnDetector.is_fatigue_indicated s = true
   <-> (YawnDetector.consecutive_yawns_alert s
        <= Spec.yawns_in_window (YawnDetector.frame_number s)
                                (YawnDetector.recent_yawns s))%Z)
  /\ ((0 < YawnDetector.consecutive_yawns_alert s)%Z ->
      Forall (fun f =>
                Spec.in_trailing_window (YawnDetector.frame_number s) f
                = false)
             (YawnDetector.recent_yawns s) ->
      YawnDetector.is_fatigue_indicated s = false).
Proof.
  intros Hb.
  assert (E : YawnDetector.is_fatigue_indicated s
              = (YawnDetector.consecutive_yawns_alert s
                 <=? Spec.yawns_in_window (YawnDetector.frame_number s)
                       (YawnDetector.recent_yawns s))%Z).
  { unfold YawnDetector.is_fatigue_indicated.
    now rewrite (recent_count_is_window_count _ _ Hb). }
  split.
  - rewrite E. apply Z.leb_le.
  - intros Hpos Hout. rewrite E, (yawns_in_window_none _ _ Hout).
    apply Z.leb_gt. exact Hpos.
Qed.

Lemma fatigue_iff_yawns_in_window_witness :
  YawnDetector.is_fatigue_indicated (Fixtures.yawned_thrice 95) = true
  /\ YawnDetector.is_fatigue_indicated (Fixtures.yawned_thrice 200) = false.
Proof.
  split.
  - apply (fatigue_iff_yawns_in_window (Fixtures.yawned_thrice 95)).
    + repeat constructor; discriminate.
    + discriminate.
  - apply (fatigue_iff_yawns_in_window (Fixtures.yawned_thrice 200)).
    + repeat constructor; discriminate.
    + reflexivity.
    + repeat constructor.
Defined.

(** C6 as worded, for every yawn-detector state, fails in its last part
    when [consecutive_yawns_alert] is zero.  A detector constructed with
    that threshold, after one yawn and a hundred quiet frames, has its
    only recorded yawn outside the trailing window, and
    [is_fatigue_indicated] still returns true, as it does on the fresh
    detector, which has recorded no yawn at all. *)
Lemma fatigue_iff_yawns_in_window_counterexample :
  (YawnDetector.recent_yawns (YawnDetector.init (5 # 10) 3 30 0) = []
   /\ YawnDetector.is_fatigue_indicated (YawnDetector.init (5 # 10) 3 30 0)
      = true)
  /\ match Trace.process_mouth_all Fixtures.euclidean
             (YawnDetector.init (5 # 10) 3 30 0)
             (repeat Fixtures.open_mouth 4
              ++ repeat Fixtures.closed_mouth 100) with
     | Ok s =>
         YawnDetector.frame_number s = 104%Z
         /\ YawnDetector.recent_yawns s = [5%Z]
         /\ forallb (fun f =>
                       negb (Spec.in_trailing_window
                               (YawnDetector.frame_number s) f))
                    (YawnDetector.recent_yawns s) = true
         /\ Spec.yawns_in_window (YawnDetector.frame_number s)
                                 (YawnDetector.recent_yawns s) = 0%Z
         /\ YawnDetector.is_fatigue_indicated s = true
     | Raise _ => False
     end.
Proof.
  vm_compute. repeat split; discriminate.
Qed.

Lemma filter_none {A : Type} (p : A -> bool) (l : list A) :
  (forall x, In x l -> p x = false) -> filter p l = [].
Proof.
  induction l as [|x rest IH]; intro H; [reflexivity|].
  cbn. rewrite (H x (or_introl eq_refl)). apply IH.
  intros y Hy. apply H. now right.
Qed.

Section YawnDetectorInvariant.

Variable euclidean : Point -> Point -> Q.

(** [process_mouth] never records a yawn in the future. *)
Lemma process_mouth_keeps_bounded (s s' : YawnDetector.t)
    (f : list Point) (m : YawnMetrics.t) :
  Trace.recent_yawns_bounded s ->
  YawnDetector.process_mouth euclidean s f = Ok (m, s') ->
  Trace.recent_yawns_bounded s'.
Proof.
  unfold Trace.recent_yawns_bounded, YawnDetector.process_mouth.
  intros Hb.
  destruct (YawnDetector.calculate_mar euclidean f) as [v|];
    [|discriminate].
  cbn [bind]. intro E. injection E as _ <-. cbn.
  assert (Hb' : Forall (fun g => (g <= YawnDetector.frame_number s + 1)%Z)
                       (YawnDetector.recent_yawns s)).
  { eapply Forall_impl; [|exact Hb]. cbv beta. intros; lia. }
  match goal with
  | |- Forall _ (if ?c then _ else _) => destruct c
  end; [|exact Hb'].
  apply deque_append_Forall; [exact Hb' | lia].
Qed.

Lemma process_mouth_all_keeps_bounded (fs : list (list Point)) :
  forall s s' : YawnDetector.t,
  Trace.recent_yawns_bounded s ->
  Trace.process_mouth_all euclidean s fs = Ok s' ->
  Trace.recent_yawns_bounded s'.
Proof.
  induction fs as [|f rest IH]; intros s s' Hb E; cbn in E.
  - now injection E as <-.
  - destruct (YawnDetector.process_mouth euclidean s f) as [[m s1]|] eqn:E1;
      [|discriminate].
    cbn in E. eapply IH; [|exact E].
    eapply process_mouth_keeps_bounded; eassumption.
Qed.

(** Every detector reached from a fresh one satisfies the hypothesis of
    the fatigue characterisation. *)
Lemma reachable_recent_yawns_bounded
    (mar_threshold : Q) (min_yawn_frames : Z) (history_size : nat)
    (consecutive_yawns_alert : Z) (fs : list (list Point))
    (s : YawnDetector.t) :
  Trace.process_mouth_all euclidean
    (YawnDetector.init mar_threshold min_yawn_frames history_size
                       consecutive_yawns_alert) fs = Ok s ->
  Trace.recent_yawns_bounded s.
Proof.
  apply process_mouth_all_keeps_bounded. constructor.
Qed.

(** A frame with the mouth closed, seen by a detector that is not in a
    yawn, records nothing. *)
Lemma process_mouth_all_closed (fs : list (list Point)) :
  forall s : YawnDetector.t,
  YawnDetector.is_yawning s = false ->
  Forall (fun f => Trace.mouth_closed euclidean s f = true) fs ->
  exists s',
    Trace.process_mouth_all euclidean s fs = Ok s'
    /\ YawnDetector.recent_yawns s' = YawnDetector.recent_yawns s
    /\ YawnDetector.total_yawns s' = YawnDetector.total_yawns s
    /\ YawnDetector.frame_number s'
       = (YawnDetector.frame_number s + Z.of_nat (length fs))%Z
    /\ Trace.same_config s s'.
Proof.
  induction fs as [|f rest IH]; intros s Hy H.
  - exists s. cbn. unfold Trace.same_config. repeat split; lia.
  - inversion H as [|? ? Hf Hrest]; subst.
    destruct (process_mouth_closed euclidean s f Hf)
      as (m & s1 & E1 & _ & Y1 & N1 & T1 & R1 & K1).
    rewrite Hy in T1, R1. cbn in T1, R1.
    destruct (IH s1 Y1) as (s' & E' & R' & T' & N' & K').
    { eapply Forall_impl; [|exact Hrest].
      intros g Hg. cbv beta in *.
      now rewrite (mouth_closed_ext euclidean s s1 g K1). }
    exists s'. cbn [Trace.process_mouth_all]. rewrite E1. cbn [bind].
    split; [exact E'|].
    destruct K1 as (K1a & K1b & K1c). destruct K' as (K'a & K'b & K'c).
    unfold Trace.same_config. repeat split; try congruence.
    rewrite N', N1. cbn [length]. lia.
Qed.

(** Fatigue is not indicated any more once 90 frames with the mouth
    closed have passed without a yawn. *)
Lemma fatigue_clears_after_quiet_window
    (s : YawnDetector.t) (fs : list (list Point)) :
  Trace.recent_yawns_bounded s ->
  (0 < YawnDetector.consecutive_yawns_alert s)%Z ->
  YawnDetector.is_yawning s = false ->
  Forall (fun f => Trace.mouth_closed euclidean s f = true) fs ->
  (90 <= length fs)%nat ->
  exists s',
    Trace.process_mouth_all euclidean s fs = Ok s'
    /\ YawnDetector.is_fatigue_indicated s' = false.
Proof.
  intros Hb Hpos Hy Hclosed Hlen.
  destruct (process_mouth_all_closed fs s Hy Hclosed)
    as (s' & E & R & _ & N & (_ & _ & K)).
  exists s'. split; [exact E|].
  unfold YawnDetector.is_fatigue_indicated, count_if.
  rewrite R, N, K.
  replace (filter _ (YawnDetector.recent_yawns s)) with (@nil Z).
  - cbn. apply Z.leb_gt. exact Hpos.
  - symmetry. apply filter_none.
    intros f Hf. unfold Trace.recent_yawns_bounded in Hb.
    rewrite Forall_forall in Hb. specialize (Hb f Hf). cbv beta in Hb.
    unfold YawnDetector.recent_window. lia.
Qed.

End YawnDetectorInvariant.

(* ================================================================== *)
(** * The eye tracker's drowsiness score *)
(* ================================================================== *)

Lemma inject_Z_nonzero (z : Z) : z <> 0%Z -> ~ inject_Z z == 0.
Proof.
  intros H E. apply H. unfold Qeq in E. cbn in E. lia.
Qed.

Lemma inject_Z_pos (z : Z) : (0 < z)%Z -> 0 < inject_Z z.
Proof. intro H. unfold Qlt. cbn. lia. Qed.

Lemma inject_Z_le (a b : Z) : (a <= b)%Z -> inject_Z a <= inject_Z b.
Proof. intro H. unfold Qle. cbn. lia. Qed.

Lemma Qdiv_unit_interval (a b : Z) :
  (0 <= a <= b)%Z -> (0 < b)%Z ->
  0 <= inject_Z a / inject_Z b /\ inject_Z a / inject_Z b <= 1.
Proof.
  intros [Ha Hab] Hb.
  pose proof (inject_Z_pos b Hb) as Hb'. split.
  - apply Qle_shift_div_l; [exact Hb'|].
    rewrite Qmult_0_l. exact (inject_Z_le 0 a Ha).
  - apply Qle_shift_div_r; [exact Hb'|].
    rewrite Qmult_1_l. exact (inject_Z_le a b Hab).
Qed.

Lemma Qdiv_nonneg (a b : Z) :
  (0 <= a)%Z -> (0 < b)%Z -> 0 <= inject_Z a / inject_Z b.
Proof.
  intros Ha Hb.
  apply Qle_shift_div_l; [exact (inject_Z_pos b Hb)|].
  rewrite Qmult_0_l. exact (inject_Z_le 0 a Ha).
Qed.

(** The score as a function of its two divisions, once both succeed. *)
Lemma get_drowsiness_score_nonempty (s : EyeTracker.t) :
  EyeTracker.ear_history s <> [] ->
  EyeTracker.drowsy_frames_threshold s <> 0%Z ->
  EyeTracker.get_drowsiness_score s
  = Ok (Qmin
          (Spec.fraction_below (EyeTracker.ear_threshold s)
                               (EyeTracker.ear_history s) * 50
           + Qmin (inject_Z (EyeTracker.closed_frame_count s)
                   / inject_Z (EyeTracker.drowsy_frames_threshold s)) 1
             * 50)
          100).
Proof.
  intros Hne Hthr. unfold EyeTracker.get_drowsiness_score.
  destruct (EyeTracker.ear_history s) as [|e rest] eqn:E; [congruence|].
  rewrite truediv_ok by now apply inject_Z_nonzero.
  cbn [bind].
  rewrite truediv_ok by (apply inject_Z_nonzero; cbn [length]; lia).
  reflexivity.
Qed.


(** C8. For every eye tracker with a non-empty history, a positive
    [drowsy_frames_threshold] and a non-negative [closed_frame_count],
    [get_drowsiness_score] returns 50 times the fraction of history
    entries below [ear_threshold] plus 50 times
    [min(closed_frame_count / drowsy_frames_threshold, 1)], and the result
    lies in [0, 100]. *)
Theorem drowsiness_score_formula_and_range (s : EyeTracker.t) :
  EyeTracker.ear_history s <> [] ->
  (0 < EyeTracker.drowsy_frames_threshold s)%Z ->
  (0 <= EyeTracker.closed_frame_count s)%Z ->
  exists v,
    EyeTracker.get_drowsiness_score s = Ok v
    /\ v == Spec.drowsinessScore s
    /\ 0 <= v /\ v <= 100.
Proof.
  intros Hne Hthr Hcnt.
  rewrite get_drowsiness_score_nonempty by (trivial; lia).
  eexists. split; [reflexivity|].
  unfold Spec.drowsinessScore.
  set (fr := Spec.fraction_below _ _).
  set (cl := Qmin _ 1).
  assert (Hfr : 0 <= fr /\ fr <= 1).
  { apply Qdiv_unit_interval.
    - apply count_if_bounds.
    - destruct (EyeTracker.ear_history s); [congruence | cbn [length]; lia]. }
  assert (Hcl : 0 <= cl /\ cl <= 1).
  { split.
    - apply Q.min_glb; [now apply Qdiv_nonneg | lra].
    - apply Q.le_min_r. }
  assert (Hmin : Qmin (fr * 50 + cl * 50) 100 == fr * 50 + cl * 50)
    by (apply Q.min_l; lra).
  rewrite Hmin. repeat split; lra.
Qed.

Lemma drowsiness_score_formula_and_range_witness :
  exists v,
    EyeTracker.get_drowsiness_score
      {| EyeTracker.ear_threshold := 25 # 100;
         EyeTracker.history_size := 30;
         EyeTracker.drowsy_frames_threshold := 5;
         EyeTracker.ear_history := [1; 1 # 10; 1 # 10; 1 # 10];
         EyeTracker.closed_frame_count := 3;
         EyeTracker.blink_count := 0;
         EyeTracker.is_blinking := true |} = Ok v
    /\ v == 50 * (3 # 4) + 50 * (3 # 5)
    /\ 0 <= v /\ v <= 100.
Proof.
  apply (drowsiness_score_formula_and_range
           {| EyeTracker.ear_threshold := 25 # 100;
              EyeTracker.history_size := 30;
              EyeTracker.drowsy_frames_threshold := 5;
              EyeTracker.ear_history := [1; 1 # 10; 1 # 10; 1 # 10];
              EyeTracker.closed_frame_count := 3;
              EyeTracker.blink_count := 0;
              EyeTracker.is_blinking := true |}).
  - discriminate.
  - reflexivity.
  - discriminate.
Defined.

(** C8 as worded, for every eye-tracker state, fails in three ways.
    (1) With [drowsy_frames_threshold] zero, the value of
    [int(0.01 * 30)], and one frame in the history,
    [get_drowsiness_score] raises [ZeroDivisionError] and returns no score.
    (2) With a negative threshold, [int(-1.0 * 30)], sixty closed frames
    give the score -50, below the range.  (3) With [history_size] zero the
    history stays empty and the score is 0.0 whatever the closure, where
    the second term of the formula alone is 30 after three closed frames
    against a threshold of five. *)
Lemma drowsiness_score_formula_and_range_counterexample :
  (DrowsinessDetector.int ((1 # 100) * 30) = 0%Z
   /\ match Trace.process_eyes_all Fixtures.euclidean
              (EyeTracker.init (25 # 100) 30 0) [Fixtures.closed_eyes] with
      | Ok s =>
          EyeTracker.get_drowsiness_score s = Raise ZeroDivisionError
      | Raise _ => False
      end)
  /\ (DrowsinessDetector.int (- (1) * 30) = (- 30)%Z
      /\ match Trace.process_eyes_all Fixtures.euclidean
                 (EyeTracker.init (25 # 100) 30 (- 30))
                 (repeat Fixtures.closed_eyes 60) with
         | Ok s =>
             match EyeTracker.get_drowsiness_score s with
             | Ok v => v == - (50) /\ v == Spec.drowsinessScore s /\ v < 0
             | Raise _ => False
             end
         | Raise _ => False
         end)
  /\ match Trace.process_eyes_all Fixtures.euclidean
             (EyeTracker.init (25 # 100) 0 5)
             (repeat Fixtures.closed_eyes 3) with
     | Ok s =>
         EyeTracker.ear_history s = []
         /\ EyeTracker.get_drowsiness_score s = Ok 0
         /\ 50 * Qmin (inject_Z (EyeTracker.closed_frame_count s)
                       / inject_Z (EyeTracker.drowsy_frames_threshold s)) 1
            == 30
     | Raise _ => False
     end.
Proof.
  vm_compute. repeat split; discriminate.
Qed.

(** C10. With an empty EAR history, where the fraction of the history below
    the threshold is zero over zero, [get_drowsiness_score] returns exactly
    [0.0], whatever the other fields hold. *)
Theorem empty_history_scores_zero (s : EyeTracker.t) :
  EyeTracker.ear_history s = [] ->
  EyeTracker.get_drowsiness_score s = Ok 0
  /\ count_if (fun e => Qlt_bool e (EyeTracker.ear_threshold s))
              (EyeTracker.ear_history s) = 0%Z
  /\ Z.of_nat (length (EyeTracker.ear_history s)) = 0%Z.
Proof.
  intro H. unfold EyeTracker.get_drowsiness_score. rewrite H.
  repeat split.
Qed.

Lemma empty_history_scores_zero_witness :
  EyeTracker.get_drowsiness_score (EyeTracker.init (25 # 100) 30 45) = Ok 0.
Proof.
  apply (empty_history_scores_zero (EyeTracker.init (25 # 100) 30 45)).
  reflexivity.
Defined.

(** A freshly constructed tracker and a freshly reset one have an empty
    history, so both score [0.0]. *)
Lemma fresh_or_reset_tracker_scores_zero
    (ear_threshold : Q) (history_size : nat) (drowsy_frames_threshold : Z)
    (s : EyeTracker.t) :
  EyeTracker.get_drowsiness_score
    (EyeTracker.init ear_threshold history_size drowsy_frames_threshold)
  = Ok 0
  /\ EyeTracker.get_drowsiness_score (EyeTracker.reset s) = Ok 0.
Proof. split; reflexivity. Qed.

(* ================================================================== *)
(** * AlertDispatcher *)
(* ================================================================== *)

(** What no operation other than [reset] and a successful trigger touches. *)
Lemma quiet_step_preserves (a : AlertSystem.t) (e : AlertTrace.Event) :
  AlertTrace.is_trigger e = false ->
  AlertSystem.last_alert_time (AlertTrace.step a e)
  = AlertSystem.last_alert_time a
  /\ AlertSystem.cooldown_seconds (AlertTrace.step a e)
     = AlertSystem.cooldown_seconds a
  /\ AlertSystem.alert_count (AlertTrace.step a e)
     = AlertSystem.alert_count a.
Proof.
  destruct e as [now|now joined|now]; cbn; [discriminate| |]; intros _.
  - unfold AlertSystem.stop_alert.
    destruct (negb (AlertSystem.is_alerting a)); cbn; auto.
  - unfold AlertSystem._play_alert_exit.
    destruct (AlertSystem._alert_thread a) as [[|]|]; cbn; auto.
Qed.

Lemma quiet_run_preserves (es : list AlertTrace.Event) :
  forall a : AlertSystem.t,
  forallb (fun e => negb (AlertTrace.is_trigger e)) es = true ->
  AlertSystem.last_alert_time (AlertTrace.run a es)
  = AlertSystem.last_alert_time a
  /\ AlertSystem.cooldown_seconds (AlertTrace.run a es)
     = AlertSystem.cooldown_seconds a
  /\ AlertSystem.alert_count (AlertTrace.run a es)
     = AlertSystem.alert_count a.
Proof.
  induction es as [|e rest IH]; intros a H; cbn; [auto|].
  cbn in H. apply andb_true_iff in H as [He Hrest].
  apply negb_true_iff in He.
  destruct (quiet_step_preserves a e He) as (L & C & N).
  destruct (IH (AlertTrace.step a e) Hrest) as (L' & C' & N').
  unfold AlertTrace.run in *. repeat split; congruence.
Qed.

(** A trigger inside the cooldown is refused without any state change. *)
Lemma trigger_alert_on_cooldown (a : AlertSystem.t) (now : Q) :
  now - AlertSystem.last_alert_time a < AlertSystem.cooldown_seconds a ->
  AlertSystem.trigger_alert now a = (false, a).
Proof.
  intro H. unfold AlertSystem.trigger_alert.
  apply Qlt_bool_true in H. now rewrite H.
Qed.

Lemma trigger_alert_while_alerting (a : AlertSystem.t) (now : Q) :
  AlertSystem.is_alerting a = true ->
  AlertSystem.trigger_alert now a = (false, a).
Proof.
  intro H. unfold AlertSystem.trigger_alert. rewrite H.
  now destruct (Qlt_bool _ _).
Qed.

(** A successful trigger leaves its own time in [last_alert_time]. *)
Lemma trigger_alert_success (a : AlertSystem.t) (now : Q) :
  fst (AlertSystem.trigger_alert now a) = true ->
  AlertSystem.last_alert_time (snd (AlertSystem.trigger_alert now a)) = now
  /\ AlertSystem.cooldown_seconds (snd (AlertSystem.trigger_alert now a))
     = AlertSystem.cooldown_seconds a.
Proof.
  unfold AlertSystem.trigger_alert.
  destruct (Qlt_bool _ _); [discriminate|].
  destruct (AlertSystem.is_alerting a); [discriminate|].
  cbn. auto.
Qed.

(** C2, as the code has it. [trigger_alert] returns false and leaves the
    whole state unchanged when the dispatcher is alerting or when the time
    elapsed since [last_alert_time], the time of the last successful
    trigger, is below the cooldown.  Otherwise it returns true, moves to
    ALERTING, records the current time, increments [alert_count], and, when
    sound is enabled, clears the stop signal and starts the playback task;
    with sound disabled no task is started.  Of two calls within the
    cooldown of each other, the first of which succeeded, with nothing but
    [stop_alert] calls and returns of the playback task in between, the
    second returns false and changes nothing, so [alert_count] does not
    increase. *)
Theorem trigger_alert_gate (a : AlertSystem.t) (now : Q) :
  (AlertSystem.is_alerting a = true
   \/ now - AlertSystem.last_alert_time a < AlertSystem.cooldown_seconds a ->
   AlertSystem.trigger_alert now a = (false, a))
  /\ (AlertSystem.is_alerting a = false ->
      AlertSystem.cooldown_seconds a
      <= now - AlertSystem.last_alert_time a ->
      AlertSystem.trigger_alert now a
      = (true,
         {| AlertSystem.sound_enabled := AlertSystem.sound_enabled a;
            AlertSystem.visual_enabled := AlertSystem.visual_enabled a;
            AlertSystem.cooldown_seconds := AlertSystem.cooldown_seconds a;
            AlertSystem.is_alerting := true;
            AlertSystem.last_alert_time := now;
            AlertSystem.alert_count := (AlertSystem.alert_count a + 1)%Z;
            AlertSystem._stop_event :=
              if AlertSystem.sound_enabled a
              then false
              else AlertSystem._stop_event a;
            AlertSystem._alert_thread :=
              if AlertSystem.sound_enabled a
              then Some AlertSystem.Playing
              else AlertSystem._alert_thread a |}))
  /\ (forall (between : list AlertTrace.Event) (later : Q),
      fst (AlertSystem.trigger_alert now a) = true ->
      forallb (fun e => negb (AlertTrace.is_trigger e)) between = true ->
      later - now < AlertSystem.cooldown_seconds a ->
      let a' :=
        AlertTrace.run (snd (AlertSystem.trigger_alert now a)) between in
      AlertSystem.trigger_alert later a' = (false, a')
      /\ AlertSystem.alert_count
           (snd (AlertSystem.trigger_alert later a'))
         = (AlertSystem.alert_count a + 1)%Z).
Proof.
  split; [|split].
  - intros [H|H].
    + now apply trigger_alert_while_alerting.
    + now apply trigger_alert_on_cooldown.
  - intros Hidle Hcool. unfold AlertSystem.trigger_alert.
    apply Qlt_bool_false in Hcool. rewrite Hcool, Hidle. reflexivity.
  - intros between later Hok Hquiet Hnear a'.
    destruct (trigger_alert_success a now Hok) as (L & C).
    destruct (quiet_run_preserves between
                (snd (AlertSystem.trigger_alert now a)) Hquiet)
      as (L' & C' & N').
    fold a' in L', C', N'.
    assert (E : AlertSystem.trigger_alert later a' = (false, a')).
    { apply trigger_alert_on_cooldown. rewrite L', C', L, C. exact Hnear. }
    split; [exact E|]. rewrite E. cbn [snd]. rewrite N'.
    revert Hok. unfold AlertSystem.trigger_alert.
    destruct (Qlt_bool _ _); [discriminate|].
    destruct (AlertSystem.is_alerting a); [discriminate|].
    reflexivity.
Qed.

Lemma trigger_alert_gate_witness :
  AlertSystem.trigger_alert 1002
    (AlertTrace.run (snd (AlertSystem.trigger_alert 1000 Fixtures.alerts))
                    [AlertTrace.Stop 1001 true])
  = (false,
     AlertTrace.run (snd (AlertSystem.trigger_alert 1000 Fixtures.alerts))
                    [AlertTrace.Stop 1001 true])
  /\ AlertSystem.alert_count
       (snd (AlertSystem.trigger_alert 1002
               (AlertTrace.run
                  (snd (AlertSystem.trigger_alert 1000 Fixtures.alerts))
                  [AlertTrace.Stop 1001 true])))
     = 1%Z.
Proof.
  apply (proj2 (proj2 (trigger_alert_gate Fixtures.alerts 1000))
           [AlertTrace.Stop 1001 true] 1002); reflexivity.
Defined.

(** C2 as worded fails on the code in three ways.  (1) The cooldown runs
    from the last successful trigger, not from the end of the last alert:
    an alert triggered at 1000 and stopped at 1010 can be triggered again
    at 1011, one second after it ended, with a cooldown of three seconds.
    (2) With sound disabled a successful trigger starts no playback task.
    (3) After a refused call at 1002, a call at 1004, within the cooldown
    of the refused one, succeeds and increments [alert_count]. *)
Lemma trigger_alert_gate_counterexample :
  let history := [AlertTrace.Trigger 1000; AlertTrace.Stop 1010 true] in
  let a := AlertTrace.run Fixtures.alerts history in
  (AlertSystem.is_alerting a = false
   /\ AlertTrace.last_alert_end Fixtures.alerts history None = Some 1010
   /\ 1011 - 1010 < AlertSystem.cooldown_seconds a
   /\ fst (AlertSystem.trigger_alert 1011 a) = true
   /\ AlertSystem.alert_count (snd (AlertSystem.trigger_alert 1011 a))
      = (AlertSystem.alert_count a + 1)%Z)
  /\ (fst (AlertSystem.trigger_alert 1000 Fixtures.silent_alerts) = true
      /\ AlertSystem._alert_thread
           (snd (AlertSystem.trigger_alert 1000 Fixtures.silent_alerts))
         = None)
  /\ (fst (AlertSystem.trigger_alert 1002 a) = false
      /\ 1004 - 1002 < AlertSystem.cooldown_seconds a
      /\ fst (AlertSystem.trigger_alert 1004
                (snd (AlertSystem.trigger_alert 1002 a))) = true
      /\ AlertSystem.alert_count
           (snd (AlertSystem.trigger_alert 1004
                   (snd (AlertSystem.trigger_alert 1002 a))))
         = (AlertSystem.alert_count a + 1)%Z).
Proof.
  cbv zeta. repeat split.
Qed.

(* ================================================================== *)
(** * DrowsinessOrchestrator *)
(* ================================================================== *)

Lemma get_drowsiness_score_total (s : EyeTracker.t) :
  EyeTracker.ear_history s = [] \/ EyeTracker.drowsy_frames_threshold s <> 0%Z ->
  exists v, EyeTracker.get_drowsiness_score s = Ok v.
Proof.
  intros [H|H].
  - unfold EyeTracker.get_drowsiness_score. rewrite H. eauto.
  - destruct (EyeTracker.ear_history s) as [|e rest] eqn:E.
    + unfold EyeTracker.get_drowsiness_score. rewrite E. eauto.
    + rewrite get_drowsiness_score_nonempty by (trivial; congruence). eauto.
Qed.

Section Orchestrator.

Variable euclidean : Point -> Point -> Q.
Variable solvePnP :
  list Vec3 -> list Point -> list (list Q) -> option (Vec3 * Vec3).
Variable euler_degrees : Vec3 -> Q * Q * Q.

Lemma process_eyes_total (s : EyeTracker.t) (l r : list Point) :
  (6 <= length l)%nat -> (6 <= length r)%nat ->
  exists m s',
    EyeTracker.process_eyes euclidean s l r = Ok (m, s')
    /\ EyeTracker.drowsy_frames_threshold s'
       = EyeTracker.drowsy_frames_threshold s.
Proof.
  intros Hl Hr. unfold EyeTracker.process_eyes.
  destruct (calculate_ear_total euclidean l Hl) as (vl & _ & -> & _).
  destruct (calculate_ear_total euclidean r Hr) as (vr & _ & -> & _).
  cbn [bind]. do 2 eexists. split; reflexivity.
Qed.

Lemma process_mouth_total (s : YawnDetector.t) (f : list Point) :
  (11 <= length f)%nat ->
  exists m s', YawnDetector.process_mouth euclidean s f = Ok (m, s').
Proof.
  intros Hf. unfold YawnDetector.process_mouth.
  destruct (calculate_mar_total euclidean f Hf) as (v & _ & -> & _).
  cbn [bind]. do 2 eexists. reflexivity.
Qed.

Lemma estimate_pose_total (s : HeadPoseEstimator.t) (lm : list Point)
    (shape : option (Z * Z)) :
  (68 <= length lm)%nat ->
  exists m s',
    HeadPoseEstimator.estimate_pose solvePnP euler_degrees s lm shape
    = Ok (m, s').
Proof.
  intro H. unfold HeadPoseEstimator.estimate_pose,
    HeadPoseEstimator._extract_pose_points.
  destruct (take_ok lm HeadPoseEstimator.LANDMARK_INDICES) as (pts & -> & _).
  { repeat constructor; lia. }
  cbn [bind].
  destruct (solvePnP _ pts _) as [[rv tv]|]; [|eauto].
  destruct (euler_degrees rv) as [[p y] r]. eauto.
Qed.

Lemma Forall_range_lt (lo hi n : nat) :
  (hi <= n)%nat -> Forall (fun i => (i < n)%nat) (range lo hi).
Proof.
  intro H. unfold range. apply Forall_forall. intros i Hi.
  apply in_seq in Hi. lia.
Qed.

(** What a frame with a face returns, whenever it returns. *)
Lemma process_frame_face (d d' : DrowsinessDetector.t)
    (inp : DrowsinessDetector.FrameInput) (lm : list Point)
    (res : DetectionResult.t) :
  DrowsinessDetector.detected_landmarks inp = Some lm ->
  DrowsinessDetector.process_frame euclidean solvePnP euler_degrees d inp
  = Ok (res, d') ->
  exists eye_score,
    EyeTracker.get_drowsiness_score (DrowsinessDetector.eye_tracker d')
    = Ok eye_score
    /\ DetectionResult.face_detected res = true
    /\ DetectionResult.drowsiness_score res
       = Spec.fused_score eye_score
           (YawnDetector.is_fatigue_indicated
              (DrowsinessDetector.yawn_detector d'))
           (DetectionResult.head_down res)
    /\ DetectionResult.is_drowsy res
       = EyeTracker.is_drowsy (DrowsinessDetector.eye_tracker d')
         || DetectionResult.head_down res
    /\ DetectionResult.is_fatigued res
       = YawnDetector.is_fatigue_indicated
           (DrowsinessDetector.yawn_detector d').
Proof.
  intros Hlm. unfold DrowsinessDetector.process_frame. rewrite Hlm.
  destruct (FaceDetector.get_eye_landmarks lm) as [[le re]|];
    cbn [bind]; [|discriminate].
  destruct (EyeTracker.process_eyes euclidean _ le re) as [[em et]|];
    cbn [bind]; [|discriminate].
  destruct (FaceDetector.get_mouth_landmarks lm) as [ml|];
    cbn [bind]; [|discriminate].
  destruct (YawnDetector.process_mouth euclidean _ ml) as [[ym yd]|];
    cbn [bind]; [|discriminate].
  destruct (HeadPoseEstimator.estimate_pose _ _ _ lm _) as [[hm hp]|];
    cbn [bind]; [|discriminate].
  destruct (EyeTracker.get_drowsiness_score et) as [score|] eqn:Es;
    cbn [bind]; [|discriminate].
  intro E. injection E as <- <-. cbn.
  exists score. repeat split. exact Es.
Qed.

(** The same, with every quantity tied to what the trackers and the pose
    estimator return on the landmarks of this frame. *)
Lemma process_frame_face_steps (d d' : DrowsinessDetector.t)
    (inp : DrowsinessDetector.FrameInput) (lm : list Point)
    (res : DetectionResult.t) :
  DrowsinessDetector.detected_landmarks inp = Some lm ->
  DrowsinessDetector.process_frame euclidean solvePnP euler_degrees d inp
  = Ok (res, d') ->
  exists left_eye right_eye eye_metrics mouth yawn_metrics head_metrics
         eye_score,
    FaceDetector.get_eye_landmarks lm = Ok (left_eye, right_eye)
    /\ EyeTracker.process_eyes euclidean (DrowsinessDetector.eye_tracker d)
         left_eye right_eye
       = Ok (eye_metrics, DrowsinessDetector.eye_tracker d')
    /\ FaceDetector.get_mouth_landmarks lm = Ok mouth
    /\ YawnDetector.process_mouth euclidean
         (DrowsinessDetector.yawn_detector d) mouth
       = Ok (yawn_metrics, DrowsinessDetector.yawn_detector d')
    /\ HeadPoseEstimator.estimate_pose solvePnP euler_degrees
         (DrowsinessDetector.head_pose d) lm
         (Some (DrowsinessDetector.frame_shape inp))
       = Ok (head_metrics, DrowsinessDetector.head_pose d')
    /\ EyeTracker.get_drowsiness_score (DrowsinessDetector.eye_tracker d')
       = Ok eye_score
    /\ DetectionResult.face_detected res = true
    /\ DetectionResult.head_down res
       = HeadPoseMetrics.is_head_down head_metrics
    /\ DetectionResult.drowsiness_score res
       = Qmin (eye_score
               + (if YawnDetector.is_fatigue_indicated
                       (DrowsinessDetector.yawn_detector d')
                  then 30 else 0)
               + (if HeadPoseMetrics.is_head_down head_metrics
                  then 20 else 0))
              100
    /\ DetectionResult.is_drowsy res
       = EyeTracker.is_drowsy (DrowsinessDetector.eye_tracker d')
         || HeadPoseMetrics.is_head_down head_metrics
    /\ DetectionResult.is_fatigued res
       = YawnDetector.is_fatigue_indicated
           (DrowsinessDetector.yawn_detector d').
Proof.
  intros Hlm. unfold DrowsinessDetector.process_frame. rewrite Hlm.
  destruct (FaceDetector.get_eye_landmarks lm) as [[le re]|];
    cbn [bind]; [|discriminate].
  destruct (EyeTracker.process_eyes euclidean _ le re) as [[em et]|] eqn:Ee;
    cbn [bind]; [|discriminate].
  destruct (FaceDetector.get_mouth_landmarks lm) as [ml|];
    cbn [bind]; [|discriminate].
  destruct (YawnDetector.process_mouth euclidean _ ml) as [[ym yd]|] eqn:Em;
    cbn [bind]; [|discriminate].
  destruct (HeadPoseEstimator.estimate_pose _ _ _ lm _) as [[hm hp]|] eqn:Eh;
    cbn [bind]; [|discriminate].
  destruct (EyeTracker.get_drowsiness_score et) as [score|] eqn:Es;
    cbn [bind]; [|discriminate].
  intro E. injection E as <- <-.
  exists le, re, em, ml, ym, hm, score. cbn.
  repeat split; assumption.
Qed.

(** A frame with a full landmark set is processed without error as soon
    as the eye tracker's threshold is not zero. *)
Lemma process_frame_face_total (d : DrowsinessDetector.t)
    (inp : DrowsinessDetector.FrameInput) (lm : list Point) :
  DrowsinessDetector.detected_landmarks inp = Some lm ->
  (68 <= length lm)%nat ->
  EyeTracker.drowsy_frames_threshold (DrowsinessDetector.eye_tracker d)
  <> 0%Z ->
  exists res d',
    DrowsinessDetector.process_frame euclidean solvePnP euler_degrees d inp
    = Ok (res, d').
Proof.
  intros Hlm Hlen Hthr. unfold DrowsinessDetector.process_frame.
  rewrite Hlm.
  unfold FaceDetector.get_eye_landmarks, FaceDetector.get_mouth_landmarks.
  destruct (take_ok lm FaceDetector.left_eye) as (le & -> & Lle);
    [apply Forall_range_lt; lia|].
  destruct (take_ok lm FaceDetector.right_eye) as (re & -> & Lre);
    [apply Forall_range_lt; lia|].
  cbn [bind].
  destruct (process_eyes_total (DrowsinessDetector.eye_tracker d) le re)
    as (em & et & -> & Tet); [rewrite Lle; cbn; lia | rewrite Lre; cbn; lia|].
  cbn [bind].
  destruct (take_ok lm FaceDetector.outer_mouth) as (om & -> & Lom);
    [apply Forall_range_lt; lia|].
  destruct (take_ok lm FaceDetector.inner_mouth) as (im & -> & Lim);
    [apply Forall_range_lt; lia|].
  cbn [bind].
  destruct (process_mouth_total (DrowsinessDetector.yawn_detector d)
              (om ++ im)) as (ym & yd & ->);
    [rewrite length_app, Lom, Lim; cbn; lia|].
  cbn [bind].
  destruct (estimate_pose_total (DrowsinessDetector.head_pose d) lm
              (Some (DrowsinessDetector.frame_shape inp)) Hlen)
    as (hm & hp & ->).
  cbn [bind].
  destruct (get_drowsiness_score_total et) as (score & ->);
    [right; congruence|].
  cbn [bind]. eauto.
Qed.

End Orchestrator.

(** C1. Whenever [process_frame] returns for a frame in which landmarks
    are found, the eye tracker, the yawn detector and the head-pose
    estimator it leaves behind are those returned by [process_eyes],
    [process_mouth] and [estimate_pose] on the landmarks of this frame,
    and in its result the head-down flag is the one [estimate_pose]
    reported, the fused score is
    [min(eye score + (30 if fatigue indicated else 0)
         + (20 if head down else 0), 100)],
    [is_drowsy] is the eye tracker's [is_drowsy()] or the head-down flag,
    and [is_fatigued] is the yawn detector's [is_fatigue_indicated()], the
    trackers being read after they processed the frame.  And it does
    return whenever the landmark set has its 68 points and the eye
    tracker's drowsy-frame threshold is not zero. *)
Theorem fused_score_and_flags
    (euclidean : Point -> Point -> Q)
    (solvePnP :
       list Vec3 -> list Point -> list (list Q) -> option (Vec3 * Vec3))
    (euler_degrees : Vec3 -> Q * Q * Q)
    (d : DrowsinessDetector.t) (inp : DrowsinessDetector.FrameInput)
    (lm : list Point) :
  DrowsinessDetector.detected_landmarks inp = Some lm ->
  (forall (res : DetectionResult.t) (d' : DrowsinessDetector.t),
      DrowsinessDetector.process_frame euclidean solvePnP euler_degrees
        d inp = Ok (res, d') ->
      exists left_eye right_eye eye_metrics mouth yawn_metrics head_metrics
             eye_score,
        FaceDetector.get_eye_landmarks lm = Ok (left_eye, right_eye)
        /\ EyeTracker.process_eyes euclidean
             (DrowsinessDetector.eye_tracker d) left_eye right_eye
           = Ok (eye_metrics, DrowsinessDetector.eye_tracker d')
        /\ FaceDetector.get_mouth_landmarks lm = Ok mouth
        /\ YawnDetector.process_mouth euclidean
             (DrowsinessDetector.yawn_detector d) mouth
           = Ok (yawn_metrics, DrowsinessDetector.yawn_detector d')
        /\ HeadPoseEstimator.estimate_pose solvePnP euler_degrees
             (DrowsinessDetector.head_pose d) lm
             (Some (DrowsinessDetector.frame_shape inp))
           = Ok (head_metrics, DrowsinessDetector.head_pose d')
        /\ EyeTracker.get_drowsiness_score
             (DrowsinessDetector.eye_tracker d') = Ok eye_score
        /\ DetectionResult.face_detected res = true
        /\ DetectionResult.head_down res
           = HeadPoseMetrics.is_head_down head_metrics
        /\ DetectionResult.drowsiness_score res
           = Qmin (eye_score
                   + (if YawnDetector.is_fatigue_indicated
                           (DrowsinessDetector.yawn_detector d')
                      then 30 else 0)
                   + (if HeadPoseMetrics.is_head_down head_metrics
                      then 20 else 0))
                  100
        /\ DetectionResult.is_drowsy res
           = EyeTracker.is_drowsy (DrowsinessDetector.eye_tracker d')
             || HeadPoseMetrics.is_head_down head_metrics
        /\ DetectionResult.is_fatigued res
           = YawnDetector.is_fatigue_indicated
               (DrowsinessDetector.yawn_detector d'))
  /\ ((68 <= length lm)%nat ->
      EyeTracker.drowsy_frames_threshold (DrowsinessDetector.eye_tracker d)
      <> 0%Z ->
      exists res d',
        DrowsinessDetector.process_frame euclidean solvePnP euler_degrees
          d inp = Ok (res, d')).
Proof.
  intros Hlm. split.
  - intros res d' E.
    exact (process_frame_face_steps euclidean solvePnP euler_degrees
             d d' inp lm res Hlm E).
  - intros Hlen Hthr.
    exact (process_frame_face_total euclidean solvePnP euler_degrees
             d inp lm Hlm Hlen Hthr).
Qed.

Lemma fused_score_and_flags_witness :
  exists res d' head_metrics,
    DrowsinessDetector.process_frame Fixtures.euclidean
      (Fixtures.solvePnP_const (- (40), 0, 0)) Fixtures.euler_degrees
      Fixtures.detector
      (Fixtures.frame_at 1001
         (Some (Fixtures.face Fixtures.open_eye Fixtures.closed_mouth)))
    = Ok (res, d')
    /\ HeadPoseEstimator.estimate_pose
         (Fixtures.solvePnP_const (- (40), 0, 0)) Fixtures.euler_degrees
         (DrowsinessDetector.head_pose Fixtures.detector)
         (Fixtures.face Fixtures.open_eye Fixtures.closed_mouth)
         (Some (480, 640)%Z)
       = Ok (head_metrics, DrowsinessDetector.head_pose d')
    /\ HeadPoseMetrics.is_head_down head_metrics = true
    /\ DetectionResult.head_down res = true
    /\ DetectionResult.is_drowsy res = true
    /\ DetectionResult.is_fatigued res
       = YawnDetector.is_fatigue_indicated
           (DrowsinessDetector.yawn_detector d').
Proof.
  destruct (fused_score_and_flags Fixtures.euclidean
              (Fixtures.solvePnP_const (- (40), 0, 0))
              Fixtures.euler_degrees Fixtures.detector
              (Fixtures.frame_at 1001
                 (Some (Fixtures.face Fixtures.open_eye
                                      Fixtures.closed_mouth)))
              (Fixtures.face Fixtures.open_eye Fixtures.closed_mouth)
              eq_refl) as [Hres Hret].
  destruct Hret as (res & d' & E); [simpl; lia | discriminate |].
  destruct (Hres res d' E)
    as (le & re & em & ml & ym & hm & score
        & _ & _ & _ & _ & Eh & _ & _ & Hh & _ & Hd & Hy).
  assert (Hm : HeadPoseMetrics.is_head_down hm = true).
  { pose proof Eh as Eh'. vm_compute in Eh'.
    injection Eh' as <- _. reflexivity. }
  exists res, d', hm.
  split; [exact E|]. split; [exact Eh|]. split; [exact Hm|].
  split; [now rewrite Hh|]. split; [|exact Hy].
  rewrite Hd, Hm. apply orb_true_r.
Defined.

(** C9. When the landmark detector finds no face, [process_frame] returns
    at once: the result has [face_detected] false, EAR, MAR and the pose
    angles at 0.0, every boolean flag false and a drowsiness score of 0.0,
    and the eye tracker, the yawn detector, the head-pose estimator and
    the alert dispatcher are left exactly as they were.  (The
    orchestrator's own frame counter is incremented.) *)
Theorem no_face_frame_is_neutral
    (euclidean : Point -> Point -> Q)
    (solvePnP :
       list Vec3 -> list Point -> list (list Q) -> option (Vec3 * Vec3))
    (euler_degrees : Vec3 -> Q * Q * Q)
    (d : DrowsinessDetector.t) (inp : DrowsinessDetector.FrameInput) :
  DrowsinessDetector.detected_landmarks inp = None ->
  exists res d',
    DrowsinessDetector.process_frame euclidean solvePnP euler_degrees d inp
    = Ok (res, d')
    /\ DetectionResult.face_detected res = false
    /\ (DetectionResult.ear res = 0
        /\ DetectionResult.left_ear res = 0
        /\ DetectionResult.right_ear res = 0
        /\ DetectionResult.mar res = 0
        /\ DetectionResult.pitch res = 0
        /\ DetectionResult.yaw res = 0
        /\ DetectionResult.roll res = 0
        /\ DetectionResult.drowsiness_score res = 0)
    /\ (DetectionResult.eyes_closed res = false
        /\ DetectionResult.is_yawning res = false
        /\ DetectionResult.head_down res = false
        /\ DetectionResult.head_tilted res = false
        /\ DetectionResult.is_drowsy res = false
        /\ DetectionResult.is_fatigued res = false)
    /\ (DetectionResult.blink_count res = 0%Z
        /\ DetectionResult.yawn_count res = 0%Z
        /\ DetectionResult.landmarks res = None)
    /\ (DrowsinessDetector.eye_tracker d' = DrowsinessDetector.eye_tracker d
        /\ DrowsinessDetector.yawn_detector d'
           = DrowsinessDetector.yawn_detector d
        /\ DrowsinessDetector.head_pose d' = DrowsinessDetector.head_pose d
        /\ DrowsinessDetector.alert_system d'
           = DrowsinessDetector.alert_system d)
    /\ DrowsinessDetector.frame_count d'
       = (DrowsinessDetector.frame_count d + 1)%Z.
Proof.
  intro H. unfold DrowsinessDetector.process_frame. rewrite H.
  do 2 eexists. split; [reflexivity|]. cbn. auto 20.
Qed.

Lemma no_face_frame_is_neutral_witness :
  exists res d',
    DrowsinessDetector.process_frame Fixtures.euclidean
      Fixtures.solvePnP_fails Fixtures.euler_degrees
      Fixtures.detector (Fixtures.frame_at 1001 None)
    = Ok (res, d')
    /\ DetectionResult.face_detected res = false
    /\ DetectionResult.drowsiness_score res = 0
    /\ DrowsinessDetector.alert_system d'
       = DrowsinessDetector.alert_system Fixtures.detector.
Proof.
  destruct (no_face_frame_is_neutral Fixtures.euclidean
              Fixtures.solvePnP_fails Fixtures.euler_degrees
              Fixtures.detector (Fixtures.frame_at 1001 None) eq_refl)
    as (res & d' & E & F & (_ & _ & _ & _ & _ & _ & _ & S) & _ & _
        & (_ & _ & _ & A) & _).
  exists res, d'. auto.
Defined.

(* ================================================================== *)
(** * Reachable eye-tracker states and the scenarios of the test suite *)
(* ================================================================== *)

Section EyeTrackerInvariant.

Variable euclidean : Point -> Point -> Q.

(** The running count of closed frames never goes negative. *)
Lemma process_eyes_keeps_count_nonneg (s s' : EyeTracker.t)
    (l r : list Point) (m : EyeMetrics.t) :
  (0 <= EyeTracker.closed_frame_count s)%Z ->
  EyeTracker.process_eyes euclidean s l r = Ok (m, s') ->
  (0 <= EyeTracker.closed_frame_count s')%Z
  /\ EyeTracker.drowsy_frames_threshold s'
     = EyeTracker.drowsy_frames_threshold s.
Proof.
  intro H. unfold EyeTracker.process_eyes.
  destruct (EyeTracker.calculate_ear euclidean l) as [vl|]; [|discriminate].
  destruct (EyeTracker.calculate_ear euclidean r) as [vr|]; [|discriminate].
  cbn [bind]. intro E. injection E as _ <-. cbn.
  split; [|reflexivity].
  destruct (Qlt_bool _ _); lia.
Qed.

Lemma process_eyes_all_keeps_count_nonneg (fs : list Trace.EyeFrame) :
  forall s s' : EyeTracker.t,
  (0 <= EyeTracker.closed_frame_count s)%Z ->
  Trace.process_eyes_all euclidean s fs = Ok s' ->
  (0 <= EyeTracker.closed_frame_count s')%Z
  /\ EyeTracker.drowsy_frames_threshold s'
     = EyeTracker.drowsy_frames_threshold s.
Proof.
  induction fs as [|f rest IH]; intros s s' H E; cbn in E.
  - injection E as <-. auto.
  - destruct (EyeTracker.process_eyes euclidean s (fst f) (snd f))
      as [[m s1]|] eqn:E1; [|discriminate].
    cbn in E.
    destruct (process_eyes_keeps_count_nonneg s s1 _ _ m H E1) as [H1 T1].
    destruct (IH s1 s' H1 E) as [H' T']. split; congruence.
Qed.

(** Every tracker reached from a fresh one has a non-negative count and
    the threshold it was constructed with. *)
Lemma reachable_count_nonneg
    (ear_threshold : Q) (history_size : nat) (drowsy_frames_threshold : Z)
    (fs : list Trace.EyeFrame) (s : EyeTracker.t) :
  Trace.process_eyes_all euclidean
    (EyeTracker.init ear_threshold history_size drowsy_frames_threshold) fs
  = Ok s ->
  (0 <= EyeTracker.closed_frame_count s)%Z
  /\ EyeTracker.drowsy_frames_threshold s = drowsy_frames_threshold.
Proof.
  intro E.
  apply (process_eyes_all_keeps_count_nonneg fs _ s) in E; [exact E|].
  cbn. lia.
Qed.

End EyeTrackerInvariant.

(** [test_calculate_ear_open_eye], [test_calculate_ear_closed_eye] and
    [test_calculate_ear_zero_width], on the arrays of
    [test_process_eyes_tracks_closure] and [test_drowsiness_detection]. *)
Example test_calculate_ear :
  EyeTracker.calculate_ear Fixtures.euclidean Fixtures.open_eye
  = Ok (40 # 40)
  /\ EyeTracker.calculate_ear Fixtures.euclidean Fixtures.closed_eye
     = Ok (4 # 40)
  /\ EyeTracker.calculate_ear Fixtures.euclidean Fixtures.zero_width_eye
     = Ok 0
  /\ 2 # 10 < 40 # 40
  /\ 4 # 40 < 2 # 10.
Proof.
  repeat split; vm_compute; reflexivity.
Qed.

(** The end-to-end scenario of the specification: with
    [ear_threshold = 0.25] and [drowsy_frames_threshold = 5], the tracker
    is not drowsy after four closed frames, is drowsy after the fifth and
    the sixth, counts no blink, and after six closed frames scores 100,
    above 50. *)
Example test_drowsiness_detection :
  let after n :=
    Trace.process_eyes_all Fixtures.euclidean (Fixtures.eye_tracker 5)
      (repeat Fixtures.closed_eyes n) in
  match after 4%nat, after 5%nat, after 6%nat with
  | Ok s4, Ok s5, Ok s6 =>
      EyeTracker.is_drowsy s4 = false
      /\ EyeTracker.is_drowsy s5 = true
      /\ EyeTracker.is_drowsy s6 = true
      /\ EyeTracker.blink_count s6 = 0%Z
      /\ match EyeTracker.get_drowsiness_score s6 with
         | Ok score => 50 < score
         | Raise _ => False
         end
  | _, _, _ => False
  end.
Proof.
  vm_compute. repeat split.
Qed.

(** [test_blink_counting] *)
Example test_blink_counting :
  match Trace.process_eyes_all Fixtures.euclidean (Fixtures.eye_tracker 10)
          [Fixtures.closed_eyes; Fixtures.closed_eyes; Fixtures.open_eyes]
  with
  | Ok s => EyeTracker.blink_count s = 1%Z
  | Raise _ => False
  end.
Proof.
  vm_compute. reflexivity.
Qed.

(** [test_yawn_detection]: four frames with the mouth open, then one with
    the mouth closed, with [mar_threshold = 0.5] and
    [min_yawn_frames = 3]. *)
Example test_yawn_detection :
  match Trace.process_mouth_all Fixtures.euclidean Fixtures.yawn_detector
          (repeat Fixtures.open_mouth 4 ++ [Fixtures.closed_mouth])
  with
  | Ok s =>
      YawnDetector.total_yawns s = 1%Z
      /\ YawnDetector.recent_yawns s = [5%Z]
  | Raise _ => False
  end.
Proof.
  vm_compute. split; reflexivity.
Qed.

(* ================================================================== *)
(** * Further properties of the eye tracker *)
(* ================================================================== *)

Lemma deque_append_most_recent {A : Type} (n : nat) (l : list A) (x : A) :
  deque_append n (Trace.most_recent n l) x = Trace.most_recent n (l ++ [x]).
Proof.
  unfold deque_append, Trace.most_recent.
  rewrite !length_app, length_skipn. cbn [length].
  rewrite !skipn_app, length_skipn, skipn_skipn.
  destruct (Nat.le_gt_cases (length l) n) as [H|H].
  - replace (length l - n)%nat with 0%nat by lia.
    cbn [skipn]. rewrite Nat.sub_0_r, Nat.add_0_r.
    replace (length l + 1 - n - length l)%nat
      with (length l - 0 + 1 - n - (length l - 0))%nat by lia.
    reflexivity.
  - replace (length l - (length l - n) + 1 - n + (length l - n))%nat
      with (length l + 1 - n)%nat by lia.
    replace (length l - (length l - n) + 1 - n - (length l - (length l - n)))%nat
      with (length l + 1 - n - length l)%nat by lia.
    reflexivity.
Qed.

Lemma most_recent_all {A : Type} (n : nat) (l : list A) :
  (length l <= n)%nat -> Trace.most_recent n l = l.
Proof.
  intro H. unfold Trace.most_recent.
  now replace (length l - n)%nat with 0%nat by lia.
Qed.

Lemma most_recent_length {A : Type} (n : nat) (l : list A) :
  length (Trace.most_recent n l) = Nat.min (length l) n.
Proof. unfold Trace.most_recent. rewrite length_skipn. lia. Qed.

Section EyeTrackerHistory.

Variable euclidean : Point -> Point -> Q.

Lemma process_eyes_history (s s' : EyeTracker.t) (f : Trace.EyeFrame)
    (m : EyeMetrics.t) :
  EyeTracker.process_eyes euclidean s (fst f) (snd f) = Ok (m, s') ->
  exists a,
    Trace.avg_ear_of euclidean f = Ok a
    /\ EyeTracker.ear_history s'
       = deque_append (EyeTracker.history_size s)
                      (EyeTracker.ear_history s) a
    /\ EyeTracker.history_size s' = EyeTracker.history_size s.
Proof.
  unfold EyeTracker.process_eyes, Trace.avg_ear_of.
  destruct (EyeTracker.calculate_ear euclidean (fst f)) as [l|];
    [|discriminate].
  destruct (EyeTracker.calculate_ear euclidean (snd f)) as [r|];
    [|discriminate].
  cbn [bind]. intro E. injection E as _ <-. cbn. eauto.
Qed.

Lemma process_eyes_all_history (fs : list Trace.EyeFrame) :
  forall (s s' : EyeTracker.t) (seen : list Q),
  EyeTracker.ear_history s
  = Trace.most_recent (EyeTracker.history_size s) seen ->
  Trace.process_eyes_all euclidean s fs = Ok s' ->
  exists avgs,
    Forall2 (fun f a => Trace.avg_ear_of euclidean f = Ok a) fs avgs
    /\ EyeTracker.ear_history s'
       = Trace.most_recent (EyeTracker.history_size s) (seen ++ avgs)
    /\ EyeTracker.history_size s' = EyeTracker.history_size s.
Proof.
  induction fs as [|f rest IH]; intros s s' seen Hs E; cbn in E.
  - injection E as <-. exists []. rewrite app_nil_r. auto.
  - destruct (EyeTracker.process_eyes euclidean s (fst f) (snd f))
      as [[m s1]|] eqn:E1; [|discriminate].
    cbn in E.
    destruct (process_eyes_history s s1 f m E1) as (a & Ha & H1 & K1).
    destruct (IH s1 s' (seen ++ [a])) as (avgs & F & H' & K'); trivial.
    { rewrite H1, Hs, K1. apply deque_append_most_recent. }
    exists (a :: avgs). rewrite K1 in H', K'.
    rewrite <- app_assoc in H'. cbn in H'. auto.
Qed.

End EyeTrackerHistory.

(** X1. The EAR history is a sliding window: after any run of frames the
    history of a tracker whose history was within its capacity holds
    exactly the last [history_size] entries of the old history followed by
    the average EARs of the frames, oldest first; in particular it never
    grows beyond [history_size]. *)
Theorem ear_history_is_sliding_window
    (euclidean : Point -> Point -> Q) (s s' : EyeTracker.t)
    (fs : list Trace.EyeFrame) :
  (length (EyeTracker.ear_history s) <= EyeTracker.history_size s)%nat ->
  Trace.process_eyes_all euclidean s fs = Ok s' ->
  exists avgs,
    Forall2 (fun f a => Trace.avg_ear_of euclidean f = Ok a) fs avgs
    /\ EyeTracker.ear_history s'
       = Trace.most_recent (EyeTracker.history_size s)
           (EyeTracker.ear_history s ++ avgs)
    /\ length (EyeTracker.ear_history s')
       = Nat.min (length (EyeTracker.ear_history s) + length fs)
                 (EyeTracker.history_size s)
    /\ EyeTracker.history_size s' = EyeTracker.history_size s.
Proof.
  intros Hlen E.
  destruct (process_eyes_all_history euclidean fs s s'
              (EyeTracker.ear_history s)) as (avgs & F & H & K); trivial.
  { symmetry. now apply most_recent_all. }
  exists avgs. repeat split; trivial.
  rewrite H, most_recent_length, length_app.
  now rewrite (Forall2_length F).
Qed.

Lemma ear_history_is_sliding_window_witness :
  length (EyeTracker.ear_history Scenarios.short_memory_after_three) = 2%nat
  /\ EyeTracker.history_size Scenarios.short_memory_after_three = 2%nat.
Proof.
  destruct (ear_history_is_sliding_window Fixtures.euclidean
              Scenarios.short_memory Scenarios.short_memory_after_three
              (repeat Fixtures.closed_eyes 3))
    as (avgs & _ & _ & L & K).
  - simpl; lia.
  - vm_compute; reflexivity.
  - split; [exact L | exact K].
Defined.

Section EyeTrackerCounters.

Variable euclidean : Point -> Point -> Q.

Lemma process_eyes_counters (s s' : EyeTracker.t) (l r : list Point)
    (m : EyeMetrics.t) :
  Trace.eye_tracker_consistent s ->
  EyeTracker.process_eyes euclidean s l r = Ok (m, s') ->
  Trace.eye_tracker_consistent s'
  /\ (EyeTracker.closed_frame_count s'
      <= EyeTracker.closed_frame_count s + 1)%Z
  /\ (EyeTracker.blink_count s <= EyeTracker.blink_count s'
      <= EyeTracker.blink_count s + 1)%Z
  /\ EyeTracker.drowsy_frames_threshold s'
     = EyeTracker.drowsy_frames_threshold s
  /\ EyeTracker.ear_threshold s' = EyeTracker.ear_threshold s
  /\ EyeTracker.history_size s' = EyeTracker.history_size s.
Proof.
  intros [Hc Hb]. unfold EyeTracker.process_eyes.
  destruct (EyeTracker.calculate_ear euclidean l) as [vl|]; [|discriminate].
  destruct (EyeTracker.calculate_ear euclidean r) as [vr|]; [|discriminate].
  cbn [bind]. intro E. injection E as _ <-.
  unfold Trace.eye_tracker_consistent. cbn.
  destruct (Qlt_bool _ _); cbn.
  - repeat split; lia.
  - repeat match goal with
           | |- context [if ?c then _ else _] => destruct c
           end; repeat split; lia.
Qed.

Lemma process_eyes_all_counters (fs : list Trace.EyeFrame) :
  forall s s' : EyeTracker.t,
  Trace.eye_tracker_consistent s ->
  Trace.process_eyes_all euclidean s fs = Ok s' ->
  Trace.eye_tracker_consistent s'
  /\ (EyeTracker.closed_frame_count s'
      <= EyeTracker.closed_frame_count s + Z.of_nat (length fs))%Z
  /\ (EyeTracker.blink_count s <= EyeTracker.blink_count s'
      <= EyeTracker.blink_count s + Z.of_nat (length fs))%Z
  /\ EyeTracker.drowsy_frames_threshold s'
     = EyeTracker.drowsy_frames_threshold s
  /\ EyeTracker.ear_threshold s' = EyeTracker.ear_threshold s
  /\ EyeTracker.history_size s' = EyeTracker.history_size s.
Proof.
  induction fs as [|f rest IH]; intros s s' H E; cbn in E.
  - injection E as <-. cbn. repeat split; try lia; apply H.
  - destruct (EyeTracker.process_eyes euclidean s (fst f) (snd f))
      as [[m s1]|] eqn:E1; [|discriminate].
    cbn in E.
    destruct (process_eyes_counters s s1 _ _ m H E1)
      as (I1 & C1 & B1 & T1 & R1 & K1).
    destruct (IH s1 s' I1 E) as (I' & C' & B' & T' & R' & K').
    cbn [length]. repeat split; try congruence; try lia; apply I'.
Qed.

End EyeTrackerCounters.

(** X2. Invariants of the eye tracker's counters. Starting from a tracker
    whose running count is non-negative and whose [is_blinking] flag tells
    whether that count is positive (a fresh tracker is one), any run of
    frames keeps both facts, raises the running count by at most one per
    frame, never decreases [blink_count] and raises it by at most one per
    frame, and leaves the three configured parameters untouched. *)
Theorem eye_tracker_counters_invariant
    (euclidean : Point -> Point -> Q) (s s' : EyeTracker.t)
    (fs : list Trace.EyeFrame) :
  Trace.eye_tracker_consistent s ->
  Trace.process_eyes_all euclidean s fs = Ok s' ->
  Trace.eye_tracker_consistent s'
  /\ (EyeTracker.closed_frame_count s'
      <= EyeTracker.closed_frame_count s + Z.of_nat (length fs))%Z
  /\ (EyeTracker.blink_count s <= EyeTracker.blink_count s'
      <= EyeTracker.blink_count s + Z.of_nat (length fs))%Z
  /\ EyeTracker.drowsy_frames_threshold s'
     = EyeTracker.drowsy_frames_threshold s
  /\ EyeTracker.ear_threshold s' = EyeTracker.ear_threshold s
  /\ EyeTracker.history_size s' = EyeTracker.history_size s.
Proof.
  intros H E. exact (process_eyes_all_counters euclidean fs s s' H E).
Qed.

Lemma eye_tracker_counters_invariant_witness :
  Trace.eye_tracker_consistent Scenarios.drowsy_tracker
  /\ (EyeTracker.closed_frame_count Scenarios.drowsy_tracker <= 0 + 6)%Z
  /\ (0 <= EyeTracker.blink_count Scenarios.drowsy_tracker <= 0 + 6)%Z.
Proof.
  destruct (eye_tracker_counters_invariant Fixtures.euclidean
              (Fixtures.eye_tracker 5) Scenarios.drowsy_tracker
              (repeat Fixtures.closed_eyes 6))
    as (I & C & B & _).
  - split; [simpl; lia | reflexivity].
  - vm_compute; reflexivity.
  - auto.
Defined.

(** X3. Resetting a tracker that was constructed with some parameters and
    has since processed any run of frames gives back exactly the freshly
    constructed tracker. *)
Theorem reset_restores_fresh_eye_tracker
    (euclidean : Point -> Point -> Q)
    (ear_threshold : Q) (history_size : nat) (drowsy_frames_threshold : Z)
    (fs : list Trace.EyeFrame) (s : EyeTracker.t) :
  Trace.process_eyes_all euclidean
    (EyeTracker.init ear_threshold history_size drowsy_frames_threshold) fs
  = Ok s ->
  EyeTracker.reset s
  = EyeTracker.init ear_threshold history_size drowsy_frames_threshold.
Proof.
  intro E.
  assert (I : Trace.eye_tracker_consistent
                (EyeTracker.init ear_threshold history_size
                                 drowsy_frames_threshold))
    by (split; [cbn; lia | reflexivity]).
  destruct (process_eyes_all_counters euclidean fs _ s I E)
    as (_ & _ & _ & T & R & K).
  unfold EyeTracker.reset. rewrite T, R, K. reflexivity.
Qed.

Lemma reset_restores_fresh_eye_tracker_witness :
  EyeTracker.reset Scenarios.drowsy_tracker = Fixtures.eye_tracker 5.
Proof.
  apply (reset_restores_fresh_eye_tracker Fixtures.euclidean
           (25 # 100) 30 5 (repeat Fixtures.closed_eyes 6)).
  vm_compute; reflexivity.
Defined.

(** X4. [get_drowsiness_score] raises exactly when the history is not
    empty and [drowsy_frames_threshold] is zero, and what it raises then is
    [ZeroDivisionError]; in every other state it returns a score. *)
Theorem get_drowsiness_score_raises_iff (s : EyeTracker.t) :
  (EyeTracker.get_drowsiness_score s = Raise ZeroDivisionError
   <-> EyeTracker.ear_history s <> []
       /\ EyeTracker.drowsy_frames_threshold s = 0%Z)
  /\ (is_ok (EyeTracker.get_drowsiness_score s) = false
      <-> EyeTracker.get_drowsiness_score s = Raise ZeroDivisionError).
Proof.
  destruct (EyeTracker.ear_history s) as [|e rest] eqn:Eh.
  - unfold EyeTracker.get_drowsiness_score. rewrite Eh. cbn.
    repeat split; try discriminate; tauto.
  - destruct (Z.eq_dec (EyeTracker.drowsy_frames_threshold s) 0) as [Ez|Ez].
    + assert (R : EyeTracker.get_drowsiness_score s
                  = Raise ZeroDivisionError).
      { unfold EyeTracker.get_drowsiness_score. now rewrite Eh, Ez. }
      rewrite R. cbn. repeat split; trivial; discriminate.
    + rewrite get_drowsiness_score_nonempty by (trivial; congruence).
      cbn. repeat split; try discriminate; tauto.
Qed.

Lemma Qmin_one_of_ge (a b : Z) :
  (0 < b <= a)%Z -> Qmin (inject_Z a / inject_Z b) 1 == 1.
Proof.
  intros [Hb Hab]. apply Q.min_r.
  apply Qle_shift_div_l; [exact (inject_Z_pos b Hb)|].
  rewrite Qmult_1_l. exact (inject_Z_le b a Hab).
Qed.

Lemma fraction_below_unit (threshold : Q) (history : list Q) :
  history <> [] ->
  0 <= Spec.fraction_below threshold history
  /\ Spec.fraction_below threshold history <= 1.
Proof.
  intro H. apply Qdiv_unit_interval.
  - apply count_if_bounds.
  - destruct history; [congruence | cbn [length]; lia].
Qed.

(** Whatever score is returned by a tracker with a positive threshold and
    a non-negative running count lies between 0 and 100. *)
Lemma get_drowsiness_score_range (s : EyeTracker.t) (v : Q) :
  (0 < EyeTracker.drowsy_frames_threshold s)%Z ->
  (0 <= EyeTracker.closed_frame_count s)%Z ->
  EyeTracker.get_drowsiness_score s = Ok v ->
  0 <= v /\ v <= 100.
Proof.
  intros Hthr Hcnt.
  destruct (EyeTracker.ear_history s) as [|e rest] eqn:Eh.
  - unfold EyeTracker.get_drowsiness_score. rewrite Eh.
    intro E. injection E as <-. split; lra.
  - rewrite get_drowsiness_score_nonempty by (try lia; congruence).
    intro E. injection E as <-.
    destruct (fraction_below_unit (EyeTracker.ear_threshold s)
                (EyeTracker.ear_history s)) as [F0 F1]; [congruence|].
    set (fr := Spec.fraction_below _ _) in *.
    set (cl := Qmin _ 1).
    assert (Hcl : 0 <= cl /\ cl <= 1).
    { split.
      - apply Q.min_glb; [now apply Qdiv_nonneg | lra].
      - apply Q.le_min_r. }
    split.
    + apply Q.min_glb; lra.
    + apply Q.le_min_r.
Qed.

(** X5. A drowsy tracker scores at least 50: with a non-empty history and
    a positive threshold, whenever [is_drowsy] holds the score returned by
    [get_drowsiness_score] lies between 50 and 100, and it equals 50 plus
    50 times the fraction of the history below [ear_threshold]. *)
Theorem drowsy_tracker_scores_at_least_fifty (s : EyeTracker.t) :
  EyeTracker.ear_history s <> [] ->
  (0 < EyeTracker.drowsy_frames_threshold s)%Z ->
  EyeTracker.is_drowsy s = true ->
  exists v,
    EyeTracker.get_drowsiness_score s = Ok v
    /\ v == 50 + 50 * Spec.fraction_below (EyeTracker.ear_threshold s)
                                          (EyeTracker.ear_history s)
    /\ 50 <= v /\ v <= 100.
Proof.
  intros Hne Hthr Hd. apply is_drowsy_iff in Hd.
  rewrite get_drowsiness_score_nonempty by (try lia; trivial).
  eexists. split; [reflexivity|].
  destruct (fraction_below_unit (EyeTracker.ear_threshold s)
              (EyeTracker.ear_history s) Hne) as [F0 F1].
  set (fr := Spec.fraction_below _ _) in *.
  pose proof (Qmin_one_of_ge (EyeTracker.closed_frame_count s)
                (EyeTracker.drowsy_frames_threshold s) (conj Hthr Hd)) as M.
  set (cl := Qmin _ 1) in *.
  assert (Hmin : Qmin (fr * 50 + cl * 50) 100 == fr * 50 + cl * 50)
    by (apply Q.min_l; rewrite M; lra).
  rewrite Hmin, M. repeat split; lra.
Qed.

Lemma drowsy_tracker_scores_at_least_fifty_witness :
  exists v,
    EyeTracker.get_drowsiness_score Scenarios.drowsy_tracker = Ok v
    /\ 50 <= v /\ v <= 100.
Proof.
  destruct (drowsy_tracker_scores_at_least_fifty Scenarios.drowsy_tracker)
    as (v & E & _ & L & U).
  - discriminate.
  - reflexivity.
  - reflexivity.
  - exists v. auto.
Defined.

(* ================================================================== *)
(** * Further properties of the yawn detector *)
(* ================================================================== *)

(** X7. [get_yawn_frequency] never raises, however its two divisions
    round: it returns 0.0 during the first 30 frames, 0.0 again when the
    elapsed minutes round to zero, and otherwise the rounded quotient of
    [total_yawns] by the rounded minutes, a division whose divisor the
    guard before it has made non-zero. *)
Theorem yawn_frequency_never_raises (fl : Q -> Q) (s : YawnDetector.t) :
  let minutes :=
    fl (inject_Z (YawnDetector.frame_number s) / inject_Z (30 * 60)) in
  exists v,
    YawnDetector.get_yawn_frequency fl s = Ok v
    /\ v = (if (YawnDetector.frame_number s <? 30)%Z then 0
            else if Qeq_bool minutes 0 then 0
            else fl (inject_Z (YawnDetector.total_yawns s) / minutes)).
Proof.
  intro minutes. unfold YawnDetector.get_yawn_frequency.
  destruct (YawnDetector.frame_number s <? 30)%Z.
  - exists 0. split; reflexivity.
  - unfold truediv_fl at 1.
    replace (Qeq_bool (inject_Z (30 * 60)) 0) with false by reflexivity.
    cbn [bind]. fold minutes.
    destruct (Qeq_bool minutes 0) eqn:Eq.
    + exists 0. split; reflexivity.
    + unfold truediv_fl. rewrite Eq. eexists. split; reflexivity.
Qed.

Lemma StronglySorted_snoc (l : list Z) (x : Z) :
  StronglySorted Z.lt l -> Forall (fun y => (y < x)%Z) l ->
  StronglySorted Z.lt (l ++ [x]).
Proof.
  induction 1 as [|y rest Hs IH Hy]; intro H; cbn.
  - repeat constructor.
  - inversion H as [|? ? Hyx Hrest]; subst.
    constructor; [now apply IH|].
    apply Forall_app. split; [exact Hy | now constructor].
Qed.

Lemma StronglySorted_suffix (k : nat) (l : list Z) :
  StronglySorted Z.lt l -> StronglySorted Z.lt (skipn k l).
Proof.
  revert l. induction k as [|k IH]; intros l H; [exact H|].
  destruct l as [|x rest]; [exact H|].
  cbn. apply IH. now inversion H.
Qed.

Lemma deque_append_length {A : Type} (n : nat) (d : list A) (x : A) :
  length (deque_append n d x) = Nat.min (length d + 1) n.
Proof.
  unfold deque_append. rewrite length_skipn, length_app. cbn [length]. lia.
Qed.

Section YawnDetectorCounters.

Variable euclidean : Point -> Point -> Q.

Lemma process_mouth_counters (s s' : YawnDetector.t) (f : list Point)
    (m : YawnMetrics.t) :
  Trace.yawn_detector_consistent s ->
  YawnDetector.process_mouth euclidean s f = Ok (m, s') ->
  Trace.yawn_detector_consistent s'
  /\ YawnDetector.frame_number s' = (YawnDetector.frame_number s + 1)%Z
  /\ (YawnDetector.total_yawns s <= YawnDetector.total_yawns s'
      <= YawnDetector.total_yawns s + 1)%Z
  /\ Trace.same_config s s'
  /\ YawnDetector.history_size s' = YawnDetector.history_size s.
Proof.
  intros (Hc & Hy & Hs & Hb & Hl & Ht). unfold YawnDetector.process_mouth.
  destruct (YawnDetector.calculate_mar euclidean f) as [v|]; [|discriminate].
  cbn [bind]. intro E. injection E as _ <-.
  unfold Trace.yawn_detector_consistent, Trace.same_config. cbn.
  assert (Hb' : Forall (fun g => (g <= YawnDetector.frame_number s + 1)%Z)
                       (YawnDetector.recent_yawns s)).
  { eapply Forall_impl; [|exact Hb]. cbv beta. intros; lia. }
  assert (Hlt : Forall (fun g => (g < YawnDetector.frame_number s + 1)%Z)
                       (YawnDetector.recent_yawns s)).
  { eapply Forall_impl; [|exact Hb]. cbv beta. intros; lia. }
  destruct (Qlt_bool (YawnDetector.mar_threshold s) v); cbn.
  - repeat split; trivial; lia.
  - destruct (YawnDetector.is_yawning s
              && (YawnDetector.min_yawn_frames s
                  <=? YawnDetector.yawn_frame_count s)%Z).
    + repeat split; trivial;
        first [ lia
              | rewrite deque_append_length; lia
              | apply deque_append_Forall; [exact Hb' | lia]
              | unfold deque_append; apply StronglySorted_suffix;
                now apply StronglySorted_snoc ].
    + repeat split; trivial; lia.
Qed.

Lemma process_mouth_all_counters (fs : list (list Point)) :
  forall s s' : YawnDetector.t,
  Trace.yawn_detector_consistent s ->
  Trace.process_mouth_all euclidean s fs = Ok s' ->
  Trace.yawn_detector_consistent s'
  /\ YawnDetector.frame_number s'
     = (YawnDetector.frame_number s + Z.of_nat (length fs))%Z
  /\ (YawnDetector.total_yawns s <= YawnDetector.total_yawns s'
      <= YawnDetector.total_yawns s + Z.of_nat (length fs))%Z
  /\ Trace.same_config s s'
  /\ YawnDetector.history_size s' = YawnDetector.history_size s.
Proof.
  induction fs as [|f rest IH]; intros s s' H E; cbn in E.
  - injection E as <-. unfold Trace.same_config. cbn.
    repeat split; try lia; apply H.
  - destruct (YawnDetector.process_mouth euclidean s f)
      as [[m s1]|] eqn:E1; [|discriminate].
    cbn in E.
    destruct (process_mouth_counters s s1 f m H E1)
      as (I1 & N1 & T1 & (K1a & K1b & K1c) & S1).
    destruct (IH s1 s' I1 E) as (I' & N' & T' & (K'a & K'b & K'c) & S').
    unfold Trace.same_config. cbn [length].
    repeat split; try congruence; try lia; apply I'.
Qed.

End YawnDetectorCounters.

(** X8. Invariants of the yawn detector. Starting from a consistent
    detector (a fresh one is consistent), any run of frames leaves it
    consistent: [yawn_frame_count] is not negative, [is_yawning] holds
    exactly when that count is positive and has reached
    [min_yawn_frames], the recorded yawn frames are strictly increasing,
    none lies after the current frame, there are at most 100 of them and
    no more than [total_yawns].  The run advances [frame_number] by one
    per frame, never decreases [total_yawns] and raises it by at most one
    per frame, and leaves the configuration untouched. *)
Theorem yawn_detector_invariant
    (euclidean : Point -> Point -> Q) (s s' : YawnDetector.t)
    (fs : list (list Point)) :
  Trace.yawn_detector_consistent s ->
  Trace.process_mouth_all euclidean s fs = Ok s' ->
  Trace.yawn_detector_consistent s'
  /\ YawnDetector.frame_number s'
     = (YawnDetector.frame_number s + Z.of_nat (length fs))%Z
  /\ (YawnDetector.total_yawns s <= YawnDetector.total_yawns s'
      <= YawnDetector.total_yawns s + Z.of_nat (length fs))%Z
  /\ Trace.same_config s s'
  /\ YawnDetector.history_size s' = YawnDetector.history_size s.
Proof.
  intros H E. exact (process_mouth_all_counters euclidean fs s s' H E).
Qed.

Lemma fresh_yawn_detector_consistent
    (mar_threshold : Q) (min_yawn_frames : Z) (history_size : nat)
    (consecutive_yawns_alert : Z) :
  Trace.yawn_detector_consistent
    (YawnDetector.init mar_threshold min_yawn_frames history_size
                       consecutive_yawns_alert).
Proof.
  unfold Trace.yawn_detector_consistent, YawnDetector.recent_yawns_maxlen.
  cbn. repeat split; try lia; constructor.
Qed.

Lemma yawn_detector_invariant_witness :
  Trace.yawn_detector_consistent Scenarios.after_one_yawn
  /\ YawnDetector.frame_number Scenarios.after_one_yawn = 5%Z
  /\ (0 <= YawnDetector.total_yawns Scenarios.after_one_yawn <= 0 + 5)%Z.
Proof.
  destruct (yawn_detector_invariant Fixtures.euclidean
              Fixtures.yawn_detector Scenarios.after_one_yawn
              (repeat Fixtures.open_mouth 4 ++ [Fixtures.closed_mouth]))
    as (I & N & T & _).
  - apply fresh_yawn_detector_consistent.
  - vm_compute; reflexivity.
  - auto.
Defined.

(** X9. Resetting a detector that was constructed with some parameters and
    has since processed any run of frames gives back exactly the freshly
    constructed detector. *)
Theorem reset_restores_fresh_yawn_detector
    (euclidean : Point -> Point -> Q)
    (mar_threshold : Q) (min_yawn_frames : Z) (history_size : nat)
    (consecutive_yawns_alert : Z) (fs : list (list Point))
    (s : YawnDetector.t) :
  Trace.process_mouth_all euclidean
    (YawnDetector.init mar_threshold min_yawn_frames history_size
                       consecutive_yawns_alert) fs = Ok s ->
  YawnDetector.reset s
  = YawnDetector.init mar_threshold min_yawn_frames history_size
                      consecutive_yawns_alert.
Proof.
  intro E.
  destruct (process_mouth_all_counters euclidean fs _ s
              (fresh_yawn_detector_consistent mar_threshold min_yawn_frames
                 history_size consecutive_yawns_alert) E)
    as (_ & _ & _ & (Ka & Kb & Kc) & S).
  unfold YawnDetector.reset. rewrite Ka, Kb, Kc, S. reflexivity.
Qed.

Lemma reset_restores_fresh_yawn_detector_witness :
  YawnDetector.reset Scenarios.after_one_yawn = Fixtures.yawn_detector.
Proof.
  apply (reset_restores_fresh_yawn_detector Fixtures.euclidean
           (5 # 10) 3 30 3
           (repeat Fixtures.open_mouth 4 ++ [Fixtures.closed_mouth])).
  vm_compute; reflexivity.
Defined.

(** X10. Fatigue clears by itself: for a detector that is not in a yawn,
    has a positive [consecutive_yawns_alert] and no recorded yawn in the
    future, ninety or more consecutive frames with the mouth closed are
    processed without error and leave [is_fatigue_indicated] false,
    however many yawns were recorded before. *)
Theorem fatigue_clears_after_ninety_quiet_frames
    (euclidean : Point -> Point -> Q) (s : YawnDetector.t)
    (fs : list (list Point)) :
  Trace.recent_yawns_bounded s ->
  (0 < YawnDetector.consecutive_yawns_alert s)%Z ->
  YawnDetector.is_yawning s = false ->
  Forall (fun f => Trace.mouth_closed euclidean s f = true) fs ->
  (90 <= length fs)%nat ->
  exists s',
    Trace.process_mouth_all euclidean s fs = Ok s'
    /\ YawnDetector.is_fatigue_indicated s' = false
    /\ YawnDetector.total_yawns s' = YawnDetector.total_yawns s.
Proof.
  intros Hb Hpos Hy Hclosed Hlen.
  destruct (fatigue_clears_after_quiet_window euclidean s fs
              Hb Hpos Hy Hclosed Hlen) as (s' & E & F).
  destruct (process_mouth_all_closed euclidean fs s Hy Hclosed)
    as (s2 & E2 & _ & T & _).
  rewrite E in E2. injection E2 as <-.
  exists s'. auto.
Qed.

Lemma fatigue_clears_after_ninety_quiet_frames_witness :
  YawnDetector.is_fatigue_indicated (Fixtures.yawned_thrice 95) = true
  /\ exists s',
       Trace.process_mouth_all Fixtures.euclidean
         (Fixtures.yawned_thrice 95) (repeat Fixtures.closed_mouth 90)
       = Ok s'
       /\ YawnDetector.is_fatigue_indicated s' = false
       /\ YawnDetector.total_yawns s' = 3%Z.
Proof.
  split; [reflexivity|].
  apply (fatigue_clears_after_ninety_quiet_frames Fixtures.euclidean
           (Fixtures.yawned_thrice 95) (repeat Fixtures.closed_mouth 90)).
  - repeat constructor; discriminate.
  - reflexivity.
  - reflexivity.
  - apply Forall_forall. intros f Hf. apply repeat_spec in Hf. subst f.
    vm_compute. reflexivity.
  - rewrite repeat_length. lia.
Defined.

(* ================================================================== *)
(** * Further properties of the alert dispatcher *)
(* ================================================================== *)

(** X11. [stop_alert] always leaves the dispatcher idle, with no visual
    alert to show, and changes neither [alert_count] nor
    [last_alert_time]; on an idle dispatcher it changes nothing at all, so
    a second [stop_alert] (or [cleanup]) is a no-op whatever the outcome
    of the thread join. *)
Theorem stop_alert_idempotent (a : AlertSystem.t) (joined again : bool) :
  AlertSystem.is_alerting (AlertSystem.stop_alert joined a) = false
  /\ AlertSystem.should_show_visual_alert (AlertSystem.stop_alert joined a)
     = false
  /\ AlertSystem.alert_count (AlertSystem.stop_alert joined a)
     = AlertSystem.alert_count a
  /\ AlertSystem.last_alert_time (AlertSystem.stop_alert joined a)
     = AlertSystem.last_alert_time a
  /\ AlertSystem.stop_alert again (AlertSystem.stop_alert joined a)
     = AlertSystem.stop_alert joined a
  /\ AlertSystem.cleanup again (AlertSystem.cleanup joined a)
     = AlertSystem.cleanup joined a
  /\ (AlertSystem.is_alerting a = false ->
      AlertSystem.stop_alert joined a = a).
Proof.
  unfold AlertSystem.cleanup, AlertSystem.should_show_visual_alert,
    AlertSystem.stop_alert.
  destruct (AlertSystem.is_alerting a) eqn:E; cbn; rewrite ?E; cbn;
    rewrite ?andb_false_r; repeat split; trivial; discriminate.
Qed.

Lemma step_cooldown (a : AlertSystem.t) (e : AlertTrace.Event) :
  AlertSystem.cooldown_seconds (AlertTrace.step a e)
  = AlertSystem.cooldown_seconds a.
Proof.
  destruct e as [now|now joined|now]; cbn.
  - unfold AlertSystem.trigger_alert.
    destruct (Qlt_bool _ _); [reflexivity|].
    destruct (AlertSystem.is_alerting a); reflexivity.
  - unfold AlertSystem.stop_alert.
    destruct (negb (AlertSystem.is_alerting a)); reflexivity.
  - unfold AlertSystem._play_alert_exit.
    destruct (AlertSystem._alert_thread a) as [[|]|]; reflexivity.
Qed.

(** One call of [trigger_alert], by its outcome. *)
Lemma trigger_alert_cases (a : AlertSystem.t) (now : Q) :
  (fst (AlertSystem.trigger_alert now a) = true
   /\ AlertSystem.cooldown_seconds a <= now - AlertSystem.last_alert_time a
   /\ AlertSystem.last_alert_time (snd (AlertSystem.trigger_alert now a))
      = now
   /\ AlertSystem.alert_count (snd (AlertSystem.trigger_alert now a))
      = (AlertSystem.alert_count a + 1)%Z)
  \/ (fst (AlertSystem.trigger_alert now a) = false
      /\ snd (AlertSystem.trigger_alert now a) = a).
Proof.
  unfold AlertSystem.trigger_alert.
  destruct (Qlt_bool _ _) eqn:E; [right; auto|].
  destruct (AlertSystem.is_alerting a); [right; auto|].
  left. apply Qlt_bool_false in E. cbn. auto.
Qed.

(** X12. Alerts are never closer than the cooldown. Over any history of
    [trigger_alert] and [stop_alert] calls and playback returns, each
    accepted trigger comes at least [cooldown_seconds] after the accepted
    trigger before it (the first one after the [last_alert_time] of the
    starting state), and [alert_count] grows by exactly the number of
    accepted triggers. *)
Theorem accepted_alerts_respect_cooldown
    (a : AlertSystem.t) (es : list AlertTrace.Event) :
  AlertTrace.spaced (AlertSystem.cooldown_seconds a)
                    (AlertSystem.last_alert_time a)
                    (AlertTrace.accepted a es)
  /\ AlertSystem.alert_count (AlertTrace.run a es)
     = (AlertSystem.alert_count a
        + Z.of_nat (length (AlertTrace.accepted a es)))%Z.
Proof.
  revert a. induction es as [|e rest IH]; intro a.
  - cbn. split; [exact I | lia].
  - destruct (IH (AlertTrace.step a e)) as [S N].
    rewrite step_cooldown in S.
    change (AlertTrace.run a (e :: rest))
      with (AlertTrace.run (AlertTrace.step a e) rest).
    rewrite N. cbn [AlertTrace.accepted].
    destruct e as [now|now joined|now].
    + cbn [AlertTrace.step] in *.
      destruct (trigger_alert_cases a now) as [(R & C & L & K)|(R & U)];
        rewrite R.
      * rewrite L in S. cbn [AlertTrace.spaced length].
        split; [auto | rewrite K; lia].
      * rewrite U in *. auto.
    + destruct (quiet_step_preserves a (AlertTrace.Stop now joined) eq_refl)
        as (L & _ & K).
      rewrite L in S. rewrite K. auto.
    + destruct (quiet_step_preserves a (AlertTrace.PlaybackReturns now)
                  eq_refl) as (L & _ & K).
      rewrite L in S. rewrite K. auto.
Qed.

(** X13. An alert with no playback task running (sound disabled) latches:
    while the dispatcher is alerting and its thread is not playing, every
    [trigger_alert] is refused and a playback return has no effect, so
    any history without [stop_alert] leaves the state exactly as it was;
    only [stop_alert] or [reset] ends such an alert. *)
Theorem silent_alert_latches
    (a : AlertSystem.t) (es : list AlertTrace.Event) :
  AlertSystem.is_alerting a = true ->
  AlertSystem._alert_thread a <> Some AlertSystem.Playing ->
  forallb (fun e => negb (AlertTrace.is_stop e)) es = true ->
  AlertTrace.run a es = a
  /\ AlertTrace.accepted a es = [].
Proof.
  intros Ha Ht. induction es as [|e rest IH]; intro H; [split; reflexivity|].
  cbn in H. apply andb_true_iff in H as [He Hrest].
  assert (Hstep : AlertTrace.step a e = a).
  { destruct e as [now|now joined|now]; cbn in *.
    - now rewrite trigger_alert_while_alerting.
    - discriminate.
    - unfold AlertSystem._play_alert_exit.
      destruct (AlertSystem._alert_thread a) as [[|]|]; congruence. }
  change (AlertTrace.run a (e :: rest))
    with (AlertTrace.run (AlertTrace.step a e) rest).
  cbn [AlertTrace.accepted]. rewrite Hstep.
  destruct (IH Hrest) as [R A]. split; [exact R|].
  destruct e as [now|now joined|now]; trivial.
  now rewrite trigger_alert_while_alerting.
Qed.

Lemma silent_alert_latches_witness :
  let alerting := snd (AlertSystem.trigger_alert 1000 Fixtures.silent_alerts) in
  let history :=
    [AlertTrace.Trigger 1005; AlertTrace.PlaybackReturns 1006;
     AlertTrace.Trigger 2000] in
  AlertTrace.run alerting history = alerting
  /\ AlertTrace.accepted alerting history = [].
Proof.
  apply (silent_alert_latches
           (snd (AlertSystem.trigger_alert 1000 Fixtures.silent_alerts))).
  - reflexivity.
  - discriminate.
  - reflexivity.
Defined.

(* ================================================================== *)
(** * Further properties of the head-pose estimator *)
(* ================================================================== *)

Lemma set_frame_size_spec (s : HeadPoseEstimator.t) (width height : Z) :
  Trace.camera_consistent s ->
  Trace.camera_consistent (HeadPoseEstimator.set_frame_size s width height)
  /\ HeadPoseEstimator.frame_width
       (HeadPoseEstimator.set_frame_size s width height) = width
  /\ HeadPoseEstimator.frame_height
       (HeadPoseEstimator.set_frame_size s width height) = height
  /\ HeadPoseEstimator.pitch_threshold
       (HeadPoseEstimator.set_frame_size s width height)
     = HeadPoseEstimator.pitch_threshold s
  /\ HeadPoseEstimator.roll_threshold
       (HeadPoseEstimator.set_frame_size s width height)
     = HeadPoseEstimator.roll_threshold s.
Proof.
  intro H. unfold HeadPoseEstimator.set_frame_size.
  destruct (width =? HeadPoseEstimator.frame_width s)%Z eqn:Ew;
    destruct (height =? HeadPoseEstimator.frame_height s)%Z eqn:Eh; cbn;
    try (apply Z.eqb_eq in Ew); try (apply Z.eqb_eq in Eh);
    unfold Trace.camera_consistent; cbn; auto.
Qed.

Section HeadPoseFacts.

Variable solvePnP :
  list Vec3 -> list Point -> list (list Q) -> option (Vec3 * Vec3).
Variable euler_degrees : Vec3 -> Q * Q * Q.

(** The estimator that [estimate_pose] leaves behind. *)
Lemma estimate_pose_state (s s' : HeadPoseEstimator.t) (lm : list Point)
    (shape : option (Z * Z)) (m : HeadPoseMetrics.t) :
  HeadPoseEstimator.estimate_pose solvePnP euler_degrees s lm shape
  = Ok (m, s') ->
  s' = match shape with
       | Some (h, w) => HeadPoseEstimator.set_frame_size s w h
       | None => s
       end.
Proof.
  unfold HeadPoseEstimator.estimate_pose.
  destruct (HeadPoseEstimator._extract_pose_points lm) as [pts|];
    [|discriminate].
  cbn [bind].
  destruct (solvePnP _ pts _) as [[rv tv]|].
  - destruct (euler_degrees rv) as [[p y] r].
    intro E. now injection E as _ <-.
  - intro E. now injection E as _ <-.
Qed.

End HeadPoseFacts.

(** X14. The camera matrix follows the frame size. If the estimator's
    camera matrix is the one of its frame dimensions (as after
    construction), then after [estimate_pose] on a frame of height [h] and
    width [w] the estimator records width [w] and height [h], its camera
    matrix is the one of [w] and [h] (focal length [w], principal point
    [(w/2, h/2)]), and both thresholds are unchanged. *)
Theorem estimate_pose_tracks_frame_size
    (solvePnP :
       list Vec3 -> list Point -> list (list Q) -> option (Vec3 * Vec3))
    (euler_degrees : Vec3 -> Q * Q * Q)
    (s s' : HeadPoseEstimator.t) (lm : list Point) (h w : Z)
    (m : HeadPoseMetrics.t) :
  Trace.camera_consistent s ->
  HeadPoseEstimator.estimate_pose solvePnP euler_degrees s lm (Some (h, w))
  = Ok (m, s') ->
  HeadPoseEstimator.frame_width s' = w
  /\ HeadPoseEstimator.frame_height s' = h
  /\ HeadPoseEstimator.camera_matrix s'
     = [ [inject_Z w; 0; inject_Z w / 2];
         [0; inject_Z w; inject_Z h / 2];
         [0; 0; 1] ]
  /\ HeadPoseEstimator.pitch_threshold s'
     = HeadPoseEstimator.pitch_threshold s
  /\ HeadPoseEstimator.roll_threshold s'
     = HeadPoseEstimator.roll_threshold s.
Proof.
  intros Hc E.
  apply estimate_pose_state in E. subst s'.
  destruct (set_frame_size_spec s w h Hc) as (C & W & H & P & R).
  repeat split; trivial.
  unfold Trace.camera_consistent in C. rewrite C, W, H. reflexivity.
Qed.

Lemma estimate_pose_tracks_frame_size_witness :
  exists m s',
    HeadPoseEstimator.estimate_pose Fixtures.solvePnP_fails
      Fixtures.euler_degrees Fixtures.head_pose
      (Fixtures.face Fixtures.open_eye Fixtures.open_mouth)
      (Some (720, 1280)%Z) = Ok (m, s')
    /\ HeadPoseEstimator.frame_width s' = 1280%Z
    /\ HeadPoseEstimator.frame_height s' = 720%Z
    /\ HeadPoseEstimator.camera_matrix s'
       = [ [inject_Z 1280; 0; inject_Z 1280 / 2];
           [0; inject_Z 1280; inject_Z 720 / 2];
           [0; 0; 1] ].
Proof.
  do 2 eexists. split; [vm_compute; reflexivity|].
  destruct (estimate_pose_tracks_frame_size Fixtures.solvePnP_fails
              Fixtures.euler_degrees Fixtures.head_pose
              (HeadPoseEstimator.set_frame_size Fixtures.head_pose 1280 720)
              (Fixtures.face Fixtures.open_eye Fixtures.open_mouth)
              720 1280
              {| HeadPoseMetrics.pitch := 0;
                 HeadPoseMetrics.yaw := 0;
                 HeadPoseMetrics.roll := 0;
                 HeadPoseMetrics.is_head_down := false;
                 HeadPoseMetrics.is_head_tilted := false;
                 HeadPoseMetrics.rotation_vector := None;
                 HeadPoseMetrics.translation_vector := None |})
    as (W & H & C & _).
  - reflexivity.
  - vm_compute; reflexivity.
  - auto.
Defined.

(** Array indexing fails only with [IndexError], and does so as soon as
    one index is past the end. *)
Lemma take_out_of_range {A : Type} (a : list A) (idx : list nat) :
  Exists (fun i => (length a <= i)%nat) idx ->
  take a idx = Raise IndexError.
Proof.
  induction idx as [|i rest IH]; intro H; [inversion H|].
  cbn [take]. unfold getitem.
  destruct (nth_error a i) as [x|] eqn:E; [|reflexivity].
  cbn [bind]. inversion H as [? ? Hi|? ? Hrest]; subst.
  - apply nth_error_None in Hi. congruence.
  - now rewrite (IH Hrest).
Qed.

Section HeadPoseErrors.

Variable solvePnP :
  list Vec3 -> list Point -> list (list Q) -> option (Vec3 * Vec3).
Variable euler_degrees : Vec3 -> Q * Q * Q.

Lemma estimate_pose_short (s : HeadPoseEstimator.t) (lm : list Point)
    (shape : option (Z * Z)) :
  (length lm <= 54)%nat ->
  HeadPoseEstimator.estimate_pose solvePnP euler_degrees s lm shape
  = Raise IndexError.
Proof.
  intro H. unfold HeadPoseEstimator.estimate_pose,
    HeadPoseEstimator._extract_pose_points.
  rewrite take_out_of_range; [reflexivity|].
  unfold HeadPoseEstimator.LANDMARK_INDICES.
  do 5 apply Exists_cons_tl. apply Exists_cons_hd. exact H.
Qed.

Lemma estimate_pose_enough (s : HeadPoseEstimator.t) (lm : list Point)
    (shape : option (Z * Z)) :
  (55 <= length lm)%nat ->
  exists m s',
    HeadPoseEstimator.estimate_pose solvePnP euler_degrees s lm shape
    = Ok (m, s')
    /\ (HeadPoseMetrics.rotation_vector m = None ->
        HeadPoseMetrics.pitch m = 0 /\ HeadPoseMetrics.yaw m = 0
        /\ HeadPoseMetrics.roll m = 0
        /\ HeadPoseMetrics.is_head_down m = false
        /\ HeadPoseMetrics.is_head_tilted m = false)
    /\ (HeadPoseMetrics.is_head_down m = true ->
        HeadPoseMetrics.pitch m < - HeadPoseEstimator.pitch_threshold s)
    /\ (HeadPoseMetrics.is_head_tilted m = true ->
        HeadPoseEstimator.roll_threshold s < Qabs (HeadPoseMetrics.roll m)).
Proof.
  intro H. unfold HeadPoseEstimator.estimate_pose,
    HeadPoseEstimator._extract_pose_points.
  destruct (take_ok lm HeadPoseEstimator.LANDMARK_INDICES) as (pts & -> & _).
  { repeat constructor; lia. }
  cbn [bind].
  assert (Kp : forall shape0 : option (Z * Z),
             HeadPoseEstimator.pitch_threshold
               match shape0 with
               | Some (h, w) => HeadPoseEstimator.set_frame_size s w h
               | None => s
               end = HeadPoseEstimator.pitch_threshold s
             /\ HeadPoseEstimator.roll_threshold
                  match shape0 with
                  | Some (h, w) => HeadPoseEstimator.set_frame_size s w h
                  | None => s
                  end = HeadPoseEstimator.roll_threshold s).
  { intros [[h w]|]; [|auto]. unfold HeadPoseEstimator.set_frame_size.
    destruct (_ || _); auto. }
  destruct (Kp shape) as [Kp1 Kp2].
  destruct (solvePnP _ pts _) as [[rv tv]|].
  - destruct (euler_degrees rv) as [[p y] r].
    do 2 eexists. split; [reflexivity|]. cbn.
    rewrite Kp1, Kp2.
    repeat split; try discriminate; intro F; now apply Qlt_bool_true.
  - do 2 eexists. split; [reflexivity|]. cbn.
    repeat split; discriminate.
Qed.

End HeadPoseErrors.

(** X15. Errors and flags of [estimate_pose]. With fewer than 55
    landmarks (index 54, the right mouth corner, is the largest one read)
    it raises [IndexError]; with 55 or more it returns.  When the solver
    failed (no rotation vector in the result) the three angles are 0 and
    both flags false; and whenever a flag is set the reported angle
    justifies it: head down means the pitch is below minus the pitch
    threshold, head tilted means the absolute roll exceeds the roll
    threshold. *)
Theorem estimate_pose_errors_and_flags
    (solvePnP :
       list Vec3 -> list Point -> list (list Q) -> option (Vec3 * Vec3))
    (euler_degrees : Vec3 -> Q * Q * Q)
    (s : HeadPoseEstimator.t) (lm : list Point) (shape : option (Z * Z)) :
  ((length lm <= 54)%nat ->
   HeadPoseEstimator.estimate_pose solvePnP euler_degrees s lm shape
   = Raise IndexError)
  /\ ((55 <= length lm)%nat ->
      exists m s',
        HeadPoseEstimator.estimate_pose solvePnP euler_degrees s lm shape
        = Ok (m, s')
        /\ (HeadPoseMetrics.rotation_vector m = None ->
            HeadPoseMetrics.pitch m = 0 /\ HeadPoseMetrics.yaw m = 0
            /\ HeadPoseMetrics.roll m = 0
            /\ HeadPoseMetrics.is_head_down m = false
            /\ HeadPoseMetrics.is_head_tilted m = false)
        /\ (HeadPoseMetrics.is_head_down m = true ->
            HeadPoseMetrics.pitch m
            < - HeadPoseEstimator.pitch_threshold s)
        /\ (HeadPoseMetrics.is_head_tilted m = true ->
            HeadPoseEstimator.roll_threshold s
            < Qabs (HeadPoseMetrics.roll m))).
Proof.
  split.
  - apply estimate_pose_short.
  - apply estimate_pose_enough.
Qed.

Lemma estimate_pose_errors_and_flags_witness :
  HeadPoseEstimator.estimate_pose (Fixtures.solvePnP_const (- (40), 0, 25))
    Fixtures.euler_degrees Fixtures.head_pose
    (repeat (Fixtures.pt 0 0) 54) None = Raise IndexError
  /\ exists m s',
       HeadPoseEstimator.estimate_pose
         (Fixtures.solvePnP_const (- (40), 0, 25))
         Fixtures.euler_degrees Fixtures.head_pose
         (repeat (Fixtures.pt 0 0) 55) None = Ok (m, s')
       /\ HeadPoseMetrics.is_head_down m = true
       /\ HeadPoseMetrics.pitch m < - (30).
Proof.
  destruct (estimate_pose_errors_and_flags
              (Fixtures.solvePnP_const (- (40), 0, 25))
              Fixtures.euler_degrees Fixtures.head_pose
              (repeat (Fixtures.pt 0 0) 54) None) as [Hshort _].
  destruct (estimate_pose_errors_and_flags
              (Fixtures.solvePnP_const (- (40), 0, 25))
              Fixtures.euler_degrees Fixtures.head_pose
              (repeat (Fixtures.pt 0 0) 55) None) as [_ Henough].
  split; [apply Hshort; simpl; lia|].
  destruct Henough as (m & s' & E & _ & Hd & _); [simpl; lia|].
  exists m, s'. split; [exact E|].
  assert (D : HeadPoseMetrics.is_head_down m = true).
  { vm_compute in E. injection E as <- _. reflexivity. }
  split; [exact D | exact (Hd D)].
Defined.

(* ================================================================== *)
(** * Landmark subsets and the ratios computed from them *)
(* ================================================================== *)

Lemma take_nth {A : Type} (a : list A) (idx : list nat) :
  forall (xs : list A) (k i : nat),
  take a idx = Ok xs ->
  nth_error idx k = Some i ->
  nth_error xs k = nth_error a i.
Proof.
  induction idx as [|j rest IH]; intros xs k i E Hk.
  - destruct k; discriminate.
  - cbn [take] in E. unfold getitem in E.
    destruct (nth_error a j) as [x|] eqn:Ej; [|discriminate].
    cbn [bind] in E.
    destruct (take a rest) as [ys|] eqn:Er; [|discriminate].
    cbn [bind] in E. injection E as <-.
    destruct k as [|k]; cbn in *.
    + injection Hk as <-. now rewrite Ej.
    + now apply IH.
Qed.

(** Reading entry [i] of the slice [a[lo:hi]] reads entry [lo + i] of
    [a]. *)
Lemma getitem_take_range (a xs : list Point) (lo hi i : nat) :
  take a (range lo hi) = Ok xs ->
  (hi <= length a)%nat ->
  (i < hi - lo)%nat ->
  getitem xs i = Ok (nth (lo + i) a (0, 0)).
Proof.
  intros E Hhi Hi. unfold getitem.
  rewrite (take_nth a (range lo hi) xs i (lo + i) E).
  - rewrite (nth_error_nth' a (0, 0)) by lia. reflexivity.
  - unfold range. rewrite nth_error_seq.
    now replace (i <? hi - lo)%nat with true
      by (symmetry; apply Nat.ltb_lt; exact Hi).
Qed.

Lemma ratio_guard_total (A B C : Q) :
  (if Qeq_bool C 0 then Ok 0 else truediv (A + B) (2 * C))
  = (if Qeq_bool C 0 then Ok 0 else Ok ((A + B) / (2 * C))).
Proof.
  destruct (Qeq_bool C 0) eqn:E; [reflexivity|].
  apply Qeq_bool_neq in E. apply truediv_ok. intro H. apply E. lra.
Qed.

(** X16. The eye ratios read the landmarks of the 68-point model that the
    comments name. For a set of at least 48 landmarks [p],
    [get_eye_landmarks] returns the left eye [p[42..47]] and the right eye
    [p[36..41]], and [calculate_ear] of them is
    [(|p43-p47| + |p44-p46|) / (2 |p42-p45|)] and
    [(|p37-p41| + |p38-p40|) / (2 |p36-p39|)], or 0 when the divisor's
    distance is 0. *)
Theorem eye_ratios_read_eye_landmarks
    (euclidean : Point -> Point -> Q) (lm : list Point) :
  (48 <= length lm)%nat ->
  let p i := nth i lm (0, 0) in
  let ratio A B C :=
    if Qeq_bool C 0 then Ok 0 else Ok ((A + B) / (2 * C)) in
  exists left_eye right_eye,
    FaceDetector.get_eye_landmarks lm = Ok (left_eye, right_eye)
    /\ length left_eye = 6%nat /\ length right_eye = 6%nat
    /\ EyeTracker.calculate_ear euclidean left_eye
       = ratio (euclidean (p 43%nat) (p 47%nat))
               (euclidean (p 44%nat) (p 46%nat))
               (euclidean (p 42%nat) (p 45%nat))
    /\ EyeTracker.calculate_ear euclidean right_eye
       = ratio (euclidean (p 37%nat) (p 41%nat))
               (euclidean (p 38%nat) (p 40%nat))
               (euclidean (p 36%nat) (p 39%nat)).
Proof.
  intros Hlen p ratio. unfold FaceDetector.get_eye_landmarks.
  destruct (take_ok lm FaceDetector.left_eye) as (le & El & Ll);
    [apply Forall_range_lt; lia|].
  destruct (take_ok lm FaceDetector.right_eye) as (re & Er & Lr);
    [apply Forall_range_lt; lia|].
  rewrite El, Er. cbn [bind].
  exists le, re. repeat split; trivial.
  - unfold EyeTracker.calculate_ear.
    rewrite !(getitem_take_range lm le 42 48 _ El) by (cbn; lia).
    cbn [bind]. apply ratio_guard_total.
  - unfold EyeTracker.calculate_ear.
    rewrite !(getitem_take_range lm re 36 42 _ Er) by (cbn; lia).
    cbn [bind]. apply ratio_guard_total.
Qed.

Lemma eye_ratios_read_eye_landmarks_witness :
  exists left_eye right_eye,
    FaceDetector.get_eye_landmarks
      (Fixtures.face Fixtures.closed_eye Fixtures.open_mouth)
    = Ok (left_eye, right_eye)
    /\ length left_eye = 6%nat /\ length right_eye = 6%nat
    /\ EyeTracker.calculate_ear Fixtures.euclidean left_eye = Ok (4 # 40)
    /\ EyeTracker.calculate_ear Fixtures.euclidean right_eye = Ok (4 # 40).
Proof.
  destruct (eye_ratios_read_eye_landmarks Fixtures.euclidean
              (Fixtures.face Fixtures.closed_eye Fixtures.open_mouth))
    as (l & r & E & Ll & Lr & Hl & Hr); [simpl; lia|].
  exists l, r. repeat split; trivial.
Defined.

(** Entry [i] of the 20-point mouth array is landmark [48 + i]. *)
Lemma getitem_mouth (lm outer inner : list Point) (i : nat) :
  take lm FaceDetector.outer_mouth = Ok outer ->
  take lm FaceDetector.inner_mouth = Ok inner ->
  length outer = 12%nat ->
  (68 <= length lm)%nat ->
  (12 <= i < 20)%nat ->
  getitem (outer ++ inner) i = Ok (nth (48 + i) lm (0, 0)).
Proof.
  intros Eo Ei Lo Hlen Hi.
  pose proof (getitem_take_range lm inner 60 68 (i - 12) Ei Hlen) as H.
  unfold getitem in *. rewrite nth_error_app2 by lia. rewrite Lo.
  rewrite H by (cbn; lia).
  now replace (60 + (i - 12))%nat with (48 + i)%nat by lia.
Qed.

(** X17. The mouth ratio of a full face reads the inner lips. For a set
    of at least 68 landmarks [p], [get_mouth_landmarks] returns 20 points
    (outer mouth, then inner mouth) and [calculate_mar] of them is
    [(|p62-p66| + |p63-p65|) / (2 |p60-p64|)], or 0 when the inner corners
    coincide: the outer-mouth fallback is not used. *)
Theorem mouth_ratio_reads_inner_lips
    (euclidean : Point -> Point -> Q) (lm : list Point) :
  (68 <= length lm)%nat ->
  let p i := nth i lm (0, 0) in
  exists mouth,
    FaceDetector.get_mouth_landmarks lm = Ok mouth
    /\ length mouth = 20%nat
    /\ YawnDetector.calculate_mar euclidean mouth
       = (if Qeq_bool (euclidean (p 60%nat) (p 64%nat)) 0 then Ok 0
          else Ok ((euclidean (p 62%nat) (p 66%nat)
                    + euclidean (p 63%nat) (p 65%nat))
                   / (2 * euclidean (p 60%nat) (p 64%nat)))).
Proof.
  intros Hlen p. unfold FaceDetector.get_mouth_landmarks.
  destruct (take_ok lm FaceDetector.outer_mouth) as (om & Eo & Lo);
    [apply Forall_range_lt; lia|].
  destruct (take_ok lm FaceDetector.inner_mouth) as (im & Ei & Li);
    [apply Forall_range_lt; lia|].
  rewrite Eo, Ei. cbn [bind].
  assert (L : length (om ++ im) = 20%nat)
    by (rewrite length_app, Lo, Li; reflexivity).
  exists (om ++ im). repeat split; trivial.
  unfold YawnDetector.calculate_mar. rewrite L. cbn [Nat.leb Nat.add].
  rewrite !(getitem_mouth lm om im _ Eo Ei Lo Hlen) by lia.
  cbn [bind]. apply ratio_guard_total.
Qed.

Lemma mouth_ratio_reads_inner_lips_witness :
  exists mouth,
    FaceDetector.get_mouth_landmarks
      (Fixtures.face Fixtures.closed_eye Fixtures.open_mouth) = Ok mouth
    /\ length mouth = 20%nat
    /\ YawnDetector.calculate_mar Fixtures.euclidean mouth = Ok (120 # 120).
Proof.
  destruct (mouth_ratio_reads_inner_lips Fixtures.euclidean
              (Fixtures.face Fixtures.closed_eye Fixtures.open_mouth))
    as (m & E & L & H); [simpl; lia|].
  exists m. repeat split; trivial.
Defined.

(* ================================================================== *)
(** * Further properties of the orchestrator *)
(* ================================================================== *)


Section OrchestratorFacts.

Variable euclidean : Point -> Point -> Q.
Variable solvePnP :
  list Vec3 -> list Point -> list (list Q) -> option (Vec3 * Vec3).
Variable euler_degrees : Vec3 -> Q * Q * Q.


(** The eye tracker after a frame with a face is the one [process_eyes]
    returns. *)
Lemma process_frame_eye_tracker (d d' : DrowsinessDetector.t)
    (inp : DrowsinessDetector.FrameInput) (lm : list Point)
    (res : DetectionResult.t) :
  DrowsinessDetector.detected_landmarks inp = Some lm ->
  DrowsinessDetector.process_frame euclidean solvePnP euler_degrees d inp
  = Ok (res, d') ->
  exists l r m,
    EyeTracker.process_eyes euclidean (DrowsinessDetector.eye_tracker d) l r
    = Ok (m, DrowsinessDetector.eye_tracker d').
Proof.
  intros Hlm. unfold DrowsinessDetector.process_frame. rewrite Hlm.
  destruct (FaceDetector.get_eye_landmarks lm) as [[le re]|];
    cbn [bind]; [|discriminate].
  destruct (EyeTracker.process_eyes euclidean _ le re) as [[em et]|] eqn:Ee;
    cbn [bind]; [|discriminate].
  destruct (FaceDetector.get_mouth_landmarks lm) as [ml|];
    cbn [bind]; [|discriminate].
  destruct (YawnDetector.process_mouth euclidean _ ml) as [[ym yd]|];
    cbn [bind]; [|discriminate].
  destruct (HeadPoseEstimator.estimate_pose _ _ _ lm _) as [[hm hp]|];
    cbn [bind]; [|discriminate].
  destruct (EyeTracker.get_drowsiness_score et) as [score|];
    cbn [bind]; [|discriminate].
  intro E. injection E as _ <-. cbn. eauto.
Qed.


End OrchestratorFacts.






(** X20. The fused score stays in range. Whenever [process_frame] returns
    for a detector whose eye tracker has a positive threshold and a
    non-negative running count, the drowsiness score of the result lies
    between 0 and 100, and the eye tracker keeps both properties for the
    next frame. *)
Theorem fused_score_in_range
    (euclidean : Point -> Point -> Q)
    (solvePnP :
       list Vec3 -> list Point -> list (list Q) -> option (Vec3 * Vec3))
    (euler_degrees : Vec3 -> Q * Q * Q)
    (d d' : DrowsinessDetector.t) (inp : DrowsinessDetector.FrameInput)
    (res : DetectionResult.t) :
  (0 < EyeTracker.drowsy_frames_threshold (DrowsinessDetector.eye_tracker d))%Z
  ->
  (0 <= EyeTracker.closed_frame_count (DrowsinessDetector.eye_tracker d))%Z
  ->
  DrowsinessDetector.process_frame euclidean solvePnP euler_degrees d inp
  = Ok (res, d') ->
  0 <= DetectionResult.drowsiness_score res
  /\ DetectionResult.drowsiness_score res <= 100
  /\ (0 < EyeTracker.drowsy_frames_threshold
            (DrowsinessDetector.eye_tracker d'))%Z
  /\ (0 <= EyeTracker.closed_frame_count
             (DrowsinessDetector.eye_tracker d'))%Z.
Proof.
  intros Hthr Hcnt E.
  destruct (DrowsinessDetector.detected_landmarks inp) as [lm|] eqn:Hlm.
  - destruct (process_frame_eye_tracker euclidean solvePnP euler_degrees
                d d' inp lm res Hlm E) as (l & r & m & Ee).
    destruct (process_eyes_keeps_count_nonneg euclidean _ _ l r m Hcnt Ee)
      as [Hcnt' Hthr'].
    destruct (process_frame_face euclidean solvePnP euler_degrees
                d d' inp lm res Hlm E) as (score & Hs & _ & Hf & _).
    assert (Hpos : (0 < EyeTracker.drowsy_frames_threshold
                           (DrowsinessDetector.eye_tracker d'))%Z) by lia.
    destruct (get_drowsiness_score_range
                (DrowsinessDetector.eye_tracker d') score Hpos Hcnt' Hs)
      as [S0 S1].
    rewrite Hf. unfold Spec.fused_score.
    repeat split; try lia.
    + apply Q.min_glb; [|lra].
      destruct (YawnDetector.is_fatigue_indicated _);
        destruct (DetectionResult.head_down res); lra.
    + apply Q.le_min_r.
  - unfold DrowsinessDetector.process_frame in E. rewrite Hlm in E.
    injection E as <- <-. cbn. repeat split; trivial; lra.
Qed.

Lemma fused_score_in_range_witness :
  exists res d',
    DrowsinessDetector.process_frame Fixtures.euclidean
      (Fixtures.solvePnP_const (- (40), 0, 0)) Fixtures.euler_degrees
      Fixtures.detector
      (Fixtures.frame_at 1001
         (Some (Fixtures.face Fixtures.closed_eye Fixtures.open_mouth)))
    = Ok (res, d')
    /\ 0 <= DetectionResult.drowsiness_score res
    /\ DetectionResult.drowsiness_score res <= 100.
Proof.
  destruct (process_frame_face_total Fixtures.euclidean
              (Fixtures.solvePnP_const (- (40), 0, 0))
              Fixtures.euler_degrees Fixtures.detector
              (Fixtures.frame_at 1001
                 (Some (Fixtures.face Fixtures.closed_eye
                                      Fixtures.open_mouth)))
              (Fixtures.face Fixtures.closed_eye Fixtures.open_mouth))
    as (res & d' & E); [reflexivity | simpl; lia | discriminate |].
  destruct (fused_score_in_range Fixtures.euclidean
              (Fixtures.solvePnP_const (- (40), 0, 0))
              Fixtures.euler_degrees Fixtures.detector d'
              (Fixtures.frame_at 1001
                 (Some (Fixtures.face Fixtures.closed_eye
                                      Fixtures.open_mouth)))
              res) as (L & U & _); [reflexivity | simpl; lia | exact E |].
  exists res, d'. auto.
Defined.

(* ================================================================== *)
(** * Translation invariance of the ratios *)
(* ================================================================== *)

Lemma getitem_map {A B : Type} (f : A -> B) (a : list A) (i : nat) :
  getitem (map f a) i
  = match getitem a i with
    | Ok x => Ok (f x)
    | Raise e => Raise e
    end.
Proof.
  unfold getitem. rewrite nth_error_map.
  destruct (nth_error a i); reflexivity.
Qed.

Lemma ratio_same_outcome (A B C A' B' C' : Q) :
  A' == A -> B' == B -> C' == C ->
  Trace.same_outcome
    (if Qeq_bool C' 0 then Ok 0 else truediv (A' + B') (2 * C'))
    (if Qeq_bool C 0 then Ok 0 else truediv (A + B) (2 * C)).
Proof.
  intros HA HB HC.
  assert (E : Qeq_bool C' 0 = Qeq_bool C 0).
  { destruct (Qeq_bool C 0) eqn:E0.
    - apply Qeq_bool_iff. apply Qeq_bool_iff in E0. now rewrite HC.
    - destruct (Qeq_bool C' 0) eqn:E1; [|reflexivity].
      apply Qeq_bool_iff in E1. apply Qeq_bool_neq in E0.
      exfalso. apply E0. now rewrite <- HC. }
  rewrite E. destruct (Qeq_bool C 0) eqn:E0; [reflexivity|].
  apply Qeq_bool_neq in E0.
  rewrite !truediv_ok by (intro H; apply E0; lra).
  cbn. now rewrite HA, HB, HC.
Qed.

(** X21. The ratios do not depend on where the face is in the frame. If
    the distance function is invariant under a translation by [v], then
    [calculate_ear] and [calculate_mar] give the same outcome (the same
    exception, or equal ratios) on an array and on the array moved by
    [v]. *)
Theorem ratios_translation_invariant
    (euclidean : Point -> Point -> Q) (v : Point)
    (eye mouth : list Point) :
  (forall p q : Point,
      euclidean (Trace.translate v p) (Trace.translate v q)
      == euclidean p q) ->
  Trace.same_outcome
    (EyeTracker.calculate_ear euclidean (map (Trace.translate v) eye))
    (EyeTracker.calculate_ear euclidean eye)
  /\ Trace.same_outcome
       (YawnDetector.calculate_mar euclidean (map (Trace.translate v) mouth))
       (YawnDetector.calculate_mar euclidean mouth).
Proof.
  intro Hinv. split.
  - unfold EyeTracker.calculate_ear. rewrite !getitem_map.
    destruct (getitem eye 1); [|reflexivity].
    destruct (getitem eye 5); [|reflexivity].
    destruct (getitem eye 2); [|reflexivity].
    destruct (getitem eye 4); [|reflexivity].
    destruct (getitem eye 0); [|reflexivity].
    destruct (getitem eye 3); [|reflexivity].
    cbn [bind]. apply ratio_same_outcome; apply Hinv.
  - unfold YawnDetector.calculate_mar. rewrite length_map.
    destruct (20 <=? length mouth)%nat; rewrite !getitem_map.
    + cbn [Nat.add].
      destruct (getitem mouth 14); [|reflexivity].
      destruct (getitem mouth 18); [|reflexivity].
      destruct (getitem mouth 15); [|reflexivity].
      destruct (getitem mouth 17); [|reflexivity].
      destruct (getitem mouth 12); [|reflexivity].
      destruct (getitem mouth 16); [|reflexivity].
      cbn [bind]. apply ratio_same_outcome; apply Hinv.
    + destruct (getitem mouth 2); [|reflexivity].
      destruct (getitem mouth 10); [|reflexivity].
      destruct (getitem mouth 4); [|reflexivity].
      destruct (getitem mouth 8); [|reflexivity].
      destruct (getitem mouth 0); [|reflexivity].
      destruct (getitem mouth 6); [|reflexivity].
      cbn [bind]. apply ratio_same_outcome; apply Hinv.
Qed.

(** The distance of the test vectors is invariant under translation. *)
Lemma fixture_distance_translation (v p q : Point) :
  Fixtures.euclidean (Trace.translate v p) (Trace.translate v q)
  == Fixtures.euclidean p q.
Proof.
  unfold Fixtures.euclidean, Fixtures.Qsqrt_floor, Trace.translate.
  cbn [fst snd].
  match goal with
  | |- _ # Qden (Qred ?a) == _ # Qden (Qred ?b) =>
      assert (E : Qred a = Qred b) by (apply Qred_complete; ring)
  end.
  rewrite E. reflexivity.
Qed.

Lemma ratios_translation_invariant_witness :
  Trace.same_outcome
    (EyeTracker.calculate_ear Fixtures.euclidean
       (map (Trace.translate (100, 7)) Fixtures.closed_eye))
    (EyeTracker.calculate_ear Fixtures.euclidean Fixtures.closed_eye)
  /\ Trace.same_outcome
       (YawnDetector.calculate_mar Fixtures.euclidean
          (map (Trace.translate (100, 7)) Fixtures.open_mouth))
       (YawnDetector.calculate_mar Fixtures.euclidean Fixtures.open_mouth).
Proof.
  apply (ratios_translation_invariant Fixtures.euclidean (100, 7)
           Fixtures.closed_eye Fixtures.open_mouth).
  intros p q. apply fixture_distance_translation.
Defined.

(* ================================================================== *)
(** * Start-up and reset *)
(* ================================================================== *)

(** X22. No drowsiness before the threshold: a freshly constructed tracker
    that has processed fewer than [drowsy_frames_threshold] frames, of
    whatever content, is not drowsy. *)
Theorem no_drowsiness_before_threshold
    (euclidean : Point -> Point -> Q)
    (ear_threshold : Q) (history_size : nat) (drowsy_frames_threshold : Z)
    (fs : list Trace.EyeFrame) (s : EyeTracker.t) :
  Trace.process_eyes_all euclidean
    (EyeTracker.init ear_threshold history_size drowsy_frames_threshold) fs
  = Ok s ->
  (Z.of_nat (length fs) < drowsy_frames_threshold)%Z ->
  EyeTracker.is_drowsy s = false.
Proof.
  intros E Hn.
  assert (I : Trace.eye_tracker_consistent
                (EyeTracker.init ear_threshold history_size
                                 drowsy_frames_threshold))
    by (split; [cbn; lia | reflexivity]).
  destruct (process_eyes_all_counters euclidean fs _ s I E)
    as (_ & C & _ & T & _).
  apply is_drowsy_false_iff. rewrite T. cbn in *. lia.
Qed.

Lemma no_drowsiness_before_threshold_witness :
  EyeTracker.is_drowsy Scenarios.short_memory_after_three = false.
Proof.
  apply (no_drowsiness_before_threshold Fixtures.euclidean
           (25 # 100) 2 5 (repeat Fixtures.closed_eyes 3)).
  - vm_compute; reflexivity.
  - simpl; lia.
Defined.

(** X23. [reset] forgets the cooldown. Whatever the dispatcher was doing,
    after [reset] it is idle with [alert_count] and [last_alert_time] at
    zero and its settings unchanged, so the first trigger at any time not
    below [cooldown_seconds] is accepted, even right after an alert, and
    counts as alert number one. *)
Theorem reset_clears_cooldown (a : AlertSystem.t) (joined : bool) (now : Q) :
  AlertSystem.cooldown_seconds a <= now ->
  let r := AlertSystem.reset joined a in
  AlertSystem.is_alerting r = false
  /\ AlertSystem.alert_count r = 0%Z
  /\ AlertSystem.last_alert_time r = 0
  /\ Trace.alert_settings r = Trace.alert_settings a
  /\ fst (AlertSystem.trigger_alert now r) = true
  /\ AlertSystem.alert_count (snd (AlertSystem.trigger_alert now r)) = 1%Z.
Proof.
  intros Hc r.
  assert (Hs : AlertSystem.is_alerting (AlertSystem.stop_alert joined a)
               = false
               /\ Trace.alert_settings (AlertSystem.stop_alert joined a)
                  = Trace.alert_settings a).
  { unfold AlertSystem.stop_alert, Trace.alert_settings.
    destruct (AlertSystem.is_alerting a) eqn:E; cbn; auto. }
  destruct Hs as [Hi Hset].
  assert (Hr : AlertSystem.is_alerting r = false
               /\ AlertSystem.alert_count r = 0%Z
               /\ AlertSystem.last_alert_time r = 0
               /\ Trace.alert_settings r = Trace.alert_settings a).
  { unfold r, AlertSystem.reset. cbn. repeat split; trivial. }
  destruct Hr as (R1 & R2 & R3 & R4).
  assert (Hcool : AlertSystem.cooldown_seconds r
                  <= now - AlertSystem.last_alert_time r).
  { pose proof (f_equal snd R4) as Rc. cbn [Trace.alert_settings snd] in Rc.
    rewrite R3, Rc. lra. }
  apply Qlt_bool_false in Hcool.
  repeat split; trivial.
  - unfold AlertSystem.trigger_alert. rewrite Hcool, R1. reflexivity.
  - unfold AlertSystem.trigger_alert. rewrite Hcool, R1.
    cbn [snd AlertSystem.alert_count]. rewrite R2. reflexivity.
Qed.

Lemma reset_clears_cooldown_witness :
  let alerting := snd (AlertSystem.trigger_alert 1000 Fixtures.alerts) in
  fst (AlertSystem.trigger_alert 1001 alerting) = false
  /\ fst (AlertSystem.trigger_alert 1001 (AlertSystem.reset true alerting))
     = true.
Proof.
  split; [reflexivity|].
  apply (reset_clears_cooldown
           (snd (AlertSystem.trigger_alert 1000 Fixtures.alerts)) true 1001).
  discriminate.
Defined.

Lemma process_eyes_reset (euclidean : Point -> Point -> Q)
    (s s' : EyeTracker.t) (l r : list Point) (m : EyeMetrics.t) :
  EyeTracker.process_eyes euclidean s l r = Ok (m, s') ->
  EyeTracker.reset s' = EyeTracker.reset s.
Proof.
  unfold EyeTracker.process_eyes.
  destruct (EyeTracker.calculate_ear euclidean l) as [vl|]; [|discriminate].
  destruct (EyeTracker.calculate_ear euclidean r) as [vr|]; [|discriminate].
  cbn [bind]. intro E. now injection E as _ <-.
Qed.

Lemma process_mouth_reset (euclidean : Point -> Point -> Q)
    (s s' : YawnDetector.t) (f : list Point) (m : YawnMetrics.t) :
  YawnDetector.process_mouth euclidean s f = Ok (m, s') ->
  YawnDetector.reset s' = YawnDetector.reset s.
Proof.
  unfold YawnDetector.process_mouth.
  destruct (YawnDetector.calculate_mar euclidean f) as [v|]; [|discriminate].
  cbn [bind]. intro E. now injection E as _ <-.
Qed.

Lemma dispatch_alert_settings (inp : DrowsinessDetector.FrameInput)
    (res : DetectionResult.t) (a : AlertSystem.t) :
  Trace.alert_settings (DrowsinessDetector.dispatch_alert inp res a)
  = Trace.alert_settings a.
Proof.
  assert (T : Trace.alert_settings
                (snd (AlertSystem.trigger_alert
                        (DrowsinessDetector.time_alert inp) a))
              = Trace.alert_settings a).
  { unfold AlertSystem.trigger_alert.
    destruct (Qlt_bool _ _); [reflexivity|].
    destruct (AlertSystem.is_alerting a); reflexivity. }
  assert (S : Trace.alert_settings
                (AlertSystem.stop_alert (DrowsinessDetector.join_ok inp) a)
              = Trace.alert_settings a).
  { unfold AlertSystem.stop_alert.
    destruct (negb (AlertSystem.is_alerting a)); reflexivity. }
  unfold DrowsinessDetector.dispatch_alert.
  destruct (DetectionResult.is_drowsy res); [exact T|].
  destruct (DetectionResult.is_fatigued res); [exact T|].
  destruct (negb _ && negb _); [exact S | reflexivity].
Qed.

Section Lifecycle.

Variable euclidean : Point -> Point -> Q.
Variable solvePnP :
  list Vec3 -> list Point -> list (list Q) -> option (Vec3 * Vec3).
Variable euler_degrees : Vec3 -> Q * Q * Q.

Lemma process_frame_built_from (config : Config.t) (audio_ok : bool)
    (d d' : DrowsinessDetector.t) (inp : DrowsinessDetector.FrameInput)
    (res : DetectionResult.t) :
  Trace.built_from config audio_ok d ->
  DrowsinessDetector.process_frame euclidean solvePnP euler_degrees d inp
  = Ok (res, d') ->
  Trace.built_from config audio_ok d'.
Proof.
  intros (B1 & B2 & B3 & B4 & B5 & B6).
  unfold DrowsinessDetector.process_frame.
  destruct (DrowsinessDetector.detected_landmarks inp) as [lm|].
  - destruct (FaceDetector.get_eye_landmarks lm) as [[le re]|];
      cbn [bind]; [|discriminate].
    destruct (EyeTracker.process_eyes euclidean _ le re) as [[em et]|] eqn:Ee;
      cbn [bind]; [|discriminate].
    destruct (FaceDetector.get_mouth_landmarks lm) as [ml|];
      cbn [bind]; [|discriminate].
    destruct (YawnDetector.process_mouth euclidean _ ml) as [[ym yd]|] eqn:Em;
      cbn [bind]; [|discriminate].
    destruct (HeadPoseEstimator.estimate_pose _ _ _ lm _) as [[hm hp]|];
      cbn [bind]; [|discriminate].
    destruct (EyeTracker.get_drowsiness_score et) as [score|];
      cbn [bind]; [|discriminate].
    intro E. injection E as _ <-.
    unfold Trace.built_from. cbn [DrowsinessDetector.config
      DrowsinessDetector.drowsy_frames_threshold
      DrowsinessDetector.blink_frames_threshold
      DrowsinessDetector.eye_tracker DrowsinessDetector.yawn_detector
      DrowsinessDetector.alert_system].
    rewrite (process_eyes_reset euclidean _ _ _ _ _ Ee),
      (process_mouth_reset euclidean _ _ _ _ Em), dispatch_alert_settings.
    repeat split; assumption.
  - intro E. injection E as _ <-.
    unfold Trace.built_from. cbn [DrowsinessDetector.config
      DrowsinessDetector.drowsy_frames_threshold
      DrowsinessDetector.blink_frames_threshold
      DrowsinessDetector.eye_tracker DrowsinessDetector.yawn_detector
      DrowsinessDetector.alert_system].
    repeat split; assumption.
Qed.

Lemma process_frames_built_from (config : Config.t) (audio_ok : bool)
    (inputs : list DrowsinessDetector.FrameInput) :
  forall d d' : DrowsinessDetector.t,
  Trace.built_from config audio_ok d ->
  Trace.process_frames euclidean solvePnP euler_degrees d inputs = Ok d' ->
  Trace.built_from config audio_ok d'.
Proof.
  induction inputs as [|inp rest IH]; intros d d' B E; cbn in E.
  - now injection E as <-.
  - destruct (DrowsinessDetector.process_frame euclidean solvePnP
                euler_degrees d inp) as [[res d1]|] eqn:E1; [|discriminate].
    cbn in E. eapply IH; [|exact E].
    eapply process_frame_built_from; eassumption.
Qed.

End Lifecycle.

(** X24. [reset] gives back fresh trackers. For a detector constructed
    from a configuration that has since processed any run of frames,
    [reset] at time [now] restores the eye tracker and the yawn detector
    exactly as [__init__] builds them, sets [frame_count] to 0 and
    [start_time] to [now], leaves the alert dispatcher idle with zero
    [alert_count] and [last_alert_time] and the configured settings, and
    does not touch the head-pose estimator (which keeps the frame size it
    last saw). *)
Theorem detector_reset_restores_fresh_trackers
    (euclidean : Point -> Point -> Q)
    (solvePnP :
       list Vec3 -> list Point -> list (list Q) -> option (Vec3 * Vec3))
    (euler_degrees : Vec3 -> Q * Q * Q)
    (config : Config.t) (audio_ok : bool) (started now : Q) (joined : bool)
    (inputs : list DrowsinessDetector.FrameInput)
    (d : DrowsinessDetector.t) :
  Trace.process_frames euclidean solvePnP euler_degrees
    (DrowsinessDetector.init config audio_ok started) inputs = Ok d ->
  let fresh := DrowsinessDetector.init config audio_ok now in
  let r := DrowsinessDetector.reset joined now d in
  DrowsinessDetector.eye_tracker r = DrowsinessDetector.eye_tracker fresh
  /\ DrowsinessDetector.yawn_detector r
     = DrowsinessDetector.yawn_detector fresh
  /\ DrowsinessDetector.config r = DrowsinessDetector.config fresh
  /\ DrowsinessDetector.drowsy_frames_threshold r
     = DrowsinessDetector.drowsy_frames_threshold fresh
  /\ DrowsinessDetector.frame_count r = 0%Z
  /\ DrowsinessDetector.start_time r = now
  /\ DrowsinessDetector.head_pose r = DrowsinessDetector.head_pose d
  /\ AlertSystem.is_alerting (DrowsinessDetector.alert_system r) = false
  /\ AlertSystem.alert_count (DrowsinessDetector.alert_system r) = 0%Z
  /\ AlertSystem.last_alert_time (DrowsinessDetector.alert_system r) = 0
  /\ Trace.alert_settings (DrowsinessDetector.alert_system r)
     = Trace.alert_settings (DrowsinessDetector.alert_system fresh).
Proof.
  intros E fresh r.
  assert (B0 : Trace.built_from config audio_ok
                 (DrowsinessDetector.init config audio_ok started))
    by (unfold Trace.built_from; cbn; repeat split).
  destruct (process_frames_built_from euclidean solvePnP euler_degrees
              config audio_ok inputs _ d B0 E)
    as (B1 & B2 & B3 & B4 & B5 & B6).
  assert (Hs : AlertSystem.is_alerting
                 (AlertSystem.stop_alert joined
                    (DrowsinessDetector.alert_system d)) = false
               /\ Trace.alert_settings
                    (AlertSystem.stop_alert joined
                       (DrowsinessDetector.alert_system d))
                  = Trace.alert_settings (DrowsinessDetector.alert_system d)).
  { unfold AlertSystem.stop_alert, Trace.alert_settings.
    destruct (AlertSystem.is_alerting (DrowsinessDetector.alert_system d))
      eqn:Ea; cbn; auto. }
  destruct Hs as [Hi Hset].
  unfold r, fresh, DrowsinessDetector.reset, AlertSystem.reset.
  cbn [DrowsinessDetector.eye_tracker DrowsinessDetector.yawn_detector
       DrowsinessDetector.config DrowsinessDetector.drowsy_frames_threshold
       DrowsinessDetector.frame_count DrowsinessDetector.start_time
       DrowsinessDetector.head_pose DrowsinessDetector.alert_system
       AlertSystem.is_alerting AlertSystem.alert_count
       AlertSystem.last_alert_time].
  repeat split; trivial.
  unfold Trace.alert_settings in *. cbn in *. congruence.
Qed.

Lemma detector_reset_restores_fresh_trackers_witness :
  DrowsinessDetector.eye_tracker
    (DrowsinessDetector.reset true 2000 Scenarios.detector_after_two_frames)
  = DrowsinessDetector.eye_tracker Fixtures.detector
  /\ DrowsinessDetector.frame_count
       (DrowsinessDetector.reset true 2000
          Scenarios.detector_after_two_frames) = 0%Z
  /\ AlertSystem.is_alerting
       (DrowsinessDetector.alert_system
          (DrowsinessDetector.reset true 2000
             Scenarios.detector_after_two_frames)) = false.
Proof.
  destruct (detector_reset_restores_fresh_trackers Fixtures.euclidean
              (Fixtures.solvePnP_const (- (40), 0, 0))
              Fixtures.euler_degrees Config.default true 1000 2000 true
              Scenarios.two_frames Scenarios.detector_after_two_frames)
    as (He & _ & _ & _ & Hf & _ & _ & Ha & _).
  - vm_compute; reflexivity.
  - auto.
Defined.

Section YawnStartUp.

Variable euclidean : Point -> Point -> Q.

Lemma process_mouth_all_start_up (fs : list (list Point)) :
  forall s s' : YawnDetector.t,
  (0 <= YawnDetector.yawn_frame_count s <= YawnDetector.frame_number s)%Z ->
  ((0 < YawnDetector.total_yawns s)%Z ->
   (YawnDetector.min_yawn_frames s < YawnDetector.frame_number s)%Z) ->
  Trace.process_mouth_all euclidean s fs = Ok s' ->
  (0 <= YawnDetector.yawn_frame_count s' <= YawnDetector.frame_number s')%Z
  /\ ((0 < YawnDetector.total_yawns s')%Z ->
      (YawnDetector.min_yawn_frames s < YawnDetector.frame_number s')%Z)
  /\ YawnDetector.min_yawn_frames s' = YawnDetector.min_yawn_frames s.
Proof.
  induction fs as [|f rest IH]; intros s s' Hc Ht E; cbn in E.
  - injection E as <-. auto.
  - destruct (YawnDetector.process_mouth euclidean s f)
      as [[m s1]|] eqn:E1; [|discriminate].
    cbn in E.
    assert (H1 : (0 <= YawnDetector.yawn_frame_count s1
                  <= YawnDetector.frame_number s1)%Z
                 /\ ((0 < YawnDetector.total_yawns s1)%Z ->
                     (YawnDetector.min_yawn_frames s
                      < YawnDetector.frame_number s1)%Z)
                 /\ YawnDetector.min_yawn_frames s1
                    = YawnDetector.min_yawn_frames s).
    { revert E1. unfold YawnDetector.process_mouth.
      destruct (YawnDetector.calculate_mar euclidean f) as [v|];
        [|discriminate].
      cbn [bind]. intro E1. injection E1 as _ <-. cbn.
      destruct (Qlt_bool (YawnDetector.mar_threshold s) v); cbn.
      - repeat split; lia.
      - destruct (YawnDetector.is_yawning s); cbn; [|repeat split; lia].
        destruct (YawnDetector.min_yawn_frames s
                  <=? YawnDetector.yawn_frame_count s)%Z eqn:Em;
          repeat split; lia. }
    destruct H1 as (Hc1 & Ht1 & Hm1).
    assert (Ht1' : (0 < YawnDetector.total_yawns s1)%Z ->
                   (YawnDetector.min_yawn_frames s1
                    < YawnDetector.frame_number s1)%Z)
      by (rewrite Hm1; exact Ht1).
    destruct (IH s1 s' Hc1 Ht1' E) as (Hc' & Ht' & Hm').
    rewrite Hm1 in Ht', Hm'. auto.
Qed.

End YawnStartUp.

(** X25. No yawn before the debounce time: a freshly constructed detector
    that has processed no more than [min_yawn_frames] frames, of whatever
    content, has counted no yawn and indicates no fatigue when
    [consecutive_yawns_alert] is positive. *)
Theorem no_yawn_before_min_frames
    (euclidean : Point -> Point -> Q)
    (mar_threshold : Q) (min_yawn_frames : Z) (history_size : nat)
    (consecutive_yawns_alert : Z) (fs : list (list Point))
    (s : YawnDetector.t) :
  Trace.process_mouth_all euclidean
    (YawnDetector.init mar_threshold min_yawn_frames history_size
                       consecutive_yawns_alert) fs = Ok s ->
  (Z.of_nat (length fs) <= min_yawn_frames)%Z ->
  (0 < consecutive_yawns_alert)%Z ->
  YawnDetector.total_yawns s = 0%Z
  /\ YawnDetector.recent_yawns s = []
  /\ YawnDetector.is_fatigue_indicated s = false.
Proof.
  intros E Hn Hpos.
  destruct (process_mouth_all_start_up euclidean fs
              (YawnDetector.init mar_threshold min_yawn_frames history_size
                                 consecutive_yawns_alert) s)
    as (_ & Ht & _); [cbn; lia | cbn; lia | exact E |].
  destruct (process_mouth_all_counters euclidean fs _ s
              (fresh_yawn_detector_consistent mar_threshold min_yawn_frames
                 history_size consecutive_yawns_alert) E)
    as ((_ & _ & _ & _ & _ & Hl) & N & T & (_ & _ & Kc) & _).
  cbn in Ht, N, T, Kc.
  assert (T0 : YawnDetector.total_yawns s = 0%Z) by lia.
  assert (R0 : YawnDetector.recent_yawns s = []).
  { destruct (YawnDetector.recent_yawns s); [reflexivity|].
    cbn [length] in Hl. lia. }
  repeat split; trivial.
  unfold YawnDetector.is_fatigue_indicated. rewrite R0, Kc. cbn.
  apply Z.leb_gt. exact Hpos.
Qed.

Lemma no_yawn_before_min_frames_witness :
  match Trace.process_mouth_all Fixtures.euclidean Fixtures.yawn_detector
          (repeat Fixtures.open_mouth 3) with
  | Ok s => YawnDetector.total_yawns s = 0%Z
  | Raise _ => False
  end.
Proof.
  destruct (Trace.process_mouth_all Fixtures.euclidean Fixtures.yawn_detector
              (repeat Fixtures.open_mouth 3)) as [s|e] eqn:E.
  - apply (no_yawn_before_min_frames Fixtures.euclidean (5 # 10) 3 30 3
             (repeat Fixtures.open_mouth 3) s E).
    + simpl; lia.
    + reflexivity.
  - vm_compute in E. discriminate.
Defined.
